(** * Open Viper Loader: the pentad protocol, host side and bridge firmware

    A shallow embedding of the chip protocol of [viper_loader.c], of the
    serial streams of [arduino_serial.c] and of the firmware sketch
    [viper_arduino_bridge.ino].

    C integers are [Z] with the conversions written out ([u8], [u32]); the
    bus is a trace of events, and what the chip answers is a function of
    everything that happened on the bus before the sample is taken. *)

From Stdlib Require Import ZArith List Bool Lia.
From Stdlib Require Ascii String.
Import ListNotations.
Local Open Scope Z_scope.

(** ** C integer conversions *)

(** Conversion to [uint8_t]. *)
Definition u8 (x : Z) : Z := x mod 256.

(** Conversion to [uint32_t]. *)
Definition u32 (x : Z) : Z := x mod 4294967296.

(** A C scalar used as a condition. *)
Definition truthy (x : Z) : bool := negb (x =? 0).

(** ** Computations over a trace of events

    A computation reads the trace so far (oldest event first) and yields a
    result together with the events it adds. *)

Definition Run (E A : Type) : Type := list E -> A * list E.

Definition ret {E A : Type} (a : A) : Run E A := fun _ => (a, []).

Definition bind {E A B : Type} (m : Run E A) (k : A -> Run E B) : Run E B :=
  fun h =>
    let (a, t1) := m h in
    let (b, t2) := k a (h ++ t1) in
    (b, t1 ++ t2).

Definition emit {E : Type} (e : E) : Run E unit := fun _ => (tt, [e]).

Declare Scope run_scope.
Delimit Scope run_scope with run.
Notation "x <- m ;; k" := (bind m (fun x => k))
  (at level 61, m at next level, right associativity) : run_scope.
Notation "m ;; k" := (bind m (fun _ => k))
  (at level 61, right associativity) : run_scope.
Local Open Scope run_scope.

(** [for (i = i0; ...; i += step) body], for a loop that runs [n] times,
    with the variables the body updates in [s]; the body answers [inr r]
    when it executes [return r] (or leaves the loop with [break]), [inl s']
    when the loop goes on.  The counter is a [uint32_t] or narrower. *)
Fixpoint for_step {E St R : Type} (n : nat) (i step : Z) (s : St)
    (body : Z -> St -> Run E (St + R)) : Run E (St + R) :=
  match n with
  | O => ret (inl s)
  | S n' =>
      x <- body i s ;;
      match x with
      | inl s' => for_step n' (u32 (i + step)) step s' body
      | inr r => ret (inr r)
      end
  end.

(** [for (i = i0; i < i0 + n; ++i) body]. *)
Definition for_range {E St R : Type} (n : nat) (i : Z) (s : St)
    (body : Z -> St -> Run E (St + R)) : Run E (St + R) :=
  for_step n i 1 s body.

(** [a || b] on two calls: [b] runs only when [a] answered 0. *)
Definition orelse {E : Type} (a b : Run E Z) : Run E Z :=
  x <- a ;;
  if truthy x then ret 1
  else y <- b ;; ret (if truthy y then 1 else 0).

(** [buf] after [bytes] were stored from index [i] on. *)
Definition store (buf : list Z) (i : Z) (bytes : list Z) : list Z :=
  firstn (Z.to_nat i) buf ++ bytes
    ++ skipn (Z.to_nat i + length bytes) buf.

(** ** The host program, [viper_loader.c] and [arduino_serial.c] *)

Module Host.

(** What the program prints; only the messages of the functions embedded
    here. *)
Inductive message : Type :=
| MsgErasing            (* "Erasing memory... " *)
| MsgDone               (* "Done\n" *)
| MsgCmdReadFailed      (* "CMD_READ failed in read_byte\n" *)
| MsgAckBit (i : Z)     (* "Error while ack bit %u\n" *)
| MsgReadingTo          (* "Reading bios to file %s\n" *)
| MsgInitReadFailed     (* "Error while initializing the chip for reading\n" *)
| MsgReading            (* "Reading...\n" *)
| MsgStreamReadFailed   (* "\nError while reading from the chip.\n" *)
| MsgReadAt (i : Z)     (* "Error while reading at address 0x%05x\n" *)
| MsgPercent (p : Z)    (* "\r%02u%% done" *)
| MsgReadComplete       (* "\nRead complete\n" *)
| MsgNoFile             (* "Couldn't create file '%s', check access rights\n" *)
| MsgSelectError        (* perror("Select error") *)
| MsgTimedOut           (* "\nArduino timed out\n" *)
| MsgWriteFailure       (* perror("Serial write failure") *)
| MsgReceived (i max : Z)          (* "\rReceived %06u/%06u bytes" *)
| MsgReadFailure (r ack : Z)       (* "Serial read failure r=%d %u %02x\n" *)
| MsgWritten (i sz : Z)            (* "\rWritten %06u/%06u bytes" *)
| MsgNewline.           (* "\n" *)

(** One thing the program does to the outside.  [Outb v] is a call
    [_outb(v)], [Inb v] a call [_inb()] that returned [v], whichever
    transport (parallel port or serial bridge) carries them.  The other
    serial events are the system calls of the two stream functions on
    [g_cfg.serial]: [Tx bs] a [write] that sent [bs], [TxFailed] a [write]
    that returned 0 or less, [Select t r] a [select] with a timeout of [t]
    seconds that returned [r], [Rx bs] a [read] that returned [bs],
    [RxFailed] a [read] that returned -1.
    [Fopen ok] is the [fopen] of the output file, [Fwrite bs] the [fwrite]
    of [bs] to it. *)
Inductive event : Type :=
| Outb (v : Z)
| Inb (v : Z)
| Usleep (us : Z)
| Printf (m : message)
| Eprintf (m : message)
| Tx (bytes : list Z)
| TxFailed
| Select (timeout r : Z)
| Rx (bytes : list Z)
| RxFailed
| Fopen (ok : bool)
| Fwrite (bytes : list Z).

Definition trace : Type := list event.

#[local] Abbreviation Run := (Run event).

Definition CMD_RESET : Z := 0x00.
Definition CMD_ERASE : Z := 0x03.
Definition CMD_WRITE_BYTE : Z := 0x05.
Definition CMD_READ_INIT : list Z := [0x11; 0x00; 0x00; 0x00; 0x00].
Definition CMD_READ : Z := 0x0d.

Definition MASK_CHIP_DATA : Z := 0x10.
Definition MASK_CHIP_ERR : Z := 0x08.

Definition BIOS_SIZE : Z := 0x20000.

Section Machine.

(** [g_cfg.safe_mode]. *)
Variable safe_mode : bool.

(** The status register as [_inb] finds it, given the trace so far. *)
Variable chip : trace -> Z.

Definition _outb (data : Z) : Run unit := emit (Outb (u8 data)).

Definition _inb : Run Z := fun h => let v := u8 (chip h) in (v, [Inb v]).

Definition usleep (us : Z) : Run unit := emit (Usleep us).
Definition printf (m : message) : Run unit := emit (Printf m).
Definition eprintf (m : message) : Run unit := emit (Eprintf m).

(** [fwrite(buf, 1, BIOS_SIZE, file)]. *)
Definition fwrite_all (buf : list Z) : Run unit :=
  emit (Fwrite (firstn (Z.to_nat BIOS_SIZE) buf)).

Definition MAX_TRIES : nat := 4.

Definition safe_mode_check (high : bool) : Run Z :=
  x <- for_range MAX_TRIES 0 tt (fun tries _ =>
         v <- _inb ;;
         let r := Z.land v MASK_CHIP_ERR in
         if (high && negb (r =? 0)) || (negb high && (r =? 0))
         then ret (inr 0)
         else usleep (Z.shiftl 1 tries * 125) ;; ret (inl tt)) ;;
  match x with
  | inr r => ret r
  | inl _ => ret 1
  end.

(** [g_cfg.safe_mode && safe_mode_check(high)]. *)
Definition checked (high : bool) : Run Z :=
  if safe_mode then safe_mode_check high else ret 0.

Definition outp (data : Z) : Run Z :=
  let data := u8 data in
  let formatted_data := Z.land data 0xf in
  let formatted_data :=
    if truthy (Z.land data 0x10) then Z.lor formatted_data 0x20
    else formatted_data in
  _outb formatted_data ;;
  r <- checked true ;;
  if truthy r then ret 1
  else
    _outb (Z.lor formatted_data 0x10) ;;
    r <- checked false ;;
    if truthy r then ret 1 else ret 0.

(** [read_byte(&out)]: the argument is what [*out] holds before the call,
    the second component of the answer what it holds after it. *)
Definition read_byte (out : Z) : Run (Z * Z) :=
  r <- outp CMD_READ ;;
  if truthy r then eprintf MsgCmdReadFailed ;; ret (1, out)
  else
    x <- for_range 8 0 0 (fun i data =>
           val <- _inb ;;
           let data :=
             u8 (Z.lor (Z.shiftl (Z.land val MASK_CHIP_DATA) 3)
                       (Z.shiftr data 1)) in
           r <- outp i ;;
           if truthy r then eprintf (MsgAckBit i) ;; ret (inr 1)
           else ret (inl data)) ;;
    match x with
    | inr r => ret (r, out)
    | inl data => ret (0, data)
    end.

Definition init_read_mode : Run Z :=
  orelse (orelse (orelse (orelse (outp (nth 0 CMD_READ_INIT 0))
                                 (outp (nth 1 CMD_READ_INIT 0)))
                         (outp (nth 2 CMD_READ_INIT 0)))
                 (outp (nth 3 CMD_READ_INIT 0)))
         (outp (nth 4 CMD_READ_INIT 0)).

Definition write_byte (data address : Z) : Run Z :=
  if data =? 0xff then ret 0
  else
    let address := Z.land address 0x1ffff in
    r <- outp CMD_WRITE_BYTE ;;
    if truthy r then ret 1 else
    r <- outp (Z.lor (Z.land (Z.shiftr data 3) 0x1c) (Z.shiftr address 15)) ;;
    if truthy r then ret 1 else
    r <- outp (Z.shiftr address 10) ;;
    if truthy r then ret 1 else
    r <- outp (Z.shiftr address 5) ;;
    if truthy r then ret 1 else
    r <- outp address ;;
    if truthy r then ret 1 else
    for_range 4 0 tt (fun _ _ => outp data ;; ret (inl tt) : Run (unit + Z)) ;;
    ret 0.

(** The [do ... while (c1 != c2)] loop of [erase_chip]; it has no bound
    of its own, [fuel] bounds the rounds the model follows and [None] is
    a loop still running when the fuel is spent. *)
Fixpoint erase_poll (fuel : nat) (c2 : Z) : Run (option unit) :=
  match fuel with
  | O => ret None
  | S fuel' =>
      let c1 := c2 in
      init_read_mode ;;
      x <- read_byte c2 ;;
      let c2 := snd x in
      if negb (c1 =? c2) then erase_poll fuel' c2 else ret (Some tt)
  end.

(** [erase_chip()]; [c2] is declared without a value, [garbage] is what
    the variable happens to hold. *)
Definition erase_chip (fuel : nat) (garbage : Z) : Run (option unit) :=
  printf MsgErasing ;;
  for_range 13 0 tt (fun _ _ => outp CMD_ERASE ;; ret (inl tt) : Run (unit + Z)) ;;
  init_read_mode ;;
  x <- read_byte garbage ;;
  done <- erase_poll fuel (snd x) ;;
  match done with
  | None => ret None
  | Some _ => printf MsgDone ;; ret (Some tt)
  end.

(** *** [arduino_serial.c] *)

(** [use_serial()], that is [g_cfg.serial != -1]. *)
Variable use_serial : bool.

(** What [select] returns on the serial descriptor, what [read] finds on
    the line ([None] when it fails), whether a [write] goes through and
    whether the output file can be created, each given the trace so far. *)
Variable sel : trace -> Z.
Variable incoming : trace -> option (list Z).
Variable wr_ok : trace -> bool.
Variable fopen_ok : trace -> bool.

(** [g_cfg.timeout], in seconds. *)
Definition cfg_timeout : Z := 1.

(** [write(g_cfg.serial, bytes, length bytes)]. *)
Definition write (bytes : list Z) : Run Z :=
  fun h => if wr_ok h then (Z.of_nat (length bytes), [Tx bytes])
           else (-1, [TxFailed]).

(** [read(g_cfg.serial, buf, count)]: the return value and the bytes
    stored, which are none when [read] fails and returns -1. *)
Definition read (count : Z) : Run (Z * list Z) :=
  fun h => match incoming h with
           | Some bytes =>
               let bs := firstn (Z.to_nat count) (map u8 bytes) in
               ((Z.of_nat (length bs), bs), [Rx bs])
           | None => ((-1, []), [RxFailed])
           end.

Definition select (timeout : Z) : Run Z :=
  fun h => let r := sel h in (r, [Select timeout r]).

Definition serial_wait_data (timeout : option Z) (silent_timeout : bool)
    : Run Z :=
  let to := match timeout with Some t => t | None => cfg_timeout end in
  r <- select to ;;
  if r =? -1 then eprintf MsgSelectError ;; ret (-1)
  else if r =? 0 then
    (if negb silent_timeout then eprintf MsgTimedOut else ret tt) ;;
    ret (-2)
  else ret 0.

(** The loop of [serial_read_byte_stream]: [i] advances by what [read]
    returns, which may be nothing, or -1, which is added to [i] as it is;
    so the rounds are bounded by [fuel] and [None] is a loop still running
    when the fuel is spent. *)
Fixpoint read_stream_loop (fuel : nat) (i max : Z) (bios_buffer : list Z)
    : Run (option (Z * list Z)) :=
  if i <? max then
    match fuel with
    | O => ret None
    | S fuel' =>
        w <- serial_wait_data None false ;;
        if truthy w then ret (Some (1, bios_buffer))
        else
          x <- read (max - i) ;;
          let bios_buffer := store bios_buffer i (snd x) in
          let i := u32 (i + fst x) in
          printf (MsgReceived i max) ;;
          read_stream_loop fuel' i max bios_buffer
    end
  else ret (Some (0, bios_buffer)).

(** [serial_read_byte_stream(bios_buffer, max)]: the return value and the
    buffer afterwards. *)
Definition serial_read_byte_stream (fuel : nat) (bios_buffer : list Z)
    (max : Z) : Run (option (Z * list Z)) :=
  let read_cmd := [u8 (Z.lor 0x80 (Z.shiftr max 16));
                   Z.land (Z.shiftr max 8) 0xff;
                   Z.land max 0xff] in
  w <- write read_cmd ;;
  if w <=? 0 then eprintf MsgWriteFailure ;; ret (Some (1, bios_buffer))
  else read_stream_loop fuel 0 max bios_buffer.

(** The number of rounds of [for (i = 0; i < data_sz; i += 60)]. *)
Definition chunks (data_sz : Z) : nat := Z.to_nat ((data_sz + 59) / 60).

Definition serial_write_byte_stream (data : list Z) (data_sz : Z) : Run Z :=
  let write_cmd := [u8 (Z.lor 0xc0 (Z.shiftr data_sz 16));
                    Z.land (Z.shiftr data_sz 8) 0xff;
                    Z.land data_sz 0xff] in
  w <- write write_cmd ;;
  if w <=? 0 then eprintf MsgWriteFailure ;; ret 1
  else
    x <- for_step (chunks data_sz) 0 60 0x69 (fun i ack =>
           let left := u32 (data_sz - i) in
           let write_sz := if left <? 60 then left else 60 in
           w <- write (firstn (Z.to_nat write_sz) (skipn (Z.to_nat i) data)) ;;
           if w <=? 0 then eprintf MsgWriteFailure ;; ret (inr 1)
           else
             (* Add padding *)
             (if left <? 60
              then write (firstn (Z.to_nat (60 - left)) (repeat 0 59)) ;;
                   ret tt
              else ret tt) ;;
             w <- serial_wait_data (Some 5) false ;;
             if truthy w then ret (inr 1)
             else
               x <- read 1 ;;
               let r := fst x in
               let ack := nth 0 (snd x) ack in
               if negb (r =? 1) || negb (ack =? 60)
               then eprintf (MsgReadFailure r ack) ;; ret (inr 1)
               else printf (MsgWritten (i + write_sz) data_sz) ;;
                    ret (inl ack)) ;;
    match x with
    | inr r => ret r
    | inl _ => printf MsgNewline ;; ret 0
    end.

(** *** [read_bios] *)

Definition fopen : Run bool :=
  fun h => let ok := fopen_ok h in (ok, [Fopen ok]).

(** [read_bios()]; [garbage] is what the array [bios_buffer], declared
    without a value, happens to hold. *)
Definition read_bios (fuel : nat) (garbage : list Z) : Run (option Z) :=
  let bios_buffer := garbage in
  let one_percent := BIOS_SIZE / 100 in
  printf MsgReadingTo ;;
  r <- init_read_mode ;;
  if truthy r then
    eprintf MsgInitReadFailed ;; outp CMD_RESET ;; ret (Some 1)
  else
    printf MsgReading ;;
    s <- (if use_serial
          then serial_read_byte_stream fuel bios_buffer BIOS_SIZE
          else ret (Some (0, bios_buffer))) ;;
    match s with
    | None => ret None
    | Some (failed, bios_buffer) =>
        (if use_serial && truthy failed
         then eprintf MsgStreamReadFailed else ret tt) ;;
        x <- (if use_serial then ret (inl bios_buffer)
              else for_range (Z.to_nat BIOS_SIZE) 0 bios_buffer
                     (fun i bios_buffer =>
                        x <- read_byte (nth (Z.to_nat i) bios_buffer 0) ;;
                        let bios_buffer := store bios_buffer i [snd x] in
                        if truthy (fst x)
                        then eprintf (MsgReadAt i) ;; ret (inr bios_buffer)
                        else
                          (if i mod one_percent =? 0
                           then printf (MsgPercent (i / one_percent))
                           else ret tt) ;;
                          ret (inl bios_buffer))) ;;
        let bios_buffer := match x with inl b => b | inr b => b end in
        outp CMD_RESET ;;
        printf MsgReadComplete ;;
        ok <- fopen ;;
        if negb ok then eprintf MsgNoFile ;; ret (Some 1)
        else fwrite_all bios_buffer ;; ret (Some 0)
    end.

End Machine.

(** *** What the chip sees and what a run shows

    The chip takes a pentad from the six wires while the strobe (bit 4 of
    the byte written) is low: bits 0 to 3 are the low bits of the payload
    and bit 5 is its bit 4. *)

Definition strobe (v : Z) : bool := truthy (Z.land v 0x10).

Definition payload (v : Z) : Z :=
  Z.lor (Z.land v 0xf) (if truthy (Z.land v 0x20) then 0x10 else 0).

(** The pentads a trace presents to the chip, in order. *)
Fixpoint pentads (t : trace) : list Z :=
  match t with
  | [] => []
  | Outb v :: t' => if strobe v then pentads t' else payload v :: pentads t'
  | _ :: t' => pentads t'
  end.

(** The values the [_inb] calls of a trace returned, in order. *)
Fixpoint samples (t : trace) : list Z :=
  match t with
  | [] => []
  | Inb v :: t' => v :: samples t'
  | _ :: t' => samples t'
  end.

(** The byte [read_byte] builds from the eight status bytes it samples; the
    first sample gives bit 0. *)
Definition byte_of_samples (vals : list Z) : Z :=
  fold_left
    (fun data val =>
       u8 (Z.lor (Z.shiftl (Z.land val MASK_CHIP_DATA) 3) (Z.shiftr data 1)))
    vals 0.

(** The bytes read by a trace in which every sample is a data sample, as
    with safe mode off: one byte for each group of eight samples. *)
Fixpoint bytes_of (n : nat) (vals : list Z) : list Z :=
  match n, vals with
  | S n', _ :: _ =>
      byte_of_samples (firstn 8 vals) :: bytes_of n' (skipn 8 vals)
  | _, _ => []
  end.

Definition bytes_read (t : trace) : list Z :=
  bytes_of (length (samples t)) (samples t).

(** The bytes [l] read one after the other, after the byte [prev], stop at
    the first of them that equals the one read just before it. *)
Fixpoint stops_at_first_repeat (prev : Z) (l : list Z) : bool :=
  match l with
  | [] => false
  | x :: l' =>
      if prev =? x then match l' with [] => true | _ :: _ => false end
      else stops_at_first_repeat x l'
  end.

(** A handshake phase gave up: the sleep of 1000 us is the one that follows
    the fourth failed sample, after which [safe_mode_check] returns 1. *)
Definition signal_fault (t : trace) : Prop := List.In (Usleep 1000) t.

(** An event that presents a pentad, and a trace that presents none. *)
Definition presents (e : event) : bool :=
  match e with
  | Outb v => negb (strobe v)
  | _ => false
  end.

Definition quiet (t : trace) : Prop := Forall (fun e => presents e = false) t.

(** Whether a handshake gives up before the next pentad is presented. *)
Fixpoint gives_up (t : trace) : bool :=
  match t with
  | [] => false
  | Usleep us :: t' => (us =? 1000) || gives_up t'
  | e :: t' => if presents e then false else gives_up t'
  end.

(** The emissions of a trace: each pentad it presents, with whether the
    handshake that follows it gave up. *)
Fixpoint emissions (t : trace) : list (Z * bool) :=
  match t with
  | [] => []
  | Outb v :: t' =>
      if strobe v then emissions t'
      else (payload v, gives_up t') :: emissions t'
  | _ :: t' => emissions t'
  end.

(** The byte [outp] writes first for the pentad [data]. *)
Definition format (data : Z) : Z :=
  if truthy (Z.land data 0x10) then Z.lor (Z.land data 0xf) 0x20
  else Z.land data 0xf.

(** The pentad [outp] presents for the argument [x]. *)
Definition pentad_of (x : Z) : Z := Z.land (u8 x) 0x1f.

(** The five pentads that open a byte write: the command and the four that
    carry the address. *)
Definition write_pentads (data address : Z) : list Z :=
  let address := Z.land address 0x1ffff in
  [pentad_of CMD_WRITE_BYTE;
   pentad_of (Z.lor (Z.land (Z.shiftr data 3) 0x1c) (Z.shiftr address 15));
   pentad_of (Z.shiftr address 10);
   pentad_of (Z.shiftr address 5);
   pentad_of address].

(** Emissions that all went well. *)
Definition clean (ps : list Z) : list (Z * bool) := map (fun p => (p, false)) ps.

(** How a call that returned [r] and added [t] went: well, or with a
    handshake that gave up. *)
Definition outcome (r : Z) (t : trace) : Prop :=
  r = 0 /\ ~ signal_fault t \/ r = 1 /\ signal_fault t.

(** The bytes a trace sent on the serial line, in order, and the number of
    bytes it took from it. *)
Fixpoint wire (t : trace) : list Z :=
  match t with
  | [] => []
  | Tx bs :: t' => bs ++ wire t'
  | _ :: t' => wire t'
  end.

Fixpoint received (t : trace) : nat :=
  match t with
  | [] => O
  | Rx bs :: t' => (length bs + received t')%nat
  | _ :: t' => received t'
  end.

(** A serial line on which exactly the bytes of [line] come back, and the
    [select] that goes with it: ready while some of them are left. *)
Definition fed (line : list Z) (h : trace) : list Z :=
  skipn (received h) line.

Definition ready (line : list Z) (h : trace) : Z :=
  match fed line h with
  | [] => 0
  | _ :: _ => 1
  end.

(** A serial line on which no [read] fails: each finds the bytes that
    [bytes] gives. *)
Definition arriving (bytes : trace -> list Z) : trace -> option (list Z) :=
  fun h => Some (bytes h).

(** The level of the acknowledgment line in a status byte. *)
Definition err_high (v : Z) : bool := negb (Z.land v MASK_CHIP_ERR =? 0).

(** The address the chip rebuilds from the four pentads that carry it: two
    bits from the first, five from each of the others. *)
Definition address_of_pentads (p1 p2 p3 p4 : Z) : Z :=
  Z.lor (Z.lor (Z.lor (Z.shiftl (Z.land p1 0x3) 15) (Z.shiftl p2 10))
               (Z.shiftl p3 5))
        p4.

(** The byte last written with [_outb], [d] when there is none. *)
Fixpoint last_outb (d : Z) (h : trace) : Z :=
  match h with
  | [] => d
  | Outb v :: h' => last_outb v h'
  | _ :: h' => last_outb d h'
  end.

(** No chip at all: both input lines stay low. *)
Definition absent : trace -> Z := fun _ => 0.

(** A serial line on which every [write] goes through, one on which
    [select] always times out and nothing ever arrives, and an output file
    that can be created. *)
Definition writable : trace -> bool := fun _ => true.
Definition timing_out : trace -> Z := fun _ => 0.
Definition no_bytes : trace -> option (list Z) := arriving (fun _ => []).
Definition creatable : trace -> bool := fun _ => true.

(** A buffer of the size of the chip, all zero. *)
Definition blank : list Z := repeat 0 (Z.to_nat BIOS_SIZE).

(** A chip that acknowledges every pentad: the acknowledgment line is high
    while the strobe is low and low while it is high; [data] drives the
    data line. *)
Definition acking (data : trace -> bool) (h : trace) : Z :=
  Z.lor (if strobe (last_outb 0x10 h) then 0 else MASK_CHIP_ERR)
        (if data h then MASK_CHIP_DATA else 0).

(** A chip that acknowledges like [acking] as long as fewer than [n] bytes
    were written to it, and then keeps the acknowledgment line low. *)
Definition acking_until (n : nat) (data : trace -> bool) (h : trace) : Z :=
  if (length (filter (fun e => match e with Outb _ => true | _ => false end) h)
        <=? n)%nat
  then acking data h
  else if data h then MASK_CHIP_DATA else 0.

(** The bytes the [read] calls of a trace returned, in order. *)
Fixpoint rx_bytes (t : trace) : list Z :=
  match t with
  | [] => []
  | Rx bs :: t' => bs ++ rx_bytes t'
  | _ :: t' => rx_bytes t'
  end.

(** A serial line on which the bytes of [line] come back one for each
    [read]. *)
Definition trickle (line : list Z) (h : trace) : list Z :=
  firstn 1 (fed line h).

(** Whether an event is not a byte written with [_outb] that overflows the
    six wires. *)
Definition fits_wires (e : event) : Prop :=
  match e with
  | Outb v => Z.land (u8 v) 0x3f = v
  | _ => True
  end.

(** [reads safe_mode chip h outs vals t]: from the trace [h] on,
    [read_byte] is called once for each byte of [vals], on the bytes of
    [outs] in turn; each of these calls returns 0 and stores its byte of
    [vals]; [t] is what the calls add to the trace, each with what the
    program does between it and the next. *)
Inductive reads (safe_mode : bool) (chip : trace -> Z)
    : trace -> list Z -> list Z -> trace -> Prop :=
| reads_none (h : trace) (outs : list Z) :
    reads safe_mode chip h outs [] []
| reads_next (h : trace) (out : Z) (outs : list Z) (v : Z) (vals : list Z)
    (t between t' : trace) :
    read_byte safe_mode chip out h = ((0, v), t) ->
    reads safe_mode chip (h ++ t ++ between) outs vals t' ->
    reads safe_mode chip h (out :: outs) (v :: vals) (t ++ between ++ t').

End Host.

(** ** The bridge firmware, [viper_arduino_bridge.ino] *)

Module Firmware.

(** [Port v] is an assignment [PORTD = v]; [ErrPin l] and [SelPin l] are
    calls [digitalRead(PIN_ERR)] and [digitalRead(PIN_SEL)] that returned
    [HIGH] when [l] is [true]; [Delay ms] is [delay(ms)]; [SerialWrite b] is
    [Serial.write(b)]; [SerialRead bs] a [Serial.readBytes] that stored
    [bs]. *)
Inductive event : Type :=
| Port (v : Z)
| ErrPin (level : bool)
| SelPin (level : bool)
| Delay (ms : Z)
| SerialWrite (b : Z)
| SerialRead (bytes : list Z).

Definition trace : Type := list event.

#[local] Abbreviation Run := (Run event).

Definition CMD_READ : Z := 0x0d.
Definition CMD_WRITE_BYTE : Z := 0x05.

(** The register [PORTD] holds what was last assigned to it, [reset] before
    the first assignment. *)
Fixpoint last_port (reset : Z) (h : trace) : Z :=
  match h with
  | [] => reset
  | Port v :: h' => last_port v h'
  | _ :: h' => last_port reset h'
  end.

Section Machine.

(** [PORTD] when the sketch starts. *)
Variable PORTD0 : Z.

(** The levels of the two input pins, and the bytes that reach the serial
    port before a [Serial.readBytes] gives up, each given the trace so
    far. *)
Variable pin_err : trace -> bool.
Variable pin_sel : trace -> bool.
Variable serial_in : trace -> list Z.

Definition delay (ms : Z) : Run unit := emit (Delay ms).

Definition digitalRead_ERR : Run bool :=
  fun h => let l := pin_err h in (l, [ErrPin l]).

Definition digitalRead_SEL : Run bool :=
  fun h => let l := pin_sel h in (l, [SelPin l]).

Definition Serial_write (b : Z) : Run unit := emit (SerialWrite (u8 b)).

(** [Serial.readBytes(buffer, length)]: the bytes stored; the return
    value is their number. *)
Definition Serial_readBytes (len : Z) : Run (list Z) :=
  fun h => let bs := firstn (Z.to_nat len) (map u8 (serial_in h)) in
           (bs, [SerialRead bs]).

Definition outb (data : Z) : Run unit :=
  fun h =>
    (tt, [Port (u8 (Z.lor (Z.shiftl (u8 data) 2)
                          (Z.land (last_port PORTD0 h) 0x3)))]).

Definition inb : Run unit :=
  sel <- digitalRead_SEL ;;
  let r := if sel then Z.lor 0 0x10 else 0 in
  err <- digitalRead_ERR ;;
  let r := if err then Z.lor r 0x08 else r in
  Serial_write r.

Definition MAX_TRIES : nat := 4.

Definition safe_mode_check (check_high : bool) : Run Z :=
  x <- for_range MAX_TRIES 0 tt (fun tries _ =>
         l <- digitalRead_ERR ;;
         (* [l != LOW] when [check_high], [l != HIGH] otherwise *)
         if (check_high && l) || (negb check_high && negb l)
         then ret (inr 0)
         else delay 1 ;; ret (inl tt)) ;;
  match x with
  | inr r => ret r
  | inl _ => ret 1
  end.

Definition outp (data : Z) : Run Z :=
  let data := u8 data in
  let formatted_data := Z.land data 0xf in
  let formatted_data :=
    if truthy (Z.land data 0x10) then Z.lor formatted_data 0x20
    else formatted_data in
  outb formatted_data ;;
  r <- safe_mode_check true ;;
  if truthy r then ret 1
  else
    outb (Z.lor formatted_data 0x10) ;;
    r <- safe_mode_check false ;;
    if truthy r then ret 1 else ret 0.

Definition read_size (first : Z) : Run Z :=
  bs <- Serial_readBytes 2 ;;
  let size := store [0; 0] 0 bs in
  let first := Z.land first 0x3f in
  ret (Z.lor (Z.lor (u32 (Z.shiftl first 16))
                    (u32 (Z.shiftl (nth 0 size 0) 8)))
             (nth 1 size 0)).

Definition read_byte_stream (first : Z) : Run Z :=
  total <- read_size first ;;
  x <- for_range (Z.to_nat total) 0 0 (fun b data =>
         r <- outp CMD_READ ;;
         if truthy r then ret (inr 1)
         else
           y <- for_range 8 0 data (fun i data =>
                  let data := Z.shiftr data 1 in
                  l <- digitalRead_SEL ;;
                  let data := if l then Z.lor data 0x80 else data in
                  r <- outp i ;;
                  if truthy r then ret (inr 1) else ret (inl data)) ;;
           match y with
           | inr r => ret (inr r)
           | inl data => Serial_write data ;; ret (inl data)
           end) ;;
  match x with
  | inr r => ret r
  | inl _ => ret 0
  end.

Definition write_byte (address data : Z) : Run Z :=
  if data =? 0xff then ret 0
  else
    r <- outp CMD_WRITE_BYTE ;;
    if truthy r then ret 1 else
    r <- outp (Z.lor (Z.land (Z.shiftr data 3) 0x1c) (Z.shiftr address 15)) ;;
    if truthy r then ret 1 else
    r <- outp (Z.shiftr address 10) ;;
    if truthy r then ret 1 else
    r <- outp (Z.shiftr address 5) ;;
    if truthy r then ret 1 else
    r <- outp address ;;
    if truthy r then ret 1 else
    for_range 4 0 tt (fun _ _ => outp data ;; ret (inl tt) : Run (unit + Z)) ;;
    ret 0.

(** The body of the loop of [write_byte_stream], for the index [i] and the
    array [data_buffer]. *)
Definition write_byte_stream_body (i : Z) (data_buffer : list Z)
    : Run (list Z + Z) :=
  y <- (if i mod 60 =? 0 then
          (* Refill work buffer from serial buffer *)
          bs <- Serial_readBytes 60 ;;
          let r := u8 (Z.of_nat (length bs)) in
          Serial_write r ;;
          if r <? 60 then ret (inr 1)
          else ret (inl (store data_buffer 0 bs))
        else ret (inl data_buffer)) ;;
  match y with
  | inr r => ret (inr r)
  | inl data_buffer =>
      r <- write_byte i (nth (Z.to_nat (i mod 60)) data_buffer 0) ;;
      if truthy r then ret (inr 1) else ret (inl data_buffer)
  end.

(** [write_byte_stream(first)]; [garbage] is what the array
    [data_buffer], declared without a value, happens to hold. *)
Definition write_byte_stream (garbage : list Z) (first : Z) : Run Z :=
  total <- read_size first ;;
  x <- for_range (Z.to_nat total) 0 garbage write_byte_stream_body ;;
  match x with
  | inr r => ret r
  | inl _ => ret 0
  end.

(** The body of [loop()] once [serial_read_one_byte()] has returned [d]. *)
Definition command (garbage : list Z) (d : Z) : Run unit :=
  let sw := Z.land d 0xC0 in
  if sw =? 0x00 then outb d
  else if sw =? 0x40 then inb
  else if sw =? 0x80 then
    r <- read_byte_stream d ;;
    (if truthy r then delay 10000 else ret tt) ;;
    outp 0x0 ;; ret tt
  else if sw =? 0xC0 then
    r <- write_byte_stream garbage d ;;
    (if truthy r then delay 10000 else ret tt) ;;
    outp 0x0 ;; ret tt
  else ret tt.

End Machine.

(** *** What the chip sees and what a run shows

    The six wires are bits 2 to 7 of [PORTD]. *)

Definition wires (v : Z) : Z := Z.shiftr v 2.

Fixpoint pentads (t : trace) : list Z :=
  match t with
  | [] => []
  | Port v :: t' =>
      if Host.strobe (wires v) then pentads t'
      else Host.payload (wires v) :: pentads t'
  | _ :: t' => pentads t'
  end.

(** The five pentads that open a byte write; the address is used as it
    comes. *)
Definition write_pentads (data address : Z) : list Z :=
  [Host.pentad_of CMD_WRITE_BYTE;
   Host.pentad_of (Z.lor (Z.land (Z.shiftr data 3) 0x1c) (Z.shiftr address 15));
   Host.pentad_of (Z.shiftr address 10);
   Host.pentad_of (Z.shiftr address 5);
   Host.pentad_of address].

(** An event that presents a pentad, and a trace that presents none. *)
Definition presents (e : event) : bool :=
  match e with
  | Port v => negb (Host.strobe (wires v))
  | _ => false
  end.

Definition quiet (t : trace) : Prop := Forall (fun e => presents e = false) t.

(** The arguments of the [delay] calls of a trace, in order. *)
Fixpoint delays (t : trace) : list Z :=
  match t with
  | [] => []
  | Delay ms :: t' => ms :: delays t'
  | _ :: t' => delays t'
  end.

(** The bytes the sketch sent on the serial port, in order. *)
Fixpoint sent (t : trace) : list Z :=
  match t with
  | [] => []
  | SerialWrite b :: t' => b :: sent t'
  | _ :: t' => sent t'
  end.

(** The number of bytes the sketch has taken from the serial port. *)
Fixpoint consumed (t : trace) : nat :=
  match t with
  | [] => O
  | SerialRead bs :: t' => (length bs + consumed t')%nat
  | _ :: t' => consumed t'
  end.

(** A serial port on which exactly the bytes of [wire] arrive. *)
Definition fed (wire : list Z) (h : trace) : list Z :=
  skipn (consumed h) wire.

(** A trace that only drives the bus: it leaves the serial port alone and
    never waits. *)
Definition bus_only (t : trace) : Prop :=
  Forall (fun e => match e with
                   | SerialWrite _ | SerialRead _ | Delay _ => False
                   | _ => True
                   end) t.

(** The number of times the loop of [write_byte_stream] refills its buffer
    in [n] rounds from the index [i] on. *)
Fixpoint refills (n : nat) (i : Z) : nat :=
  match n with
  | O => O
  | S n' => ((if (i mod 60 =? 0)%Z then 1 else 0) + refills n' (i + 1)%Z)%nat
  end.

(** The acknowledgment pin with no chip at all: it stays low. *)
Definition absent : trace -> bool := fun _ => false.

(** The acknowledgment pin of a chip that acknowledges every pentad. *)
Definition acking (h : trace) : bool :=
  negb (Host.strobe (wires (last_port 0x40 h))).

(** Every assignment to [PORTD] in the trace leaves bits 0 and 1, the
    pins of the serial port, as they are in [low]. *)
Definition keeps_low_bits (low : Z) (t : trace) : Prop :=
  Forall (fun e => match e with
                   | Port v => Z.land v 0x3 = Z.land low 0x3
                   | _ => True
                   end) t.

(** The levels the [digitalRead(PIN_SEL)] calls of a trace returned, in
    order. *)
Fixpoint sel_levels (t : trace) : list bool :=
  match t with
  | [] => []
  | SelPin l :: t' => l :: sel_levels t'
  | _ :: t' => sel_levels t'
  end.

(** The byte whose bit [i] is the [i]-th level of [ls]. *)
Fixpoint byte_of_levels (ls : list bool) : Z :=
  match ls with
  | [] => 0
  | l :: ls' => (if l then 1 else 0) + 2 * byte_of_levels ls'
  end.

(** One round of the bit loop of [read_byte_stream]: [data] after the
    level [l] was shifted in. *)
Definition shift_in (l : bool) (data : Z) : Z :=
  if l then Z.lor (Z.shiftr data 1) 0x80 else Z.shiftr data 1.

(** One byte for each group of eight levels. *)
Fixpoint bytes_of_levels (n : nat) (ls : list bool) : list Z :=
  match n, ls with
  | S n', _ :: _ =>
      byte_of_levels (firstn 8 ls) :: bytes_of_levels n' (skipn 8 ls)
  | _, _ => []
  end.

End Firmware.

(** ** The rest of the host program: the serial transport of [_outb] and
    [_inb], the BIOS file, the options and [main] *)

Module Loader.

Import Ascii.

(** Conversion to [size_t], 64 bits wide. *)
Definition size_t (x : Z) : Z := x mod 18446744073709551616.

Definition EXIT_SUCCESS : Z := 0.
Definition EXIT_FAILURE : Z := 1.

Definition CMD_CHIP_INIT : list Z := [0xff; 0x0c; 0x12].

(** [enum operation]. *)
Inductive operation : Type := OP_UNSET | OP_READ | OP_WRITE | OP_COMPARE.

Definition operation_eqb (a b : operation) : bool :=
  match a, b with
  | OP_UNSET, OP_UNSET | OP_READ, OP_READ
  | OP_WRITE, OP_WRITE | OP_COMPARE, OP_COMPARE => true
  | _, _ => false
  end.

(** [struct config], without the descriptor set and the timeout, which no
    option changes; [op] is the field [operation]. *)
Record config : Type := {
  op : operation;
  safe_mode : bool;
  port : Z;
  serial : Z;
  file_path : String.string;
  serial_dev : String.string
}.

Definition g_cfg : config := {|
  op := OP_UNSET;
  safe_mode := true;
  port := 0x378;
  serial := -1;
  file_path := String.EmptyString;
  serial_dev := String.EmptyString
|}.

(** Assignments to the fields of [g_cfg]. *)
Definition set_op (o : operation) (cfg : config) : config :=
  {| op := o; safe_mode := safe_mode cfg; port := port cfg;
     serial := serial cfg; file_path := file_path cfg;
     serial_dev := serial_dev cfg |}.

Definition set_safe_mode (b : bool) (cfg : config) : config :=
  {| op := op cfg; safe_mode := b; port := port cfg;
     serial := serial cfg; file_path := file_path cfg;
     serial_dev := serial_dev cfg |}.

Definition set_port (p : Z) (cfg : config) : config :=
  {| op := op cfg; safe_mode := safe_mode cfg; port := p;
     serial := serial cfg; file_path := file_path cfg;
     serial_dev := serial_dev cfg |}.

Definition set_file_path (s : String.string) (cfg : config) : config :=
  {| op := op cfg; safe_mode := safe_mode cfg; port := port cfg;
     serial := serial cfg; file_path := s;
     serial_dev := serial_dev cfg |}.

Definition set_serial_dev (s : String.string) (cfg : config) : config :=
  {| op := op cfg; safe_mode := safe_mode cfg; port := port cfg;
     serial := serial cfg; file_path := file_path cfg;
     serial_dev := s |}.

(** What the program prints, besides the messages of [Host]. *)
Inductive message : Type :=
| MsgUsage              (* the text of [usage_exit] *)
| MsgSerialReadFailure  (* "Serial read failure %u\n" *)
| MsgCouldNotOpen       (* "Could not open file '%s'\n" *)
| MsgWontFit (size : Z) (* "File '%s' of size %zu won't fit on the chip\n" *)
| MsgShortRead          (* "Failed to read all bytes from '%s'\n" *)
| MsgFlashing           (* "Flashing memory...\n" *)
| MsgStreamWriteFailed  (* "\nError while writing to the chip.\n" *)
| MsgWriteAt (i data : Z)
                        (* "Error while writing to the chip. @0x%05x <- 0x%02x\n" *)
| MsgFlashComplete      (* "\nFlash complete.\n" *)
| MsgComparing          (* "Comparing memory and file '%s'\n" *)
| MsgReadFailed         (* "Error while reading from the chip.\n" *)
| MsgFirstDifference (i : Z)
                        (* "\nFirst difference found at address 0x%05zx\n" *)
| MsgDifferenceAt (i : Z)
                        (* "First difference found at address 0x%x\n" *)
| MsgIdentical          (* "\nFile and memory are identical.\n" *)
| MsgPathTooLong        (* "File path is too long" *)
| MsgNoPermission (port : Z)
                        (* "Unable to acquire permissions for port 0x%x, ..." *)
| MsgWarning            (* "WARNING: The Arduino program enforces safe mode. ..." *)
| MsgNotFound           (* "Viper GC not found.\n" *)
| MsgInitializing       (* "Initializing serial interface %s... " *)
| MsgOpenFailed         (* perror("Failed to open serial device, ...") *)
| MsgNoAttributes       (* perror("Failed to get TTY attributes, wrong device?") *)
| MsgNoBaudRate         (* perror("Failed to set baud rate\n") *)
| MsgNotConfigured      (* perror("Error configuring serial interface\n") *)
| MsgReady.             (* "Ready\n" *)

(** One thing the program does to the outside: [Lower e] is an event of
    the functions embedded in [Host]; [Ioperm r] is a call [ioperm] that
    returned [r]; [Open fd], [Tcgetattr r], [Cfsetspeed r] and [Tcsetattr r]
    are the calls that open and configure the serial device, with what they
    returned; [Close] and [Tcflush] take the descriptor of the device. *)
Inductive event : Type :=
| Lower (e : Host.event)
| Printf (m : message)
| Eprintf (m : message)
| Ioperm (r : Z)
| Open (fd : Z)
| Tcgetattr (r : Z)
| Cfsetspeed (r : Z)
| Tcsetattr (r : Z)
| Close
| Tcflush.

Definition trace : Type := list event.

(** The events of the functions of [Host] in a trace, which are all that
    the chip and the serial line ever see. *)
Fixpoint lower (h : trace) : Host.trace :=
  match h with
  | [] => []
  | Lower e :: h' => e :: lower h'
  | _ :: h' => lower h'
  end.

(** A call of a function embedded in [Host]. *)
Definition call {A : Type} (m : Run Host.event A) : Run event A :=
  fun h => let (a, t) := m (lower h) in (a, map Lower t).

#[local] Abbreviation Run := (Run event).

(** How a call ends: it returns (or the program exits) with a value, or it
    evaluates [i % one_percent] with [one_percent] zero, which C leaves
    undefined. *)
Inductive ending : Type :=
| Returned (r : Z)
| DividedByZero.

Definition printf (m : message) : Run unit := emit (Printf m).
Definition eprintf (m : message) : Run unit := emit (Eprintf m).

(** [memcmp(a, b, n) != 0]. *)
Definition memcmp (a b : list Z) (n : Z) : bool :=
  if list_eq_dec Z.eq_dec (firstn (Z.to_nat n) a) (firstn (Z.to_nat n) b)
  then false else true.

(** [while (expect[i] == actual[i] && i < file_size) ++i], which ends
    after [file_size] rounds at the latest; the answer is [i] after it. *)
Fixpoint first_difference (rounds : nat) (i : Z) (expect actual : list Z)
    (file_size : Z) : Z :=
  match rounds with
  | O => i
  | S rounds' =>
      if (nth (Z.to_nat i) expect 0 =? nth (Z.to_nat i) actual 0)
         && (i <? file_size)
      then first_difference rounds' (size_t (i + 1)) expect actual file_size
      else i
  end.

Section Operations.

(** [g_cfg.safe_mode] and [use_serial()]. *)
Variable safe_mode : bool.
Variable use_serial : bool.

(** The chip, the serial line and the output file, as in [Host]. *)
Variable chip : Host.trace -> Z.
Variable sel : Host.trace -> Z.
Variable incoming : Host.trace -> option (list Z).
Variable wr_ok : Host.trace -> bool.

(** The file [g_cfg.file_path]: whether [fopen(..., "rb")] opens it, what
    [ftell] returns at its end, and the bytes [fread] can deliver. *)
Variable file_opens : bool.
Variable file_size : Z.
Variable file_data : list Z.

(** *** [arduino_serial.c]: the transport of [_outb] and [_inb] *)

Definition serial_outb (data : Z) : Run unit :=
  let cmd := Z.land (u8 data) 0x3f in
  w <- call (Host.write wr_ok [cmd]) ;;
  if w <=? 0 then call (Host.eprintf Host.MsgWriteFailure) else ret tt.

Definition serial_inb : Run Z :=
  let data := 0xff in
  let cmd := 0x40 in
  w <- call (Host.write wr_ok [cmd]) ;;
  if w <=? 0 then call (Host.eprintf Host.MsgWriteFailure) ;; ret 1
  else
    w <- call (Host.serial_wait_data sel None false) ;;
    if truthy w then ret 1
    else
      x <- call (Host.read incoming 1) ;;
      if negb (fst x =? 1)
      then eprintf MsgSerialReadFailure ;; ret 1
      else ret (nth 0 (snd x) data).

(** *** [viper_loader.c]: writing and comparing *)

(** [load_bios_file(buffer)]: the return value and the buffer
    afterwards. *)
Definition load_bios_file (buffer : list Z) : Run (Z * list Z) :=
  if negb file_opens then eprintf MsgCouldNotOpen ;; ret (-1, buffer)
  else
    let size := size_t file_size in
    if size >? Host.BIOS_SIZE
    then eprintf (MsgWontFit size) ;; ret (-1, buffer)
    else
      let bytes := firstn (Z.to_nat size) (map u8 file_data) in
      let read := Z.of_nat (length bytes) in
      let buffer := store buffer 0 bytes in
      if negb (read =? size) then eprintf MsgShortRead ;; ret (-1, buffer)
      else ret (size, buffer).

(** [write_bios()]; [c2] and [garbage] are what the variable [c2] of
    [erase_chip] and the array [buffer], declared without a value, happen
    to hold, [fuel] bounds the rounds of the loop of [erase_chip]. *)
Definition write_bios (fuel : nat) (c2 : Z) (garbage : list Z)
    : Run (option ending) :=
  x <- load_bios_file garbage ;;
  let size := fst x in
  let buffer := snd x in
  let one_percent := u32 (Z.quot size 100) in
  if size <=? 0 then ret (Some (Returned 1))
  else
    e <- call (Host.erase_chip safe_mode chip fuel c2) ;;
    match e with
    | None => ret None
    | Some _ =>
        call (Host.usleep 1000000) ;;
        printf MsgFlashing ;;
        s <- (if use_serial
              then call (Host.serial_write_byte_stream sel incoming wr_ok
                           buffer size)
              else ret 0) ;;
        if use_serial && truthy s
        then eprintf MsgStreamWriteFailed ;; ret (Some (Returned 1))
        else
          x <- (if use_serial then ret (inl tt)
                else for_range (Z.to_nat size) 0 tt (fun i _ =>
                       let b := nth (Z.to_nat i) buffer 0 in
                       r <- call (Host.write_byte safe_mode chip b i) ;;
                       (* Give it a second chance *)
                       r <- (if truthy r
                             then eprintf (MsgWriteAt i b) ;;
                                  call (Host.write_byte safe_mode chip b i)
                             else ret 0) ;;
                       if truthy r then ret (inr (Returned 1))
                       else if one_percent =? 0 then ret (inr DividedByZero)
                       else
                         (if i mod one_percent =? 0
                          then call (Host.printf
                                       (Host.MsgPercent (i / one_percent)))
                          else ret tt) ;;
                         ret (inl tt))) ;;
          match x with
          | inr e => ret (Some e)
          | inl _ =>
              call (Host.outp safe_mode chip Host.CMD_RESET) ;;
              printf MsgFlashComplete ;;
              ret (Some (Returned 0))
          end
    end.

(** [compare_bios()]; [garbage_expect] and [garbage_actual] are what the
    two arrays happen to hold, [fuel] bounds the rounds of the loop of
    [serial_read_byte_stream]. *)
Definition compare_bios (fuel : nat) (garbage_expect garbage_actual : list Z)
    : Run (option ending) :=
  x <- load_bios_file garbage_expect ;;
  let file_size := fst x in
  let expect := snd x in
  let one_percent := u32 (Z.quot file_size 100) in
  if file_size <=? 0 then ret (Some (Returned 1))
  else
    printf MsgComparing ;;
    r <- call (Host.init_read_mode safe_mode chip) ;;
    if truthy r
    then call (Host.eprintf Host.MsgInitReadFailed) ;; ret (Some (Returned 1))
    else
      s <- (if use_serial then
              s <- call (Host.serial_read_byte_stream sel incoming wr_ok fuel
                           garbage_actual file_size) ;;
              match s with
              | None => ret None
              | Some (failed, actual) =>
                  if truthy failed then ret (Some (inr 1))
                  else if memcmp expect actual file_size then
                    let i := first_difference (Z.to_nat file_size) 0
                               expect actual file_size in
                    if i <? file_size
                    then eprintf (MsgFirstDifference i) ;; ret (Some (inr 1))
                    else ret (Some (inl tt))
                  else ret (Some (inl tt))
              end
            else ret (Some (inl tt))) ;;
      match s with
      | None => ret None
      | Some (inr r) => ret (Some (Returned r))
      | Some (inl _) =>
          x <- (if use_serial then ret (inl tt)
                else for_range (Z.to_nat file_size) 0 tt (fun i _ =>
                       x <- call (Host.read_byte safe_mode chip 0) ;;
                       let data := snd x in
                       if truthy (fst x)
                       then eprintf MsgReadFailed ;; ret (inr (Returned 1))
                       else if negb (data =? nth (Z.to_nat i) expect 0)
                       then eprintf (MsgDifferenceAt i) ;;
                            ret (inr (Returned 1))
                       else if one_percent =? 0 then ret (inr DividedByZero)
                       else
                         (if i mod one_percent =? 0
                          then call (Host.printf
                                       (Host.MsgPercent (i / one_percent)))
                          else ret tt) ;;
                         ret (inl tt))) ;;
          match x with
          | inr e => ret (Some e)
          | inl _ => printf MsgIdentical ;; ret (Some (Returned 0))
          end
      end.

End Operations.

Section Program.

Variable chip : Host.trace -> Z.
Variable sel : Host.trace -> Z.
Variable incoming : Host.trace -> option (list Z).
Variable wr_ok : Host.trace -> bool.
Variable fopen_ok : Host.trace -> bool.
Variable file_opens : bool.
Variable file_size : Z.
Variable file_data : list Z.

(** What [ioperm], [open], [tcgetattr], [cfsetspeed] and [tcsetattr]
    return, given the trace so far, and what [strtoul(optarg, &endptr, 16)]
    makes of an argument: the value, and whether [*endptr] is the end of
    the argument. *)
Variable ioperm_r : trace -> Z.
Variable open_fd : trace -> Z.
Variable tcgetattr_r : trace -> Z.
Variable cfsetspeed_r : trace -> Z.
Variable tcsetattr_r : trace -> Z.
Variable strtoul : String.string -> Z * bool.

Definition ioperm : Run Z := fun h => let r := ioperm_r h in (r, [Ioperm r]).
Definition open : Run Z := fun h => let fd := open_fd h in (fd, [Open fd]).
Definition tcgetattr : Run Z :=
  fun h => let r := tcgetattr_r h in (r, [Tcgetattr r]).
Definition cfsetspeed : Run Z :=
  fun h => let r := cfsetspeed_r h in (r, [Cfsetspeed r]).
Definition tcsetattr : Run Z :=
  fun h => let r := tcsetattr_r h in (r, [Tcsetattr r]).
Definition close : Run unit := emit Close.
Definition tcflush : Run unit := emit Tcflush.

(** *** [arduino_serial.c]: opening the bridge *)

(** [serial_try_init(first_run)]: the return value and [g_cfg.serial]
    afterwards.  The flags set in [tty] between [cfsetspeed] and
    [tcsetattr] stay inside the two calls. *)
Definition serial_try_init (first_run : bool) : Run (Z * Z) :=
  let ping := 0x40 in
  fd <- open ;;
  if fd =? -1 then eprintf MsgOpenFailed ;; ret (1, fd)
  else
    r <- tcgetattr ;;
    if r =? -1 then eprintf MsgNoAttributes ;; ret (1, fd)
    else
      r <- cfsetspeed ;;
      if r =? -1 then eprintf MsgNoBaudRate ;; close ;; ret (1, fd)
      else
        r <- tcsetattr ;;
        if negb (r =? 0) then eprintf MsgNotConfigured ;; close ;; ret (1, fd)
        else
          call (Host.write wr_ok [ping]) ;;
          r <- call (Host.serial_wait_data sel None first_run) ;;
          if negb (r =? 0) then ret (- r, fd)
          else tcflush ;; printf MsgReady ;; ret (0, fd).

Definition serial_init : Run (Z * Z) :=
  printf MsgInitializing ;;
  x <- serial_try_init true ;;
  let r := fst x in
  if (r =? 0) || (r =? 1) then ret x
  else if r =? 2 then
    call (Host.usleep 1000000) ;;
    serial_try_init false
  else ret (1, snd x).

(** *** [viper_loader.c]: the options *)

(** [usage_exit(p, exit_code)] prints the usage and ends the program; the
    answer [inr exit_code] is a call of [exit]. *)
Definition usage_exit {A : Type} (exit_code : Z) : Run (A + Z) :=
  printf MsgUsage ;; ret (inr exit_code).

Definition set_operation (o : operation) (file : String.string)
    (cfg : config) : Run (config + Z) :=
  if negb (operation_eqb (op cfg) OP_UNSET) then usage_exit EXIT_FAILURE
  else
    let cfg := set_op o cfg in
    if (256 <=? String.length file)%nat
    then eprintf MsgPathTooLong ;; ret (inr EXIT_FAILURE)
    else ret (inl (set_file_path file cfg)).

(** One round of the loop of [process_config], for the option [opt] that
    [getopt] returned, with its argument in [optarg]. *)
Definition process_option (opt : ascii) (optarg : String.string)
    (cfg : config) : Run (config + Z) :=
  if Ascii.eqb opt "u" then ret (inl (set_safe_mode false cfg))
  else if Ascii.eqb opt "p" then
    let (val, at_end) := strtoul optarg in
    if negb at_end || (val =? 0) || (val >? 0xffff)
    then usage_exit EXIT_FAILURE
    else ret (inl (set_port (val mod 65536) cfg))
  else if Ascii.eqb opt "s" then
    ret (inl (set_serial_dev (String.substring 0 255 optarg) cfg))
  else if Ascii.eqb opt "r" then set_operation OP_READ optarg cfg
  else if Ascii.eqb opt "w" then set_operation OP_WRITE optarg cfg
  else if Ascii.eqb opt "c" then set_operation OP_COMPARE optarg cfg
  else if Ascii.eqb opt "h" then usage_exit EXIT_SUCCESS
  else usage_exit EXIT_FAILURE.

(** The loop of [process_config] over what [getopt] returns, call after
    call, until it returns -1. *)
Fixpoint process_options (opts : list (ascii * String.string))
    (cfg : config) : Run (config + Z) :=
  match opts with
  | [] => ret (inl cfg)
  | (opt, optarg) :: opts' =>
      x <- process_option opt optarg cfg ;;
      match x with
      | inl cfg' => process_options opts' cfg'
      | inr exit_code => ret (inr exit_code)
      end
  end.

Definition process_config (opts : list (ascii * String.string))
    (cfg : config) : Run (config + Z) :=
  x <- process_options opts cfg ;;
  match x with
  | inl cfg =>
      if operation_eqb (op cfg) OP_UNSET then usage_exit EXIT_FAILURE
      else ret (inl cfg)
  | inr exit_code => ret (inr exit_code)
  end.

(** *** [main] *)

(** [main(argc, argv)], for the options [opts] that [getopt] finds in
    [argv]; [fuel], [c2] and the three buffers go to the operation that is
    run. *)
Definition main (opts : list (ascii * String.string)) (fuel : nat) (c2 : Z)
    (garbage garbage_expect garbage_actual : list Z) : Run (option ending) :=
  x <- process_config opts g_cfg ;;
  match x with
  | inr exit_code => ret (Some (Returned exit_code))
  | inl cfg =>
      let has_dev :=
        match serial_dev cfg with
        | String.EmptyString => false
        | String.String _ _ => true
        end in
      (* Use parallel port if Serial hasn't been initialized *)
      y <- (if negb has_dev then
              r <- ioperm ;;
              if truthy r
              then eprintf (MsgNoPermission (port cfg)) ;;
                   ret (inr EXIT_FAILURE)
              else ret (inl (serial cfg))
            else
              r <- serial_init ;;
              if truthy (fst r) then ret (inr EXIT_FAILURE)
              else ret (inl (snd r))) ;;
      match y with
      | inr exit_code => ret (Some (Returned exit_code))
      | inl fd =>
          let use_serial := negb (fd =? -1) in
          let safe_mode := safe_mode cfg in
          (if use_serial && negb safe_mode then printf MsgWarning
           else ret tt) ;;
          (* Init Viper GC chip *)
          call (Host.outp safe_mode chip Host.CMD_RESET) ;;
          r <- call (orelse (orelse
                       (Host.outp safe_mode chip (nth 0 CMD_CHIP_INIT 0))
                       (Host.outp safe_mode chip (nth 1 CMD_CHIP_INIT 0)))
                       (Host.outp safe_mode chip (nth 2 CMD_CHIP_INIT 0))) ;;
          if truthy r
          then eprintf MsgNotFound ;; ret (Some (Returned EXIT_FAILURE))
          else
            match op cfg with
            | OP_READ =>
                r <- call (Host.read_bios safe_mode chip use_serial sel
                             incoming wr_ok fopen_ok fuel garbage) ;;
                ret (option_map Returned r)
            | OP_WRITE =>
                write_bios safe_mode use_serial chip sel incoming wr_ok
                  file_opens file_size file_data fuel c2 garbage
            | OP_COMPARE =>
                compare_bios safe_mode use_serial chip sel incoming wr_ok
                  file_opens file_size file_data fuel garbage_expect
                  garbage_actual
            | OP_UNSET =>
                printf MsgUsage ;; ret (Some (Returned EXIT_FAILURE))
            end
      end
  end.

End Program.

(** *** What a run of the program shows *)

(** The file is there, fits the chip, is not empty and can be read to its
    end. *)
Definition readable (file_opens : bool) (file_size : Z) (file_data : list Z)
    : Prop :=
  file_opens = true /\ 0 < file_size <= Host.BIOS_SIZE /\
  (Z.to_nat file_size <= length file_data)%nat.

(** What [fread] stores for such a file. *)
Definition contents (file_size : Z) (file_data : list Z) : list Z :=
  firstn (Z.to_nat file_size) (map u8 file_data).

(** The pentads of one byte write: none for 0xff, else the five that open
    it and four times the low five bits of the data. *)
Definition byte_pentads (data address : Z) : list Z :=
  if data =? 0xff then []
  else Host.write_pentads data address ++ repeat (Host.pentad_of data) 4.

(** The pentads of the writes of [n] bytes of [buffer] from the index [i]
    on. *)
Fixpoint flash_pentads (n : nat) (i : Z) (buffer : list Z) : list Z :=
  match n with
  | O => []
  | S n' =>
      byte_pentads (nth (Z.to_nat i) buffer 0) i
        ++ flash_pentads n' (i + 1) buffer
  end.

(** The operation an option letter asks for, [OP_UNSET] for the letters
    that ask for none. *)
Definition operation_of (opt : ascii) : operation :=
  if Ascii.eqb opt "r" then OP_READ
  else if Ascii.eqb opt "w" then OP_WRITE
  else if Ascii.eqb opt "c" then OP_COMPARE
  else OP_UNSET.

(** The operations a command line asks for, each with its file, in
    order. *)
Fixpoint operations (opts : list (ascii * String.string))
    : list (operation * String.string) :=
  match opts with
  | [] => []
  | (opt, optarg) :: opts' =>
      match operation_of opt with
      | OP_UNSET => operations opts'
      | o => (o, optarg) :: operations opts'
      end
  end.

(** Whether the option [opt] is given. *)
Definition given (opt : ascii) (opts : list (ascii * String.string)) : bool :=
  existsb (fun o => Ascii.eqb (fst o) opt) opts.

(** How many times a trace opens the serial device. *)
Definition opens (t : trace) : nat :=
  length (filter (fun e => match e with Open _ => true | _ => false end) t).

End Loader.

(** ** Runs that keep an invariant of the trace *)

(** [m] keeps [P]: run on a trace that satisfies [P], it leaves one that
    does. *)
Definition preserves {E A : Type} (P : list E -> Prop) (m : Run E A) : Prop :=
  forall h, P h -> P (h ++ snd (m h)).

(** * Properties *)

(** ** Bytes and bits *)

Lemma u8_range (x : Z) : 0 <= u8 x < 256.
Proof. unfold u8. apply Z.mod_pos_bound. lia. Qed.

Lemma u8_land (x : Z) : u8 x = Z.land x 0xff.
Proof. unfold u8. change 256 with (2 ^ 8). rewrite <- Z.land_ones by lia. reflexivity. Qed.

(** ** Runs *)

Lemma run_bind {E A B : Type} (m : Run E A) (k : A -> Run E B) (h : list E) :
  bind m k h =
  (fst (k (fst (m h)) (h ++ snd (m h))),
   snd (m h) ++ snd (k (fst (m h)) (h ++ snd (m h)))).
Proof.
  unfold bind. destruct (m h) as [a t1]. simpl.
  destruct (k a (h ++ t1)) as [b t2]. reflexivity.
Qed.


Lemma byte_forall (P : Z -> bool) :
  forallb P (map Z.of_nat (seq 0 256)) = true ->
  forall d, 0 <= d < 256 -> P d = true.
Proof.
  intros H d Hd. rewrite forallb_forall in H. apply H.
  apply in_map_iff. exists (Z.to_nat d). split; [lia | apply in_seq; lia].
Qed.

Lemma format_payload (d : Z) :
  0 <= d < 256 ->
  Host.strobe (Host.format d) = false /\
  Host.payload (Host.format d) = Z.land d 0x1f /\
  Host.strobe (u8 (Z.lor (Host.format d) 0x10)) = true /\
  u8 (Host.format d) = Host.format d.
Proof.
  intros Hd.
  pose proof (byte_forall
    (fun d => negb (Host.strobe (Host.format d))
              && (Host.payload (Host.format d) =? Z.land d 0x1f)
              && Host.strobe (u8 (Z.lor (Host.format d) 0x10))
              && (u8 (Host.format d) =? Host.format d)) eq_refl d Hd) as H.
  cbv beta in H. rewrite !andb_true_iff, negb_true_iff, !Z.eqb_eq in H.
  tauto.
Qed.

Lemma lor_shifted (a b n : Z) :
  0 <= n -> 0 <= b < 2 ^ n -> Z.lor (Z.shiftl a n) b = a * 2 ^ n + b.
Proof.
  intros Hn Hb. rewrite <- Z.shiftl_mul_pow2 by lia.
  assert (D : Z.land (Z.shiftl a n) b = 0).
  { apply Z.bits_inj'. intros i Hi.
    rewrite Z.land_spec, Z.bits_0.
    destruct (Z.lt_ge_cases i n) as [L | L].
    - rewrite Z.shiftl_spec_low by lia. reflexivity.
    - rewrite <- (Z.mod_small b (2 ^ n)) by lia.
      rewrite Z.mod_pow2_bits_high by lia. apply andb_false_r. }
  rewrite <- Z.lxor_lor by exact D. symmetry. apply Z.add_nocarry_lxor. exact D.
Qed.

Lemma lor_disjoint (hi lo n : Z) :
  0 <= n -> hi mod 2 ^ n = 0 -> 0 <= lo < 2 ^ n -> Z.lor hi lo = hi + lo.
Proof.
  intros Hn Hhi Hlo.
  assert (E : hi = hi / 2 ^ n * 2 ^ n).
  { pose proof (Z.div_mod hi (2 ^ n)). lia. }
  rewrite E at 1. rewrite <- Z.shiftl_mul_pow2 by lia.
  rewrite lor_shifted by lia. lia.
Qed.

(** The four pentads that carry the address give it back. *)
Lemma address_bits (data address : Z) :
  let A := Z.land address 0x1ffff in
  Host.address_of_pentads
    (Z.land (u8 (Z.lor (Z.land (Z.shiftr data 3) 0x1c) (Z.shiftr A 15))) 0x1f)
    (Z.land (u8 (Z.shiftr A 10)) 0x1f)
    (Z.land (u8 (Z.shiftr A 5)) 0x1f)
    (Z.land (u8 A) 0x1f) = A.
Proof.
  intros A.
  assert (HA : 0 <= A < 2 ^ 17).
  { unfold A. change 0x1ffff with (Z.ones 17). rewrite Z.land_ones by lia.
    apply Z.mod_pos_bound. lia. }
  unfold Host.address_of_pentads. rewrite !u8_land.
  rewrite <- !Z.land_assoc.
  change (Z.land 0xff (Z.land 0x1f 0x3)) with (Z.ones 2).
  change (Z.land 0xff 0x1f) with (Z.ones 5).
  rewrite Z.land_lor_distr_l, <- Z.land_assoc.
  change (Z.land 0x1c (Z.ones 2)) with 0. rewrite Z.land_0_r, Z.lor_0_l.
  rewrite !Z.land_ones by lia. rewrite !Z.shiftr_div_pow2 by lia.
  rewrite !Z.shiftl_mul_pow2 by lia.
  change (2 ^ 17) with 131072 in *; change (2 ^ 15) with 32768;
    change (2 ^ 10) with 1024; change (2 ^ 5) with 32; change (2 ^ 2) with 4.
  rewrite (lor_disjoint (_ * 32768) (_ * 1024) 15),
          (lor_disjoint (_ + _) (_ * 32) 10),
          (lor_disjoint (_ + _) (_ mod 32) 5); try lia.
  all: change (2 ^ 15) with 32768; change (2 ^ 10) with 1024;
       change (2 ^ 5) with 32.
  all: Z.div_mod_to_equations; lia.
Qed.

(** ** Traces of the host *)

Lemma pentads_app (a b : Host.trace) :
  Host.pentads (a ++ b) = Host.pentads a ++ Host.pentads b.
Proof.
  induction a as [ | e a IH]; [reflexivity | ].
  destruct e; simpl; try exact IH.
  destruct (Host.strobe v); simpl; congruence.
Qed.

Lemma emissions_pentads (t : Host.trace) :
  map fst (Host.emissions t) = Host.pentads t.
Proof.
  induction t as [ | e t IH]; [reflexivity | ].
  destruct e; simpl; try exact IH.
  destruct (Host.strobe v); simpl; congruence.
Qed.

Lemma gives_up_app (a b : Host.trace) :
  Host.gives_up b = false -> Host.gives_up (a ++ b) = Host.gives_up a.
Proof.
  intros Hb. induction a as [ | e a IH]; [exact Hb | ].
  destruct e; simpl; try exact IH.
  - destruct (negb (Host.strobe v)); [reflexivity | exact IH].
  - rewrite IH. reflexivity.
Qed.

Lemma emissions_app (a b : Host.trace) :
  Host.gives_up b = false ->
  Host.emissions (a ++ b) = Host.emissions a ++ Host.emissions b.
Proof.
  intros Hb. induction a as [ | e a IH]; [reflexivity | ].
  destruct e; simpl; try exact IH.
  destruct (Host.strobe v); simpl; [exact IH | ].
  rewrite IH, gives_up_app by exact Hb. reflexivity.
Qed.

Lemma quiet_app (a b : Host.trace) :
  Host.quiet a -> Host.quiet b -> Host.quiet (a ++ b).
Proof. unfold Host.quiet. intros Ha Hb. apply Forall_app. split; assumption. Qed.

Lemma quiet_emissions (t : Host.trace) : Host.quiet t -> Host.emissions t = [].
Proof.
  induction 1 as [ | e t He _ IH]; [reflexivity | ].
  destruct e; simpl in *; try exact IH.
  apply negb_false_iff in He. rewrite He. exact IH.
Qed.

Lemma quiet_gives_up (t : Host.trace) :
  Host.quiet t -> (Host.gives_up t = true <-> Host.signal_fault t).
Proof.
  unfold Host.signal_fault.
  induction 1 as [ | e t He _ IH]; [simpl; split; [discriminate | tauto] | ].
  destruct e; simpl in *; rewrite ?He;
    try (rewrite IH; split; [tauto | intros [X | X]; [discriminate | exact X]]).
  rewrite orb_true_iff, IH, Z.eqb_eq. split.
  - intros [-> | X]; [left; reflexivity | right; exact X].
  - intros [X | X]; [left; congruence | right; exact X].
Qed.

Lemma fault_app (a b : Host.trace) :
  Host.signal_fault (a ++ b) <-> Host.signal_fault a \/ Host.signal_fault b.
Proof. unfold Host.signal_fault. apply in_app_iff. Qed.

(** ** The signal encoder of the host *)

Section HostEncoder.

Variable safe_mode : bool.
Variable chip : Host.trace -> Z.

Ltac split_ifs :=
  repeat (cbn; match goal with
               | |- context [if ?b then _ else _] => destruct b
               end).

Lemma safe_mode_check_shape (high : bool) (h : Host.trace) :
  Host.quiet (snd (Host.safe_mode_check chip high h)) /\
  Host.outcome (fst (Host.safe_mode_check chip high h))
               (snd (Host.safe_mode_check chip high h)).
Proof.
  unfold Host.quiet, Host.outcome, Host.signal_fault.
  cbv [Host.safe_mode_check for_range for_step Host.MAX_TRIES bind ret
       Host._inb Host.usleep emit].
  split_ifs; cbn; (split; [repeat constructor | ]);
    solve [ left; split; [reflexivity | intros H; intuition discriminate ]
          | right; split; [reflexivity | intuition ] ].
Qed.

Lemma checked_shape (high : bool) (h : Host.trace) :
  Host.quiet (snd (Host.checked safe_mode chip high h)) /\
  Host.outcome (fst (Host.checked safe_mode chip high h))
               (snd (Host.checked safe_mode chip high h)).
Proof.
  unfold Host.checked. destruct safe_mode.
  - apply safe_mode_check_shape.
  - cbn. split; [constructor | left; split; [reflexivity | intros []]].
Qed.

(** One emission: the first byte written presents the pentad, nothing
    after it does, and the call returns 1 exactly when a handshake gave
    up. *)
Lemma outp_shape (d : Z) (h : Host.trace) :
  exists t,
    snd (Host.outp safe_mode chip d h) = Host.Outb (Host.format (u8 d)) :: t /\
    Host.quiet t /\
    Host.outcome (fst (Host.outp safe_mode chip d h)) t.
Proof.
  destruct (format_payload (u8 d) (u8_range d)) as (F1 & F2 & F3 & F4).
  unfold Host.outp. fold (Host.format (u8 d)).
  set (f := Host.format (u8 d)) in *.
  cbv zeta. rewrite !run_bind. cbn [fst snd Host._outb emit app].
  rewrite F4.
  destruct (checked_shape true (h ++ [Host.Outb f]))
    as [Q1 [[R1 N1] | [R1 N1]]]; rewrite R1.
  - cbn [truthy Z.eqb negb]. rewrite !run_bind. cbn [fst snd emit app].
    match goal with
    | |- context [Host.checked _ _ false ?h'] =>
        destruct (checked_shape false h') as [Q2 [[R2 N2] | [R2 N2]]]
    end; rewrite R2; cbn; eexists; (split; [reflexivity | ]);
      rewrite app_nil_r; (split;
        [ apply quiet_app; [exact Q1 | ];
          constructor; [cbn; rewrite F3; reflexivity | exact Q2] | ]).
    + left. split; [reflexivity | ]. rewrite fault_app.
      intros [X | [X | X]]; [tauto | discriminate | tauto].
    + right. split; [reflexivity | ]. rewrite fault_app.
      right. right. exact N2.
  - cbn. eexists. split; [reflexivity | ]. rewrite app_nil_r.
    split; [exact Q1 | right; split; [reflexivity | exact N1]].
Qed.

(** The same, as an equation on the run. *)
Lemma outp_run (d : Z) (h : Host.trace) :
  exists (b : bool) (t : Host.trace),
    Host.outp safe_mode chip d h = ((if b then 1 else 0), t) /\
    Host.emissions t = [(Z.land (u8 d) 0x1f, b)] /\
    Host.gives_up t = false /\
    (b = true <-> Host.signal_fault t).
Proof.
  destruct (outp_shape d h) as (t & E & Q & O).
  destruct (format_payload (u8 d) (u8_range d)) as (F1 & F2 & F3 & F4).
  exists (Host.gives_up t), (Host.Outb (Host.format (u8 d)) :: t).
  pose proof (quiet_gives_up t Q) as G.
  repeat split.
  - rewrite (surjective_pairing (Host.outp safe_mode chip d h)), E.
    f_equal. destruct O as [[R N] | [R N]]; rewrite R.
    + destruct (Host.gives_up t); [tauto | reflexivity].
    + apply G in N. rewrite N. reflexivity.
  - simpl. rewrite F1, F2, (quiet_emissions t Q). reflexivity.
  - simpl. rewrite F1. reflexivity.
  - intros B. right. apply G. exact B.
  - intros [X | X]; [discriminate | apply G; exact X].
Qed.

End HostEncoder.

(** ** Writing a byte, on the host *)

Section HostWrite.

Variable safe_mode : bool.
Variable chip : Host.trace -> Z.

Ltac outp_step b t E :=
  cbv beta delta [bind];
  match goal with
  | |- context [Host.outp safe_mode chip ?d ?h] =>
      let Em := fresh "Em" in
      let G := fresh "G" in
      let F := fresh "F" in
      destruct (outp_run safe_mode chip d h) as (b & t & E & Em & G & F);
      rewrite E
  end.

Ltac gu := first [assumption | reflexivity | rewrite gives_up_app; gu].

(** [n] emissions whose results are not looked at. *)
Lemma burst_run (n : nat) (data : Z) :
  forall (i : Z) (h : Host.trace),
  exists (bs : list bool) (t : Host.trace),
    for_range n i tt
      (fun _ _ => bind (Host.outp safe_mode chip data) (fun _ => ret (inl tt))
                  : Run Host.event (unit + Z)) h = (inl tt, t) /\
    length bs = n /\
    Host.emissions t = map (fun b => (Host.pentad_of data, b)) bs /\
    Host.gives_up t = false.
Proof.
  unfold for_range.
  set (body := fun (_ : Z) (_ : unit) => _).
  induction n as [ | n IH]; intros i h.
  - exists [], []. repeat split.
  - cbn [for_step]. unfold body at 1. outp_step b t E. cbn [ret app].
    destruct (IH (u32 (i + 1)) (h ++ t ++ [])) as (bs & t' & E' & L & Em' & G').
    rewrite E'. exists (b :: bs), ((t ++ []) ++ t'). rewrite app_nil_r. repeat split.
    + simpl. congruence.
    + rewrite emissions_app by exact G'. rewrite Em, Em'. reflexivity.
    + rewrite gives_up_app by exact G'. exact G.
Qed.

(** A byte write either goes through its nine emissions, the first five
    of them without a fault, or stops at the first of these five that
    gives up. *)
Lemma write_byte_run (data address : Z) (h : Host.trace) :
  data <> 0xff ->
  exists r t,
    Host.write_byte safe_mode chip data address h = (r, t) /\
    (r = 0 /\
     (exists bs, length bs = 4%nat /\
        Host.emissions t = Host.clean (Host.write_pentads data address)
                           ++ map (fun b => (Host.pentad_of data, b)) bs)
     \/
     r = 1 /\
     (exists k, (k < 5)%nat /\
        Host.emissions t = Host.clean (firstn k (Host.write_pentads data address))
                           ++ [(nth k (Host.write_pentads data address) 0, true)])).
Proof.
  intros Hd. unfold Host.write_byte. apply Z.eqb_neq in Hd. rewrite Hd. cbv zeta.
  set (A := Z.land address 0x1ffff).
  set (trail := for_range 4 0 tt _).
  outp_step b0 t0 E0.
  destruct b0; cbn [truthy Z.eqb negb ret app].
  { do 2 eexists. split; [reflexivity | ]. right. split; [reflexivity | ].
    exists 0%nat. split; [lia | ].
    rewrite ?app_nil_r. exact Em. }
  outp_step b1 t1 E1.
  destruct b1; cbn [truthy Z.eqb negb ret app].
  { do 2 eexists. split; [reflexivity | ]. right. split; [reflexivity | ].
    exists 1%nat. split; [lia | ].
    rewrite ?app_nil_r. rewrite !emissions_app by gu.
    rewrite Em, Em0. reflexivity. }
  outp_step b2 t2 E2.
  destruct b2; cbn [truthy Z.eqb negb ret app].
  { do 2 eexists. split; [reflexivity | ]. right. split; [reflexivity | ].
    exists 2%nat. split; [lia | ].
    rewrite ?app_nil_r. rewrite !emissions_app by gu.
    rewrite Em, Em0, Em1. reflexivity. }
  outp_step b3 t3 E3.
  destruct b3; cbn [truthy Z.eqb negb ret app].
  { do 2 eexists. split; [reflexivity | ]. right. split; [reflexivity | ].
    exists 3%nat. split; [lia | ].
    rewrite ?app_nil_r. rewrite !emissions_app by gu.
    rewrite Em, Em0, Em1, Em2. reflexivity. }
  outp_step b4 t4 E4.
  destruct b4; cbn [truthy Z.eqb negb ret app].
  { do 2 eexists. split; [reflexivity | ]. right. split; [reflexivity | ].
    exists 4%nat. split; [lia | ].
    rewrite ?app_nil_r. rewrite !emissions_app by gu.
    rewrite Em, Em0, Em1, Em2, Em3. reflexivity. }
  match goal with
  | |- context [trail ?h'] =>
      destruct (burst_run 4 data 0 h') as (bs & t5 & E5 & L5 & Em5 & G5)
  end.
  unfold trail. rewrite E5.
  do 2 eexists. split; [reflexivity | ]. left. split; [reflexivity | ].
  exists bs. split; [exact L5 | ].
  rewrite ?app_nil_r. rewrite !emissions_app by gu.
  rewrite Em, Em0, Em1, Em2, Em3, Em5. reflexivity.
Qed.
End HostWrite.

Section HostWriteClaims.

Variable safe_mode : bool.
Variable chip : Host.trace -> Z.

Lemma clean_pentads (ps : list Z) : map fst (Host.clean ps) = ps.
Proof.
  unfold Host.clean. rewrite map_map. simpl. apply map_id.
Qed.

(** The pentads of a byte write: all nine when it returns 0, and those up
    to the one that gave up when it returns 1. *)
Lemma write_byte_pentads (data address : Z) (h : Host.trace) :
  data <> 0xff ->
  exists k,
    Host.pentads (snd (Host.write_byte safe_mode chip data address h)) =
      firstn k (Host.write_pentads data address
                ++ repeat (Host.pentad_of data) 4) /\
    (fst (Host.write_byte safe_mode chip data address h) = 0 /\ k = 9%nat \/
     fst (Host.write_byte safe_mode chip data address h) = 1 /\
     (1 <= k <= 5)%nat).
Proof.
  intros Hd.
  destruct (write_byte_run safe_mode chip data address h Hd)
    as (r & t & E & [[R (bs & L & Em)] | [R (k & K & Em)]]);
    rewrite E; cbn [fst snd]; rewrite <- emissions_pentads, Em, map_app,
      clean_pentads.
  - exists 9%nat. split; [ | left; split; [exact R | reflexivity]].
    do 5 (destruct bs as [ | ? bs]; try discriminate). reflexivity.
  - exists (S k). split; [ | right; split; [exact R | lia]].
    do 5 (destruct k as [ | k]; [reflexivity | ]). lia.
Qed.

End HostWriteClaims.

(** C6, host and firmware: a byte equal to 0xFF is skipped.  Whatever the
    address, the transport and the trace so far, [write_byte] returns 0 and
    adds no event at all: no write to the output lines, no sample of the
    input lines. *)
Theorem write_byte_ff_is_noop :
  forall (safe_mode : bool) (chip : Host.trace -> Z) (PORTD0 : Z)
         (pin_err : Firmware.trace -> bool) (address : Z)
         (h : Host.trace) (fh : Firmware.trace),
    Host.write_byte safe_mode chip 0xff address h = (0, []) /\
    Firmware.write_byte PORTD0 pin_err address 0xff fh = (0, []).
Proof.
  intros. split; reflexivity.
Qed.

(** C1: the address round trip of the host's [write_byte].  For every
    32-bit address and every data byte other than 0xFF, once the run has
    presented the four pentads that carry the address, the address rebuilt
    from them (two bits of the pentad shared with the top data bits, then
    three groups of five) is [address & 0x1FFFF]. *)
Theorem write_byte_address_roundtrip :
  forall (safe_mode : bool) (chip : Host.trace -> Z) (data address : Z)
         (h : Host.trace),
    0 <= address < 2 ^ 32 ->
    0 <= data < 256 ->
    data <> 0xff ->
    let ps := Host.pentads (snd (Host.write_byte safe_mode chip data address h)) in
    (5 <= length ps)%nat ->
    Host.address_of_pentads (nth 1 ps 0) (nth 2 ps 0) (nth 3 ps 0) (nth 4 ps 0)
    = Z.land address 0x1ffff.
Proof.
  intros safe_mode chip data address h _ _ Hd ps Hlen.
  destruct (write_byte_pentads safe_mode chip data address h Hd)
    as (k & E & K).
  fold ps in E.
  assert (5 <= k)%nat as Hk.
  { rewrite E in Hlen. rewrite length_firstn in Hlen. lia. }
  rewrite E.
  do 5 (destruct k as [ | k]; [lia | ]).
  cbn [Host.write_pentads firstn app nth].
  apply address_bits.
Qed.

Lemma write_byte_address_roundtrip_witness :
  0 <= 0x12345 < 2 ^ 32 /\ 0 <= 0xa5 < 256 /\ 0xa5 <> 0xff /\
  let ps := Host.pentads
              (snd (Host.write_byte true (Host.acking (fun _ => false))
                      0xa5 0x12345 [])) in
  (5 <= length ps)%nat /\
  Host.address_of_pentads (nth 1 ps 0) (nth 2 ps 0) (nth 3 ps 0) (nth 4 ps 0)
  = Z.land 0x12345 0x1ffff.
Proof.
  split; [lia | ]. split; [lia | ]. split; [lia | ].
  split; [vm_compute; lia | ].
  apply (write_byte_address_roundtrip true (Host.acking (fun _ => false))
           0xa5 0x12345 []); [lia | lia | lia | vm_compute; lia].
Defined.

(** C8, as the code has it: a byte write reports a fault of one of its five
    leading emissions (the command pentad and the four pentads that carry
    the address) and of no other.  For every data byte other than 0xFF it
    returns 1 when one of the first five emissions gave up, and 0 when none
    of them did, whatever became of the four trailing data pentads. *)
Theorem write_byte_reports_leading_faults :
  forall (safe_mode : bool) (chip : Host.trace -> Z) (data address : Z)
         (h : Host.trace),
    0 <= address < 2 ^ 32 ->
    0 <= data < 256 ->
    data <> 0xff ->
    let run := Host.write_byte safe_mode chip data address h in
    let leading := map snd (firstn 5 (Host.emissions (snd run))) in
    (In true leading -> fst run = 1) /\
    (~ In true leading -> fst run = 0).
Proof.
  intros safe_mode chip data address h _ _ Hd run leading.
  destruct (write_byte_run safe_mode chip data address h Hd)
    as (r & t & E & [[R (bs & L & Em)] | [R (k & K & Em)]]);
    subst leading run; rewrite E; cbn [fst snd]; rewrite Em, R.
  - split; [ | reflexivity].
    cbn. intuition discriminate.
  - split; [reflexivity | ]. intros N. exfalso. apply N.
    do 5 (destruct k as [ | k]; [cbn; tauto | ]). lia.
Qed.

Lemma write_byte_reports_leading_faults_witness :
  0 <= 0x12345 < 2 ^ 32 /\ 0 <= 0xa5 < 256 /\ 0xa5 <> 0xff /\
  let run := Host.write_byte true Host.absent 0xa5 0x12345 [] in
  let leading := map snd (firstn 5 (Host.emissions (snd run))) in
  (In true leading -> fst run = 1) /\
  (~ In true leading -> fst run = 0).
Proof.
  split; [lia | ]. split; [lia | ]. split; [lia | ].
  apply (write_byte_reports_leading_faults true Host.absent 0xa5 0x12345 []);
    lia.
Defined.

(** C8 as stated fails: with a chip that acknowledges the five leading
    pentads and then stops, the first trailing data pentad gives up and
    [write_byte] still returns 0. *)
Lemma write_byte_hides_trailing_fault :
  let run := Host.write_byte true (Host.acking_until 10 (fun _ => false))
               0xa5 0x12345 [] in
  nth 5 (Host.emissions (snd run)) (0, false) = (5, true) /\
  ~ (In true (map snd (Host.emissions (snd run))) -> fst run <> 0).
Proof.
  split; [vm_compute; reflexivity | ].
  intros H. apply H; vm_compute; tauto.
Qed.

(** ** The signal encoder of the firmware *)

Lemma port_wires (d p : Z) :
  0 <= d < 256 ->
  let low := u8 (Z.lor (Z.shiftl (u8 (Host.format d)) 2) (Z.land p 0x3)) in
  let high := u8 (Z.lor (Z.shiftl (u8 (Z.lor (Host.format d) 0x10)) 2)
                        (Z.land p 0x3)) in
  Host.strobe (Firmware.wires low) = false /\
  Host.payload (Firmware.wires low) = Z.land d 0x1f /\
  Host.strobe (Firmware.wires high) = true.
Proof.
  intros Hd.
  assert (Hq : 0 <= Z.land p 0x3 < 4).
  { change 0x3 with (Z.ones 2). rewrite Z.land_ones by lia.
    apply Z.mod_pos_bound. lia. }
  set (q := Z.land p 0x3) in *.
  pose proof (byte_forall
    (fun d => forallb (fun q =>
       let low := u8 (Z.lor (Z.shiftl (u8 (Host.format d)) 2) q) in
       let high := u8 (Z.lor (Z.shiftl (u8 (Z.lor (Host.format d) 0x10)) 2) q) in
       negb (Host.strobe (Firmware.wires low))
       && (Host.payload (Firmware.wires low) =? Z.land d 0x1f)
       && Host.strobe (Firmware.wires high)) [0; 1; 2; 3]) eq_refl d Hd) as H.
  cbv beta in H. rewrite forallb_forall in H.
  assert (In q [0; 1; 2; 3]) as Hin by (simpl; lia).
  specialize (H q Hin). cbv zeta in H.
  rewrite !andb_true_iff, negb_true_iff, Z.eqb_eq in H. cbv zeta. tauto.
Qed.

Lemma fw_pentads_app (a b : Firmware.trace) :
  Firmware.pentads (a ++ b) = Firmware.pentads a ++ Firmware.pentads b.
Proof.
  induction a as [ | e a IH]; [reflexivity | ].
  destruct e; simpl; try exact IH.
  destruct (Host.strobe (Firmware.wires v)); simpl; congruence.
Qed.

Lemma fw_quiet_pentads (t : Firmware.trace) :
  Firmware.quiet t -> Firmware.pentads t = [].
Proof.
  induction 1 as [ | e t He _ IH]; [reflexivity | ].
  destruct e; simpl in *; try exact IH.
  apply negb_false_iff in He. rewrite He. exact IH.
Qed.

Section FirmwareEncoder.

Variable PORTD0 : Z.
Variable pin_err : Firmware.trace -> bool.

Ltac split_ifs :=
  repeat (cbn; match goal with
               | |- context [if ?b then _ else _] => destruct b
               end).

Lemma fw_safe_mode_check_shape (check_high : bool) (h : Firmware.trace) :
  Firmware.quiet (snd (Firmware.safe_mode_check pin_err check_high h)) /\
  (fst (Firmware.safe_mode_check pin_err check_high h) = 0 \/
   fst (Firmware.safe_mode_check pin_err check_high h) = 1).
Proof.
  unfold Firmware.quiet.
  cbv [Firmware.safe_mode_check for_range for_step Firmware.MAX_TRIES bind
       ret Firmware.digitalRead_ERR Firmware.delay emit].
  split_ifs; cbn; (split; [repeat constructor | tauto]).
Qed.

(** One emission of the firmware: it presents the pentad and returns 0
    or 1. *)
Lemma fw_outp_run (d : Z) (h : Firmware.trace) :
  exists (r : Z) (t : Firmware.trace),
    Firmware.outp PORTD0 pin_err d h = (r, t) /\
    (r = 0 \/ r = 1) /\
    Firmware.pentads t = [Host.pentad_of d].
Proof.
  unfold Firmware.outp, Firmware.outb. fold (Host.format (u8 d)).
  set (f := Host.format (u8 d)) in *.
  cbv zeta. rewrite !run_bind. cbn [fst snd app].
  match goal with
  | |- context [Firmware.Port ?v] =>
      destruct (port_wires (u8 d) (Firmware.last_port PORTD0 h) (u8_range d))
        as (W1 & W2 & _); fold f in W1, W2; set (low := v) in *
  end.
  destruct (fw_safe_mode_check_shape true (h ++ [Firmware.Port low]))
    as [Q1 [R1 | R1]]; rewrite R1.
  - cbn [truthy Z.eqb negb]. rewrite !run_bind. cbn [fst snd app].
    match goal with
    | |- context [Firmware.safe_mode_check _ false (?h' ++ [Firmware.Port ?v])] =>
        destruct (port_wires (u8 d) (Firmware.last_port PORTD0 h') (u8_range d))
          as (_ & _ & W3); fold f in W3; set (high := v) in *;
        destruct (fw_safe_mode_check_shape false (h' ++ [Firmware.Port high]))
          as [Q2 [R2 | R2]]
    end; rewrite R2; cbn [truthy Z.eqb negb ret fst snd];
      do 2 eexists; (split; [reflexivity | ]); (split; [tauto | ]);
      rewrite app_nil_r; cbn [Firmware.pentads]; rewrite W1, W2;
      rewrite fw_pentads_app, (fw_quiet_pentads _ Q1);
      cbn [Firmware.pentads app]; rewrite W3, (fw_quiet_pentads _ Q2);
      reflexivity.
  - cbn [truthy Z.eqb negb ret fst snd].
    do 2 eexists. split; [reflexivity | ]. split; [tauto | ].
    rewrite app_nil_r. cbn [Firmware.pentads]. rewrite W1, W2.
    rewrite (fw_quiet_pentads _ Q1). reflexivity.
Qed.

End FirmwareEncoder.

(** ** Writing a byte, on the firmware *)

Section FirmwareWrite.

Variable PORTD0 : Z.
Variable pin_err : Firmware.trace -> bool.

Ltac fw_outp_step r t E :=
  cbv beta delta [bind];
  match goal with
  | |- context [Firmware.outp PORTD0 pin_err ?d ?h] =>
      let R := fresh "R" in
      let P := fresh "P" in
      destruct (fw_outp_run PORTD0 pin_err d h) as (r & t & E & R & P);
      rewrite E
  end.

Lemma fw_burst_run (n : nat) (data : Z) :
  forall (i : Z) (h : Firmware.trace),
  exists t : Firmware.trace,
    for_range n i tt
      (fun _ _ => bind (Firmware.outp PORTD0 pin_err data)
                       (fun _ => ret (inl tt))
                  : Run Firmware.event (unit + Z)) h = (inl tt, t) /\
    Firmware.pentads t = repeat (Host.pentad_of data) n.
Proof.
  unfold for_range.
  set (body := fun (_ : Z) (_ : unit) => _).
  induction n as [ | n IH]; intros i h.
  - exists []. split; reflexivity.
  - cbn [for_step]. unfold body at 1. fw_outp_step r t E. cbn [ret app].
    destruct (IH (u32 (i + 1)) (h ++ t ++ [])) as (t' & E' & P').
    rewrite E'. exists ((t ++ []) ++ t'). rewrite app_nil_r.
    split; [reflexivity | ].
    rewrite fw_pentads_app, P, P'. reflexivity.
Qed.

(** The pentads of a byte write on the firmware: all nine when it returns
    0, and those up to the one that gave up when it returns 1. *)
Lemma fw_write_byte_pentads (address data : Z) (h : Firmware.trace) :
  data <> 0xff ->
  exists k,
    Firmware.pentads (snd (Firmware.write_byte PORTD0 pin_err address data h))
    = firstn k (Firmware.write_pentads data address
                ++ repeat (Host.pentad_of data) 4) /\
    (fst (Firmware.write_byte PORTD0 pin_err address data h) = 0 /\ k = 9%nat
     \/ fst (Firmware.write_byte PORTD0 pin_err address data h) = 1 /\
        (1 <= k <= 5)%nat).
Proof.
  intros Hd. unfold Firmware.write_byte. apply Z.eqb_neq in Hd. rewrite Hd.
  set (trail := for_range 4 0 tt _).
  fw_outp_step r0 t0 E0.
  destruct R as [-> | ->]; cbn [truthy Z.eqb negb ret app fst snd].
  2:{ exists 1%nat. rewrite ?app_nil_r, P. split; [reflexivity | right; split; [reflexivity | lia]]. }
  fw_outp_step r1 t1 E1.
  destruct R as [-> | ->]; cbn [truthy Z.eqb negb ret app fst snd].
  2:{ exists 2%nat. rewrite ?app_nil_r, !fw_pentads_app, P, P0.
      split; [reflexivity | right; split; [reflexivity | lia]]. }
  fw_outp_step r2 t2 E2.
  destruct R as [-> | ->]; cbn [truthy Z.eqb negb ret app fst snd].
  2:{ exists 3%nat. rewrite ?app_nil_r, !fw_pentads_app, P, P0, P1.
      split; [reflexivity | right; split; [reflexivity | lia]]. }
  fw_outp_step r3 t3 E3.
  destruct R as [-> | ->]; cbn [truthy Z.eqb negb ret app fst snd].
  2:{ exists 4%nat. rewrite ?app_nil_r, !fw_pentads_app, P, P0, P1, P2.
      split; [reflexivity | right; split; [reflexivity | lia]]. }
  fw_outp_step r4 t4 E4.
  destruct R as [-> | ->]; cbn [truthy Z.eqb negb ret app fst snd].
  2:{ exists 5%nat. rewrite ?app_nil_r, !fw_pentads_app, P, P0, P1, P2, P3.
      split; [reflexivity | right; split; [reflexivity | lia]]. }
  match goal with
  | |- context [trail ?h'] =>
      destruct (fw_burst_run 4 data 0 h') as (t5 & E5 & P5)
  end.
  unfold trail. rewrite E5. cbn [fst snd].
  exists 9%nat. rewrite ?app_nil_r, !fw_pentads_app, P, P0, P1, P2, P3, P5.
  split; [reflexivity | left; split; reflexivity].
Qed.

End FirmwareWrite.

Lemma firstn_firstn_prefix {A : Type} (l : list A) (j k : nat) :
  (j <= k)%nat -> firstn j l = firstn j (firstn k l).
Proof.
  intros H. rewrite firstn_firstn. f_equal. lia.
Qed.

(** ** The safe-mode handshake *)

(** C5, as the code has it: when the acknowledgment line never reaches the
    level a handshake phase waits for, the phase samples the line exactly
    four times and then returns 1, on the host and on the firmware alike;
    the host sleeps 125, 250, 500 and 1000 microseconds after the four
    samples, the firmware waits one millisecond after each of them.  [outp]
    then returns 1 as well: in its first phase when the line stays low, in
    its second phase when the line stays high. *)
Theorem handshake_gives_up_after_four_tries :
  forall (chip : Host.trace -> Z) (pin_err : Firmware.trace -> bool)
         (high : bool) (h : Host.trace) (fh : Firmware.trace),
    (forall h', Host.err_high (u8 (chip h')) = negb high) ->
    (forall fh', pin_err fh' = negb high) ->
    (exists v1 v2 v3 v4,
       Host.safe_mode_check chip high h =
       (1, [Host.Inb v1; Host.Usleep 125; Host.Inb v2; Host.Usleep 250;
            Host.Inb v3; Host.Usleep 500; Host.Inb v4; Host.Usleep 1000])) /\
    Firmware.safe_mode_check pin_err high fh =
    (1, [Firmware.ErrPin (negb high); Firmware.Delay 1;
         Firmware.ErrPin (negb high); Firmware.Delay 1;
         Firmware.ErrPin (negb high); Firmware.Delay 1;
         Firmware.ErrPin (negb high); Firmware.Delay 1]) /\
    (forall data, fst (Host.outp true chip data h) = 1) /\
    (forall PORTD0 data, fst (Firmware.outp PORTD0 pin_err data fh) = 1).
Proof.
  intros chip pin_err high h fh Hc Hp.
  assert (Hc' : forall h', (Z.land (u8 (chip h')) Host.MASK_CHIP_ERR =? 0) = high).
  { intros h'. specialize (Hc h'). unfold Host.err_high in Hc.
    apply (f_equal negb) in Hc. rewrite !negb_involutive in Hc. exact Hc. }
  assert (Hhost : forall h0, exists v1 v2 v3 v4,
             Host.safe_mode_check chip high h0 =
             (1, [Host.Inb v1; Host.Usleep 125; Host.Inb v2; Host.Usleep 250;
                  Host.Inb v3; Host.Usleep 500; Host.Inb v4; Host.Usleep 1000])).
  { intros h0.
    cbv [Host.safe_mode_check for_range for_step Host.MAX_TRIES bind ret
         Host._inb Host.usleep emit].
    rewrite !Hc'.
    replace ((high && negb high) || (negb high && high)) with false
      by (destruct high; reflexivity).
    cbn. rewrite !Hc'.
    replace ((high && negb high) || (negb high && high)) with false
      by (destruct high; reflexivity).
    cbn. rewrite !Hc'.
    replace ((high && negb high) || (negb high && high)) with false
      by (destruct high; reflexivity).
    cbn. rewrite !Hc'.
    replace ((high && negb high) || (negb high && high)) with false
      by (destruct high; reflexivity).
    cbn. do 4 eexists. reflexivity. }
  assert (Hfw : forall fh0,
             Firmware.safe_mode_check pin_err high fh0 =
             (1, [Firmware.ErrPin (negb high); Firmware.Delay 1;
                  Firmware.ErrPin (negb high); Firmware.Delay 1;
                  Firmware.ErrPin (negb high); Firmware.Delay 1;
                  Firmware.ErrPin (negb high); Firmware.Delay 1])).
  { intros fh0.
    cbv [Firmware.safe_mode_check for_range for_step Firmware.MAX_TRIES bind
         ret Firmware.digitalRead_ERR Firmware.delay emit].
    rewrite !Hp.
    replace ((high && negb high) || (negb high && negb (negb high))) with false
      by (destruct high; reflexivity).
    cbn. rewrite !Hp.
    replace ((high && negb high) || (negb high && negb (negb high))) with false
      by (destruct high; reflexivity).
    cbn. rewrite !Hp.
    replace ((high && negb high) || (negb high && negb (negb high))) with false
      by (destruct high; reflexivity).
    cbn. rewrite !Hp.
    replace ((high && negb high) || (negb high && negb (negb high))) with false
      by (destruct high; reflexivity).
    reflexivity. }
  split; [apply Hhost | ]. split; [apply Hfw | ]. split.
  - intros data.
    cbv beta iota zeta delta [Host.outp Host.checked bind Host._outb emit].
    destruct high.
    + match goal with
      | |- context [Host.safe_mode_check chip true ?h0] =>
          destruct (Hhost h0) as (v1 & v2 & v3 & v4 & E); rewrite E
      end.
      reflexivity.
    + match goal with
      | |- context [Host.safe_mode_check chip true ?h0] =>
          assert (E1 : Host.safe_mode_check chip true h0
                       = (0, [Host.Inb (u8 (chip h0))]))
      end.
      { cbv [Host.safe_mode_check for_range for_step Host.MAX_TRIES bind ret
             Host._inb Host.usleep emit].
        rewrite !Hc'. reflexivity. }
      rewrite E1. cbv beta iota zeta delta [truthy Z.eqb negb].
      match goal with
      | |- context [Host.safe_mode_check chip false ?h0] =>
          destruct (Hhost h0) as (v1 & v2 & v3 & v4 & E); rewrite E
      end.
      reflexivity.
  - intros PORTD0 data.
    cbv beta iota zeta delta [Firmware.outp bind].
    destruct high.
    + destruct (Firmware.outb PORTD0 _ fh) as [[] t0].
      rewrite Hfw. reflexivity.
    + destruct (Firmware.outb PORTD0 _ fh) as [[] t0].
      assert (E1 : Firmware.safe_mode_check pin_err true (fh ++ t0)
                   = (0, [Firmware.ErrPin true])).
      { cbv [Firmware.safe_mode_check for_range for_step Firmware.MAX_TRIES
             bind ret Firmware.digitalRead_ERR Firmware.delay emit].
        rewrite !Hp. reflexivity. }
      rewrite E1. cbv beta iota zeta delta [truthy Z.eqb negb].
      match goal with
      | |- context [Firmware.outb PORTD0 ?d ?h0] =>
          destruct (Firmware.outb PORTD0 d h0) as [[] t1]
      end.
      rewrite Hfw. reflexivity.
Qed.

Lemma handshake_gives_up_after_four_tries_witness :
  (forall h', Host.err_high (u8 (Host.absent h')) = negb true) /\
  (forall fh', Firmware.absent fh' = negb true) /\
  (exists v1 v2 v3 v4,
     Host.safe_mode_check Host.absent true [] =
     (1, [Host.Inb v1; Host.Usleep 125; Host.Inb v2; Host.Usleep 250;
          Host.Inb v3; Host.Usleep 500; Host.Inb v4; Host.Usleep 1000])) /\
  Firmware.safe_mode_check Firmware.absent true [] =
  (1, [Firmware.ErrPin false; Firmware.Delay 1;
       Firmware.ErrPin false; Firmware.Delay 1;
       Firmware.ErrPin false; Firmware.Delay 1;
       Firmware.ErrPin false; Firmware.Delay 1]) /\
  (forall data, fst (Host.outp true Host.absent data []) = 1) /\
  (forall PORTD0 data, fst (Firmware.outp PORTD0 Firmware.absent data []) = 1).
Proof.
  split; [intros h'; reflexivity | ]. split; [intros fh'; reflexivity | ].
  apply (handshake_gives_up_after_four_tries Host.absent Firmware.absent
           true [] []); intros; reflexivity.
Defined.

(** C5 as stated fails on the firmware: its four waits are of one
    millisecond each, not of 125, 250, 500 and 1000 microseconds. *)
Lemma firmware_handshake_does_not_double :
  map (Z.mul 1000)
      (Firmware.delays (snd (Firmware.safe_mode_check Firmware.absent true [])))
  = [1000; 1000; 1000; 1000] /\
  map (Z.mul 1000)
      (Firmware.delays (snd (Firmware.safe_mode_check Firmware.absent true [])))
  <> [125; 250; 500; 1000].
Proof.
  split; [reflexivity | discriminate].
Qed.

(** ** Erasing *)

Section HostErase.

Variable safe_mode : bool.
Variable chip : Host.trace -> Z.

Lemma orelse_head (a b : Run Host.event Z) (h : Host.trace)
    (e : Host.event) (t : Host.trace) :
  snd (a h) = e :: t -> exists t', snd (orelse a b h) = e :: t'.
Proof.
  intros H. unfold orelse. rewrite run_bind. cbn [snd]. rewrite H.
  eexists. reflexivity.
Qed.

(** The read-initialization sequence opens with its first pentad. *)
Lemma init_read_mode_head (h : Host.trace) :
  exists t,
    snd (Host.init_read_mode safe_mode chip h)
    = Host.Outb (Host.format (u8 0x11)) :: t.
Proof.
  unfold Host.init_read_mode.
  destruct (outp_shape safe_mode chip (nth 0 Host.CMD_READ_INIT 0) h)
    as (t0 & E0 & _).
  change (nth 0 Host.CMD_READ_INIT 0) with 0x11 in *.
  destruct (orelse_head _ (Host.outp safe_mode chip (nth 1 Host.CMD_READ_INIT 0))
              _ _ _ E0) as (t1 & E1).
  destruct (orelse_head _ (Host.outp safe_mode chip (nth 2 Host.CMD_READ_INIT 0))
              _ _ _ E1) as (t2 & E2).
  destruct (orelse_head _ (Host.outp safe_mode chip (nth 3 Host.CMD_READ_INIT 0))
              _ _ _ E2) as (t3 & E3).
  destruct (orelse_head _ (Host.outp safe_mode chip (nth 4 Host.CMD_READ_INIT 0))
              _ _ _ E3) as (t4 & E4).
  exists t4. exact E4.
Qed.

Ltac gu := first [assumption | reflexivity | rewrite gives_up_app; gu].

(** The run of [erase_chip]: thirteen emissions of the erase pentad whose
    results are not looked at, then the read-initialization sequence; and
    a run that ends has printed "Done". *)
Lemma erase_chip_run (fuel : nat) (garbage : Z) (h : Host.trace) :
  exists (outcomes : list bool) (b : bool) (rest : list (Z * bool)),
    length outcomes = 13%nat /\
    Host.emissions (snd (Host.erase_chip safe_mode chip fuel garbage h))
    = map (fun o => (Host.CMD_ERASE, o)) outcomes ++ (0x11, b) :: rest /\
    (fst (Host.erase_chip safe_mode chip fuel garbage h) = Some tt ->
     exists t, snd (Host.erase_chip safe_mode chip fuel garbage h)
               = t ++ [Host.Printf Host.MsgDone]).
Proof.
  unfold Host.erase_chip.
  set (erase := for_range 13 0 tt _).
  cbv beta iota delta [bind Host.printf emit].
  match goal with
  | |- context [erase ?h'] =>
      destruct (burst_run safe_mode chip 13 Host.CMD_ERASE 0 h')
        as (bs & t13 & E13 & L13 & Em13 & G13)
  end.
  unfold erase. rewrite E13.
  match goal with
  | |- context [Host.init_read_mode safe_mode chip ?h'] =>
      destruct (init_read_mode_head h') as (ti & Ei);
      destruct (Host.init_read_mode safe_mode chip h') as [ri ti'] eqn:Ri
  end.
  cbn [snd] in Ei. subst ti'.
  match goal with
  | |- context [Host.read_byte safe_mode chip garbage ?h'] =>
      destruct (Host.read_byte safe_mode chip garbage h') as [[rr c2] tr]
  end.
  cbn [snd].
  match goal with
  | |- context [Host.erase_poll safe_mode chip fuel c2 ?h'] =>
      destruct (Host.erase_poll safe_mode chip fuel c2 h') as [done tp]
  end.
  destruct (format_payload (u8 0x11) (u8_range 0x11)) as (F1 & F2 & _).
  exists bs. 
  destruct done as [ [] | ]; cbn [fst snd ret app].
  - eexists. eexists. split; [exact L13 | ]. split.
    + cbn [Host.emissions]. rewrite emissions_app by (simpl; rewrite ?F1; reflexivity).
      rewrite Em13. cbn [Host.emissions app]. rewrite F1, F2. reflexivity.
    + intros _.
      exists (Host.Printf Host.MsgErasing
              :: t13 ++ Host.Outb (Host.format (u8 0x11)) :: ti ++ tr ++ tp).
      rewrite ?app_nil_r. cbn [app]. f_equal.
      repeat (rewrite <- ?app_assoc; cbn [app]). reflexivity.
  - eexists. eexists. split; [exact L13 | ]. split.
    + cbn [Host.emissions]. rewrite emissions_app by (simpl; rewrite ?F1; reflexivity).
      rewrite Em13. cbn [Host.emissions app]. rewrite F1, F2. reflexivity.
    + discriminate.
Qed.

End HostErase.

(** C9, as the code has it: a fault on an erase pentad is neither retried
    nor reported.  Whatever the chip answers, [erase_chip] emits the erase
    pentad exactly thirteen times, each once and whatever became of the
    ones before it, and goes on to the read-initialization sequence; it has
    no status to return, and a run of it that ends has printed "Done". *)
Theorem erase_ignores_faults :
  forall (safe_mode : bool) (chip : Host.trace -> Z) (fuel : nat)
         (garbage : Z) (h : Host.trace),
    let run := Host.erase_chip safe_mode chip fuel garbage h in
    (exists (outcomes : list bool) (b : bool) (rest : list (Z * bool)),
       length outcomes = 13%nat /\
       Host.emissions (snd run)
       = map (fun o => (Host.CMD_ERASE, o)) outcomes ++ (0x11, b) :: rest) /\
    (fst run = Some tt ->
     exists t, snd run = t ++ [Host.Printf Host.MsgDone]).
Proof.
  intros safe_mode chip fuel garbage h run.
  destruct (erase_chip_run safe_mode chip fuel garbage h)
    as (outcomes & b & rest & L & Em & D).
  split; [ | exact D].
  exists outcomes, b, rest. split; assumption.
Qed.

(** C9 as stated fails: in safe mode and with no chip answering, each of
    the thirteen erase emissions gives up, and [erase_chip] still returns
    normally after printing "Done". *)
Lemma erase_reports_done_despite_faults :
  let run := Host.erase_chip true Host.absent 1 0x5a [] in
  firstn 13 (Host.emissions (snd run)) = repeat (Host.CMD_ERASE, true) 13 /\
  fst run = Some tt /\
  ~ (In true (map snd (Host.emissions (snd run))) ->
     ~ In (Host.Printf Host.MsgDone) (snd run)).
Proof.
  split; [vm_compute; reflexivity | ]. split; [vm_compute; reflexivity | ].
  intros H. apply H; vm_compute; tauto.
Qed.

(** C4 on a chip that stops answering: the chip acknowledges the thirteen
    erase pentads, the read-initialization sequence and one whole byte read
    (27 pentads, 54 bytes written), and then no more.  The second read
    gives up at its command pentad and leaves the variable as it was, the
    comparison finds the two values equal, and the erase is reported done
    after a single byte was read. *)
Theorem erase_done_after_one_read :
  let run := Host.erase_chip true (Host.acking_until 54 (fun _ => false))
               1 0x5a [] in
  fst run = Some tt /\
  last (snd run) (Host.Printf Host.MsgErasing) = Host.Printf Host.MsgDone /\
  Host.emissions (snd run)
  = Host.clean (repeat Host.CMD_ERASE 13 ++ Host.CMD_READ_INIT
                ++ [Host.CMD_READ; 0; 1; 2; 3; 4; 5; 6; 7])
    ++ [(0x11, true); (Host.CMD_READ, true)] /\
  count_occ Z.eq_dec (Host.pentads (snd run)) Host.CMD_READ = 2%nat.
Proof.
  vm_compute. repeat split; reflexivity.
Qed.

(** ** The stream frame *)

(** The three bytes of a frame with the tag [tag] (0x80 or 0xC0) and the
    length [n], and what [read_size] makes of them. *)
Lemma read_size_decodes (tag n : Z) :
  tag = 0x80 \/ tag = 0xc0 ->
  0 <= n <= 0x20000 ->
  let b0 := u8 (Z.lor tag (Z.shiftr n 16)) in
  let b1 := Z.land (Z.shiftr n 8) 0xff in
  let b2 := Z.land n 0xff in
  Z.land b0 0xC0 = tag /\
  forall (serial_in : Firmware.trace -> list Z) (fh : Firmware.trace),
    firstn 2 (map u8 (serial_in fh)) = [b1; b2] ->
    Firmware.read_size serial_in b0 fh = (n, [Firmware.SerialRead [b1; b2]]).
Proof.
  intros Htag Hn b0 b1 b2.
  assert (Hq : Z.shiftr n 16 = n / 65536) by (rewrite Z.shiftr_div_pow2 by lia; reflexivity).
  assert (Hq3 : n / 65536 = 0 \/ n / 65536 = 1 \/ n / 65536 = 2).
  { Z.div_mod_to_equations. lia. }
  assert (Hb0 : Z.land b0 0xC0 = tag /\ Z.land b0 0x3f = n / 65536).
  { subst b0. rewrite Hq.
    destruct Htag as [-> | ->]; destruct Hq3 as [-> | [-> | ->]];
      split; reflexivity. }
  destruct Hb0 as [Hb0 Hb0'].
  split; [exact Hb0 | ].
  intros serial_in fh Hin.
  unfold Firmware.read_size, Firmware.Serial_readBytes.
  rewrite run_bind. cbn [fst snd ret app].
  change (Z.to_nat 2) with 2%nat. rewrite Hin.
  unfold store. cbn [Z.to_nat firstn skipn app length Nat.add nth].
  rewrite Hb0'. f_equal.
  subst b1 b2. change 0xff with (Z.ones 8).
  rewrite !Z.land_ones, !Z.shiftr_div_pow2, !Z.shiftl_mul_pow2 by lia.
  change (2 ^ 16) with 65536. change (2 ^ 8) with 256.
  unfold u32.
  rewrite (Z.mod_small (n / 65536 * 65536)) by (Z.div_mod_to_equations; lia).
  rewrite (Z.mod_small ((n / 256) mod 256 * 256)) by (Z.div_mod_to_equations; lia).
  rewrite (lor_disjoint (_ * 65536) (_ * 256) 16),
          (lor_disjoint (_ + _) (_ mod 256) 8); try lia.
  all: change (2 ^ 16) with 65536; change (2 ^ 8) with 256.
  all: Z.div_mod_to_equations; lia.
Qed.

Lemma write_run (wr_ok : Host.trace -> bool) (bytes : list Z) (h : Host.trace) :
  wr_ok h = true ->
  Host.write wr_ok bytes h = (Z.of_nat (length bytes), [Host.Tx bytes]).
Proof. intros H. unfold Host.write. rewrite H. reflexivity. Qed.

(** C7: the length of a stream survives the three-byte frame.  For every
    [n] in [0, 0x20000], 0x20000 included, the first thing either stream
    function of the host sends is a frame of three bytes whose first byte
    carries the tag of the stream (0x80 to read, 0xC0 to write) in its two
    top bits, and the firmware's [read_size], given that first byte and
    finding the other two on the serial port, returns exactly [n]. *)
Theorem stream_frame_roundtrip :
  forall (n : Z) (sel : Host.trace -> Z)
         (incoming : Host.trace -> option (list Z))
         (wr_ok : Host.trace -> bool) (fuel : nat) (buf data : list Z)
         (h : Host.trace),
    0 <= n <= 0x20000 ->
    wr_ok h = true ->
    (exists b0 b1 b2 t,
       snd (Host.serial_read_byte_stream sel incoming wr_ok fuel buf n h)
       = Host.Tx [b0; b1; b2] :: t /\
       Z.land b0 0xC0 = 0x80 /\
       forall (serial_in : Firmware.trace -> list Z) (fh : Firmware.trace),
         firstn 2 (map u8 (serial_in fh)) = [b1; b2] ->
         fst (Firmware.read_size serial_in b0 fh) = n) /\
    (exists b0 b1 b2 t,
       snd (Host.serial_write_byte_stream sel incoming wr_ok data n h)
       = Host.Tx [b0; b1; b2] :: t /\
       Z.land b0 0xC0 = 0xC0 /\
       forall (serial_in : Firmware.trace -> list Z) (fh : Firmware.trace),
         firstn 2 (map u8 (serial_in fh)) = [b1; b2] ->
         fst (Firmware.read_size serial_in b0 fh) = n).
Proof.
  intros n sel incoming wr_ok fuel buf data h Hn Hw.
  split.
  - destruct (read_size_decodes 0x80 n (or_introl eq_refl) Hn) as [T D].
    unfold Host.serial_read_byte_stream. cbv zeta.
    rewrite run_bind. rewrite !(write_run wr_ok _ h Hw).
    cbn [fst snd length Z.of_nat Z.leb Z.compare Pos.of_succ_nat Pos.succ app].
    do 4 eexists. split; [reflexivity | ]. split; [exact T | ].
    intros serial_in fh Hin. rewrite (D serial_in fh Hin). reflexivity.
  - destruct (read_size_decodes 0xc0 n (or_intror eq_refl) Hn) as [T D].
    unfold Host.serial_write_byte_stream. cbv zeta.
    rewrite run_bind. rewrite !(write_run wr_ok _ h Hw).
    cbn [fst snd length Z.of_nat Z.leb Z.compare Pos.of_succ_nat Pos.succ app].
    do 4 eexists. split; [reflexivity | ]. split; [exact T | ].
    intros serial_in fh Hin. rewrite (D serial_in fh Hin). reflexivity.
Qed.

Lemma stream_frame_roundtrip_witness :
  0 <= 0x20000 <= 0x20000 /\ Host.writable [] = true /\
  (exists b0 b1 b2 t,
     snd (Host.serial_read_byte_stream Host.timing_out Host.no_bytes
            Host.writable 1 [] 0x20000 [])
     = Host.Tx [b0; b1; b2] :: t /\
     Z.land b0 0xC0 = 0x80 /\
     forall (serial_in : Firmware.trace -> list Z) (fh : Firmware.trace),
       firstn 2 (map u8 (serial_in fh)) = [b1; b2] ->
       fst (Firmware.read_size serial_in b0 fh) = 0x20000) /\
  (exists b0 b1 b2 t,
     snd (Host.serial_write_byte_stream Host.timing_out Host.no_bytes
            Host.writable [] 0x20000 [])
     = Host.Tx [b0; b1; b2] :: t /\
     Z.land b0 0xC0 = 0xC0 /\
     forall (serial_in : Firmware.trace -> list Z) (fh : Firmware.trace),
       firstn 2 (map u8 (serial_in fh)) = [b1; b2] ->
       fst (Firmware.read_size serial_in b0 fh) = 0x20000).
Proof.
  split; [lia | ]. split; [reflexivity | ].
  apply (stream_frame_roundtrip 0x20000 Host.timing_out Host.no_bytes
           Host.writable 1 [] [] []); [lia | reflexivity].
Defined.

(** ** Reading the chip over the serial bridge *)

(** C3 against the code: when the chip is set up for reading, the stream
    read fails and the output file can be created, [read_bios] goes on
    after the error message, writes the buffer to the file and returns
    0. *)
Theorem read_bios_returns_0_after_stream_failure :
  forall (safe_mode : bool) (chip : Host.trace -> Z)
         (sel : Host.trace -> Z) (incoming : Host.trace -> option (list Z))
         (wr_ok fopen_ok : Host.trace -> bool) (fuel : nat)
         (garbage : list Z) (h : Host.trace),
    let h1 := h ++ [Host.Printf Host.MsgReadingTo] in
    let init := Host.init_read_mode safe_mode chip h1 in
    let h2 := (h1 ++ snd init) ++ [Host.Printf Host.MsgReading] in
    let stream := Host.serial_read_byte_stream sel incoming wr_ok fuel garbage
                    Host.BIOS_SIZE h2 in
    fst init = 0 ->
    (exists buf, fst stream = Some (1, buf)) ->
    (forall h', fopen_ok h' = true) ->
    let run := Host.read_bios safe_mode chip true sel incoming wr_ok fopen_ok
                 fuel garbage h in
    fst run = Some 0 /\
    In (Host.Eprintf Host.MsgStreamReadFailed) (snd run) /\
    In (Host.Printf Host.MsgReadComplete) (snd run).
Proof.
  intros safe_mode chip sel incoming wr_ok fopen_ok fuel garbage h
    h1 init h2 stream Hi [buf Hs] Hf run.
  subst run. unfold Host.read_bios. cbv zeta.
  rewrite run_bind. cbn [Host.printf emit fst snd].
  rewrite run_bind. fold h1. fold init. rewrite Hi.
  cbn [truthy Z.eqb negb].
  rewrite run_bind. cbn [Host.printf emit fst snd].
  rewrite run_bind. cbn [andb]. fold h2. fold stream. rewrite Hs.
  rewrite !run_bind. cbn [truthy Z.eqb negb Host.eprintf emit fst snd ret].
  unfold Host.fopen, Host.printf, emit. cbn [fst snd]. rewrite !Hf.
  cbn [negb]. rewrite !run_bind. cbn [fst snd ret].
  split; [reflexivity | ].
  rewrite !in_app_iff. cbn [In]. tauto.
Qed.

Lemma read_bios_returns_0_after_stream_failure_witness :
  fst (Host.init_read_mode false Host.absent
         ([] ++ [Host.Printf Host.MsgReadingTo])) = 0 /\
  (exists buf,
     fst (Host.serial_read_byte_stream Host.timing_out Host.no_bytes
            Host.writable 1 Host.blank Host.BIOS_SIZE
            ((([] ++ [Host.Printf Host.MsgReadingTo])
              ++ snd (Host.init_read_mode false Host.absent
                        ([] ++ [Host.Printf Host.MsgReadingTo])))
             ++ [Host.Printf Host.MsgReading]))
     = Some (1, buf)) /\
  (forall h', Host.creatable h' = true) /\
  fst (Host.read_bios false Host.absent true Host.timing_out Host.no_bytes
         Host.writable Host.creatable 1 Host.blank []) = Some 0 /\
  In (Host.Eprintf Host.MsgStreamReadFailed)
     (snd (Host.read_bios false Host.absent true Host.timing_out
             Host.no_bytes Host.writable Host.creatable 1 Host.blank [])) /\
  In (Host.Printf Host.MsgReadComplete)
     (snd (Host.read_bios false Host.absent true Host.timing_out
             Host.no_bytes Host.writable Host.creatable 1 Host.blank [])).
Proof.
  split; [reflexivity | ].
  split; [exists Host.blank; reflexivity | ].
  split; [intros h'; reflexivity | ].
  apply (read_bios_returns_0_after_stream_failure false Host.absent
           Host.timing_out Host.no_bytes Host.writable Host.creatable 1
           Host.blank []);
    [reflexivity | exists Host.blank; reflexivity | intros h'; reflexivity].
Defined.

(** ** A stream write, end to end *)

Lemma sent_app (a b : Firmware.trace) :
  Firmware.sent (a ++ b) = Firmware.sent a ++ Firmware.sent b.
Proof.
  induction a as [ | e a IH]; [reflexivity | ].
  destruct e; simpl; congruence.
Qed.

Lemma consumed_app (a b : Firmware.trace) :
  Firmware.consumed (a ++ b) = (Firmware.consumed a + Firmware.consumed b)%nat.
Proof.
  induction a as [ | e a IH]; [reflexivity | ].
  destruct e; simpl; lia.
Qed.

Lemma delays_app (a b : Firmware.trace) :
  Firmware.delays (a ++ b) = Firmware.delays a ++ Firmware.delays b.
Proof.
  induction a as [ | e a IH]; [reflexivity | ].
  destruct e; simpl; congruence.
Qed.

Lemma bus_only_quiet_serial (t : Firmware.trace) :
  Firmware.bus_only t ->
  Firmware.sent t = [] /\ Firmware.consumed t = O /\ Firmware.delays t = [].
Proof.
  induction 1 as [ | e t He _ (IH1 & IH2 & IH3)]; [repeat split | ].
  destruct e; simpl in *; tauto.
Qed.

Lemma bus_only_app (a b : Firmware.trace) :
  Firmware.bus_only a -> Firmware.bus_only b -> Firmware.bus_only (a ++ b).
Proof. unfold Firmware.bus_only. intros Ha Hb. apply Forall_app. split; assumption. Qed.

Lemma last_port_app (r : Z) (a b : Firmware.trace) :
  Firmware.last_port r (a ++ b) = Firmware.last_port (Firmware.last_port r a) b.
Proof.
  revert r. induction a as [ | e a IH]; intros r; [reflexivity | ].
  destruct e; simpl; apply IH.
Qed.

Section FirmwareAcking.

Variable PORTD0 : Z.

(** With a chip that acknowledges every pentad an emission takes one
    sample per phase and returns 0. *)
Lemma fw_outp_acking (d : Z) (h : Firmware.trace) :
  exists lo hi,
    Firmware.outp PORTD0 Firmware.acking d h
    = (0, [Firmware.Port lo; Firmware.ErrPin true;
           Firmware.Port hi; Firmware.ErrPin false]).
Proof.
  unfold Firmware.outp, Firmware.outb. fold (Host.format (u8 d)).
  set (f := Host.format (u8 d)) in *. cbv zeta.
  destruct (port_wires (u8 d) (Firmware.last_port PORTD0 h) (u8_range d))
    as (W1 & _ & _). fold f in W1.
  set (lo := u8 (Z.lor (Z.shiftl (u8 f) 2)
                       (Z.land (Firmware.last_port PORTD0 h) 3))) in *.
  destruct (port_wires (u8 d)
              (Firmware.last_port PORTD0 ((h ++ [Firmware.Port lo])
                                          ++ [Firmware.ErrPin true]))
              (u8_range d)) as (_ & _ & W3). fold f in W3.
  match type of W3 with
  | Host.strobe (Firmware.wires ?v) = true => set (hi := v) in *
  end.
  exists lo, hi.
  assert (A1 : Firmware.acking (h ++ [Firmware.Port lo]) = true).
  { unfold Firmware.acking. rewrite last_port_app. cbn [Firmware.last_port].
    rewrite W1. reflexivity. }
  assert (A2 : Firmware.acking (((h ++ [Firmware.Port lo])
                                 ++ [Firmware.ErrPin true])
                                ++ [Firmware.Port hi]) = false).
  { unfold Firmware.acking. rewrite last_port_app. cbn [Firmware.last_port].
    rewrite W3. reflexivity. }
  cbv [Firmware.safe_mode_check for_range for_step Firmware.MAX_TRIES bind
       ret Firmware.digitalRead_ERR Firmware.delay emit].
  fold lo. rewrite A1. cbn [andb orb negb truthy Z.eqb app].
  fold hi. rewrite A2. cbn [andb orb negb truthy Z.eqb app].
  reflexivity.
Qed.

Lemma fw_outp_acking_bus (d : Z) (h : Firmware.trace) :
  exists t,
    Firmware.outp PORTD0 Firmware.acking d h = (0, t) /\ Firmware.bus_only t.
Proof.
  destruct (fw_outp_acking d h) as (lo & hi & E).
  eexists. split; [exact E | repeat constructor].
Qed.

Ltac acking_step t E :=
  cbv beta delta [bind];
  match goal with
  | |- context [Firmware.outp PORTD0 Firmware.acking ?d ?h] =>
      let B := fresh "B" in
      destruct (fw_outp_acking_bus d h) as (t & E & B);
      rewrite E
  end.

Lemma fw_burst_acking (n : nat) (data : Z) :
  forall (i : Z) (h : Firmware.trace),
  exists t : Firmware.trace,
    for_range n i tt
      (fun _ _ => bind (Firmware.outp PORTD0 Firmware.acking data)
                       (fun _ => ret (inl tt))
                  : Run Firmware.event (unit + Z)) h = (inl tt, t) /\
    Firmware.bus_only t.
Proof.
  unfold for_range.
  set (body := fun (_ : Z) (_ : unit) => _).
  induction n as [ | n IH]; intros i h.
  - exists []. split; [reflexivity | constructor].
  - cbn [for_step]. unfold body at 1. acking_step t E. cbn [ret app].
    destruct (IH (u32 (i + 1)) (h ++ t ++ [])) as (t' & E' & B').
    rewrite E'. exists ((t ++ []) ++ t'). split; [reflexivity | ].
    rewrite app_nil_r. apply bus_only_app; assumption.
Qed.

(** With such a chip a byte write returns 0 and leaves the serial port
    alone. *)
Lemma fw_write_byte_acking (address data : Z) (h : Firmware.trace) :
  exists t,
    Firmware.write_byte PORTD0 Firmware.acking address data h = (0, t) /\
    Firmware.bus_only t.
Proof.
  unfold Firmware.write_byte.
  destruct (data =? 0xff).
  { exists []. split; [reflexivity | constructor]. }
  set (trail := for_range 4 0 tt _).
  acking_step t0 E0. cbn [truthy Z.eqb negb].
  acking_step t1 E1. cbn [truthy Z.eqb negb].
  acking_step t2 E2. cbn [truthy Z.eqb negb].
  acking_step t3 E3. cbn [truthy Z.eqb negb].
  acking_step t4 E4. cbn [truthy Z.eqb negb].
  match goal with
  | |- context [trail ?h'] =>
      destruct (fw_burst_acking 4 data 0 h') as (t5 & E5 & B5)
  end.
  unfold trail. rewrite E5. cbn [ret].
  eexists. split; [reflexivity | ].
  rewrite app_nil_r. repeat apply bus_only_app; assumption.
Qed.

End FirmwareAcking.

Section FirmwareStream.

Variable PORTD0 : Z.
Variable wire : list Z.

#[local] Abbreviation round :=
  (Firmware.write_byte_stream_body PORTD0 Firmware.acking (Firmware.fed wire)).

Lemma readBytes_full (h : Firmware.trace) :
  (Firmware.consumed h + 60 <= length wire)%nat ->
  exists bs,
    Firmware.Serial_readBytes (Firmware.fed wire) 60 h
    = (bs, [Firmware.SerialRead bs]) /\ length bs = 60%nat.
Proof.
  intros H. unfold Firmware.Serial_readBytes. eexists. split; [reflexivity | ].
  rewrite length_firstn, length_map. unfold Firmware.fed.
  rewrite length_skipn. change (Z.to_nat 60) with 60%nat. lia.
Qed.

Ltac serial_simpl :=
  rewrite ?app_nil_r;
  repeat (rewrite ?consumed_app, ?sent_app, ?delays_app;
          cbn [Firmware.consumed Firmware.sent Firmware.delays]).

(** As long as the bytes keep coming, the loop acknowledges every refill
    with 60 and runs to its end without a wait. *)
Lemma stream_rounds (n : nat) :
  forall (i : Z) (buf : list Z) (h : Firmware.trace),
    0 <= i -> i + Z.of_nat n < 4294967296 ->
    (Firmware.consumed h + 60 * Firmware.refills n i <= length wire)%nat ->
    exists buf' t,
      for_range n i buf round h = (inl buf', t) /\
      Firmware.sent t = repeat 60 (Firmware.refills n i) /\
      Firmware.consumed t = (60 * Firmware.refills n i)%nat /\
      Firmware.delays t = [].
Proof.
  unfold for_range.
  induction n as [ | n IH]; intros i buf h Hi Hn Hw.
  - exists buf, []. repeat split.
  - cbn [for_step Firmware.refills] in *.
    assert (Hu : u32 (i + 1) = i + 1) by (apply Z.mod_small; lia).
    rewrite Hu. unfold Firmware.write_byte_stream_body at 1.
    destruct (i mod 60 =? 0) eqn:Hm; rewrite ?Hm in Hw.
    + destruct (readBytes_full h) as (bs & Eb & Lb); [lia | ].
      cbv beta delta [bind]. rewrite Eb. cbv zeta. rewrite Lb.
      change (u8 (Z.of_nat 60)) with 60.
      cbn [Firmware.Serial_write emit Z.ltb Z.compare Pos.compare
           Pos.compare_cont ret app].
      match goal with
      | |- context [Firmware.write_byte PORTD0 Firmware.acking i ?d ?h'] =>
          destruct (fw_write_byte_acking PORTD0 i d h') as (tw & Ew & Bw);
          rewrite Ew
      end.
      cbn [truthy Z.eqb negb ret app].
      destruct (bus_only_quiet_serial tw Bw) as (Sw & Cw & Dw).
      match goal with
      | |- context [for_step n (i + 1) 1 ?b round ?h'] =>
          destruct (IH (i + 1) b h') as (buf' & t & E & St & Ct & Dt);
            [lia | lia | | rewrite E]
      end.
      { serial_simpl. rewrite Cw, Lb. lia. }
      exists buf'. eexists. split; [reflexivity | ].
      serial_simpl. rewrite Sw, St, Cw, Ct, Dw, Dt, Lb.
      split; [reflexivity | ]. split; [lia | reflexivity].
    + cbv beta delta [bind]. cbn [ret app].
      match goal with
      | |- context [Firmware.write_byte PORTD0 Firmware.acking i ?d ?h'] =>
          destruct (fw_write_byte_acking PORTD0 i d h') as (tw & Ew & Bw);
          rewrite Ew
      end.
      cbn [truthy Z.eqb negb ret app].
      destruct (bus_only_quiet_serial tw Bw) as (Sw & Cw & Dw).
      match goal with
      | |- context [for_step n (i + 1) 1 ?b round ?h'] =>
          destruct (IH (i + 1) b h') as (buf' & t & E & St & Ct & Dt);
            [lia | lia | | rewrite E]
      end.
      { serial_simpl. rewrite Cw. lia. }
      exists buf'. eexists. split; [reflexivity | ].
      serial_simpl. rewrite Sw, St, Cw, Ct, Dw, Dt.
      split; [reflexivity | ]. split; [lia | reflexivity].
Qed.

End FirmwareStream.

(** What the firmware makes of a stream write of 61 bytes whose second
    chunk comes padded to 60 bytes: the command byte sends it to
    [write_byte_stream], which takes the 122 bytes that follow, answers 60
    twice and returns 0, so that no stall is inserted. *)
Lemma firmware_takes_61_bytes (PORTD0 : Z) (pin_sel : Firmware.trace -> bool)
    (garbage data : list Z) :
  length data = 61%nat ->
  let rest := [0; 61] ++ data ++ repeat 0 59 in
  exists t,
    Firmware.command PORTD0 Firmware.acking pin_sel (Firmware.fed rest)
      garbage 0xc0 [] = (tt, t) /\
    Firmware.sent t = [60; 60] /\
    Firmware.consumed t = 122%nat /\
    Firmware.delays t = [].
Proof.
  intros L rest.
  unfold Firmware.command. cbv zeta.
  change (Z.land 0xc0 0xC0 =? 0x00) with false.
  change (Z.land 0xc0 0xC0 =? 0x40) with false.
  change (Z.land 0xc0 0xC0 =? 0x80) with false.
  change (Z.land 0xc0 0xC0 =? 0xC0) with true. cbv iota.
  unfold Firmware.write_byte_stream.
  rewrite !run_bind.
  assert (Es : Firmware.read_size (Firmware.fed rest) 0xc0 []
               = (61, [Firmware.SerialRead [0; 61]])) by reflexivity.
  rewrite Es. cbn [fst snd app]. change (Z.to_nat 61) with 61%nat.
  rewrite ?run_bind.
  match goal with
  | |- context [for_range 61 0 garbage ?body ?h] =>
      destruct (stream_rounds PORTD0 rest 61 0 garbage h)
        as (buf' & t & E & S & C & D); [lia | reflexivity | | ]
  end.
  { subst rest. cbn [Firmware.consumed length].
    rewrite !length_app, L, repeat_length.
    change (Firmware.refills 61 0) with 2%nat. cbn [length]. lia. }
  rewrite E. cbn [fst snd ret app truthy Z.eqb negb].
  match goal with
  | |- context [Firmware.outp PORTD0 Firmware.acking ?d ?h] =>
      destruct (fw_outp_acking_bus PORTD0 d h) as (tr & Er & Br); rewrite Er
  end.
  destruct (bus_only_quiet_serial tr Br) as (Sr & Cr & Dr).
  cbn [fst snd]. eexists. split; [reflexivity | ].
  rewrite ?app_nil_r.
  repeat (rewrite ?consumed_app, ?sent_app, ?delays_app;
          cbn [Firmware.consumed Firmware.sent Firmware.delays length]).
  rewrite S, C, D, Sr, Cr, Dr. repeat split.
Qed.

(** What the host sends for 61 bytes when both chunks are acknowledged with
    60: the frame, the first 60 bytes, and after the first acknowledgment
    the last byte and 59 bytes of padding. *)
Lemma host_sends_61_bytes (data : list Z) :
  length data = 61%nat ->
  Host.serial_write_byte_stream (Host.ready [60; 60])
    (Host.arriving (Host.fed [60; 60])) Host.writable data 61 []
  = (0, [Host.Tx [0xc0; 0; 61];
         Host.Tx (firstn 60 data);
         Host.Select 5 1; Host.Rx [60]; Host.Printf (Host.MsgWritten 60 61);
         Host.Tx (skipn 60 data); Host.Tx (repeat 0 59);
         Host.Select 5 1; Host.Rx [60]; Host.Printf (Host.MsgWritten 61 61);
         Host.Printf Host.MsgNewline]).
Proof.
  intros L.
  do 61 (destruct data as [ | ? data]; [discriminate L | ]).
  destruct data; [ | discriminate L].
  vm_compute. reflexivity.
Qed.

(** With 1 as the second acknowledgment the host gives up. *)
Lemma host_rejects_ack_1 (data : list Z) :
  length data = 61%nat ->
  fst (Host.serial_write_byte_stream (Host.ready [60; 1])
         (Host.arriving (Host.fed [60; 1])) Host.writable data 61 []) = 1.
Proof.
  intros L.
  do 61 (destruct data as [ | ? data]; [discriminate L | ]).
  destruct data; [ | discriminate L].
  vm_compute. reflexivity.
Qed.

(** C2, as the code has it: a stream write of exactly 61 bytes takes
    exactly two chunk round trips, and both chunks are acknowledged with
    60.  The host sends the frame and a full chunk of 60 bytes, reads the
    acknowledgment 60, sends the last byte followed by 59 zero bytes of
    padding, reads a second acknowledgment 60 and returns 0; the firmware,
    given the first byte the host sent as its command, fed the rest and
    driving a chip that acknowledges every pentad, takes all of it, answers
    exactly twice, 60 to each of the two chunks (the padding counts), and
    never stalls. *)
Theorem stream_write_of_61_bytes :
  forall (data garbage : list Z) (PORTD0 : Z)
         (pin_sel : Firmware.trace -> bool),
    length data = 61%nat ->
    let host := Host.serial_write_byte_stream (Host.ready [60; 60])
                  (Host.arriving (Host.fed [60; 60])) Host.writable data 61
                  [] in
    let sent := Host.wire (snd host) in
    let firmware := Firmware.command PORTD0 Firmware.acking pin_sel
                      (Firmware.fed (tl sent)) garbage (hd 0 sent) [] in
    (fst host = 0 /\
     sent = [0xc0; 0; 61] ++ firstn 60 data ++ skipn 60 data ++ repeat 0 59 /\
     Host.received (snd host) = 2%nat) /\
    (Firmware.sent (snd firmware) = [60; 60] /\
     Firmware.consumed (snd firmware) = length (tl sent) /\
     Firmware.delays (snd firmware) = []).
Proof.
  intros data garbage PORTD0 pin_sel L host sent firmware.
  assert (Eh := host_sends_61_bytes data L). fold host in Eh.
  assert (Es : sent = [0xc0; 0; 61] ++ firstn 60 data ++ skipn 60 data
                      ++ repeat 0 59).
  { subst sent. rewrite Eh. cbn [snd Host.wire app]. rewrite app_nil_r.
    reflexivity. }
  split.
  - split; [rewrite Eh; reflexivity | ]. split; [exact Es | ].
    rewrite Eh. reflexivity.
  - subst firmware. rewrite Es. cbn [hd tl app].
    rewrite app_assoc, firstn_skipn.
    destruct (firmware_takes_61_bytes PORTD0 pin_sel garbage data L)
      as (t & E & S & C & D).
    cbv zeta in E. cbn [app] in E. rewrite E. cbn [fst snd].
    split; [exact S | ]. split; [ | exact D].
    rewrite C. cbn [length]. rewrite length_app, L, repeat_length. reflexivity.
Qed.

Lemma stream_write_of_61_bytes_witness :
  length (repeat 0x5a 61) = 61%nat /\
  let host := Host.serial_write_byte_stream (Host.ready [60; 60])
                (Host.arriving (Host.fed [60; 60])) Host.writable
                (repeat 0x5a 61) 61 [] in
  let sent := Host.wire (snd host) in
  let firmware := Firmware.command 0 Firmware.acking Firmware.absent
                    (Firmware.fed (tl sent)) [] (hd 0 sent) [] in
  (fst host = 0 /\
   sent = [0xc0; 0; 61] ++ firstn 60 (repeat 0x5a 61)
          ++ skipn 60 (repeat 0x5a 61) ++ repeat 0 59 /\
   Host.received (snd host) = 2%nat) /\
  (Firmware.sent (snd firmware) = [60; 60] /\
   Firmware.consumed (snd firmware) = length (tl sent) /\
   Firmware.delays (snd firmware) = []).
Proof.
  split; [reflexivity | ].
  apply (stream_write_of_61_bytes (repeat 0x5a 61) [] 0 Firmware.absent).
  reflexivity.
Defined.

(** C2 as stated fails: the second chunk is not acknowledged with 1.  The
    firmware answers 60 to the padded chunk, and a host that read 1 as the
    second acknowledgment would return 1. *)
Lemma second_chunk_is_not_acknowledged_with_1 :
  let host := Host.serial_write_byte_stream (Host.ready [60; 1])
                (Host.arriving (Host.fed [60; 1])) Host.writable
                (repeat 0x5a 61) 61 [] in
  let sent := Host.wire (snd host) in
  let firmware := Firmware.command 0 Firmware.acking Firmware.absent
                    (Firmware.fed (tl sent)) [] (hd 0 sent) [] in
  fst host = 1 /\
  Firmware.sent (snd firmware) = [60; 60] /\
  ~ (Firmware.sent (snd firmware) = [60; 1] /\ fst host = 0).
Proof.
  vm_compute. split; [reflexivity | ]. split; [reflexivity | ].
  intros [H _]. discriminate H.
Qed.

(** ** Erasing with safe mode off

    With safe mode off no emission can fail, every sample of the status
    register is a data sample, and the loop of [erase_chip] does what it is
    written for. *)

Lemma samples_app (a b : Host.trace) :
  Host.samples (a ++ b) = Host.samples a ++ Host.samples b.
Proof.
  induction a as [ | e a IH]; [reflexivity | ].
  destruct e; simpl; congruence.
Qed.

Lemma bytes_of_groups (groups : list (list Z)) :
  Forall (fun g => length g = 8%nat) groups ->
  forall n, (length groups <= n)%nat ->
  Host.bytes_of n (concat groups) = map Host.byte_of_samples groups.
Proof.
  induction 1 as [ | g groups Hg _ IH]; intros n Hn.
  - destruct n; reflexivity.
  - destruct n as [ | n]; [cbn in Hn; lia | ].
    cbn [concat map].
    destruct g as [ | v g]; [discriminate Hg | ].
    cbn [Host.bytes_of app].
    change (v :: g ++ concat groups) with ((v :: g) ++ concat groups).
    rewrite firstn_app, skipn_app, Hg, Nat.sub_diag.
    rewrite <- Hg at 1 2. rewrite firstn_all, skipn_all.
    cbn [firstn skipn app]. rewrite app_nil_r, IH by (cbn in Hn; lia).
    reflexivity.
Qed.

Lemma length_concat_groups (groups : list (list Z)) :
  Forall (fun g => length g = 8%nat) groups ->
  length (concat groups) = (8 * length groups)%nat.
Proof.
  induction 1 as [ | g groups Hg _ IH]; [reflexivity | ].
  cbn [concat length]. rewrite length_app, Hg, IH. lia.
Qed.

Section UnsafeErase.

Variable chip : Host.trace -> Z.

Lemma outp_unsafe (d : Z) (h : Host.trace) :
  exists t, Host.outp false chip d h = (0, t) /\ Host.samples t = [].
Proof.
  unfold Host.outp, Host.checked, Host._outb. cbv zeta.
  cbv beta iota delta [bind ret emit]. cbn [truthy Z.eqb negb app].
  eexists. split; reflexivity.
Qed.

Ltac unsafe_step t E :=
  cbv beta iota delta [bind orelse];
  match goal with
  | |- context [Host.outp false chip ?d ?h] =>
      let S := fresh "S" in
      destruct (outp_unsafe d h) as (t & E & S);
      rewrite E
  end.

Lemma init_read_mode_unsafe (h : Host.trace) :
  exists t, Host.init_read_mode false chip h = (0, t) /\ Host.samples t = [].
Proof.
  unfold Host.init_read_mode.
  unsafe_step t0 E0. cbn [truthy Z.eqb negb].
  unsafe_step t1 E1. cbn [truthy Z.eqb negb ret app].
  unsafe_step t2 E2. cbn [truthy Z.eqb negb ret app].
  unsafe_step t3 E3. cbn [truthy Z.eqb negb ret app].
  unsafe_step t4 E4. cbn [truthy Z.eqb negb ret app].
  eexists. split; [reflexivity | ].
  rewrite ?app_nil_r, !samples_app, S, S0, S1, S2, S3. reflexivity.
Qed.

Ltac sample_step v t E :=
  cbv beta iota zeta delta [bind Host._inb];
  match goal with
  | |- context [u8 (chip ?h)] => set (v := u8 (chip h)) in *
  end;
  unsafe_step t E; cbn [truthy Z.eqb negb ret app].

(** A byte read: eight samples, and the byte they make. *)
Lemma read_byte_unsafe (out : Z) (h : Host.trace) :
  exists vals t,
    length vals = 8%nat /\
    Host.read_byte false chip out h = ((0, Host.byte_of_samples vals), t) /\
    Host.samples t = vals.
Proof.
  unfold Host.read_byte.
  unsafe_step t E. cbn [truthy Z.eqb negb].
  unfold for_range. cbn [for_step].
  sample_step v0 t0 E0. sample_step v1 t1 E1.
  sample_step v2 t2 E2. sample_step v3 t3 E3.
  sample_step v4 t4 E4. sample_step v5 t5 E5.
  sample_step v6 t6 E6. sample_step v7 t7 E7.
  exists [v0; v1; v2; v3; v4; v5; v6; v7]. eexists.
  split; [reflexivity | ]. split; [reflexivity | ].
  rewrite ?app_nil_r.
  repeat (rewrite ?samples_app; cbn [Host.samples]).
  rewrite S, S0, S1, S2, S3, S4, S5, S6, S7. reflexivity.
Qed.

Lemma burst_unsafe (n : nat) (data : Z) :
  forall (i : Z) (h : Host.trace),
  exists t : Host.trace,
    for_range n i tt
      (fun _ _ => bind (Host.outp false chip data) (fun _ => ret (inl tt))
                  : Run Host.event (unit + Z)) h = (inl tt, t) /\
    Host.samples t = [].
Proof.
  unfold for_range.
  set (body := fun (_ : Z) (_ : unit) => _).
  induction n as [ | n IH]; intros i h.
  - exists []. split; reflexivity.
  - cbn [for_step]. unfold body at 1. unsafe_step t E. cbn [ret app].
    destruct (IH (u32 (i + 1)) (h ++ t ++ [])) as (t' & E' & S').
    rewrite E'. eexists. split; [reflexivity | ].
    rewrite app_nil_r, samples_app, S, S'. reflexivity.
Qed.

(** The loop ends at the first byte that equals the one read before it. *)
Lemma erase_poll_unsafe (fuel : nat) :
  forall (c : Z) (h tr : Host.trace),
    Host.erase_poll false chip fuel c h = (Some tt, tr) ->
    exists groups,
      Forall (fun g => length g = 8%nat) groups /\
      Host.samples tr = concat groups /\
      Host.stops_at_first_repeat c (map Host.byte_of_samples groups) = true.
Proof.
  induction fuel as [ | fuel IH]; intros c h tr H; [discriminate H | ].
  cbn [Host.erase_poll] in H. cbv beta iota zeta delta [bind] in H.
  destruct (init_read_mode_unsafe h) as (ti & Ei & Si). rewrite Ei in H.
  destruct (read_byte_unsafe c (h ++ ti)) as (vals & t & L & Er & Sr).
  rewrite Er in H. cbn [snd] in H.
  destruct (c =? Host.byte_of_samples vals) eqn:Q; cbn [negb] in H.
  - cbn [ret] in H. injection H as <-.
    exists [vals]. split; [repeat constructor; exact L | ].
    split.
    + rewrite !samples_app, Si, Sr. cbn. rewrite app_nil_r. reflexivity.
    + cbn. rewrite Q. reflexivity.
  - match type of H with
    | context [Host.erase_poll false chip fuel ?c' ?h'] =>
        destruct (Host.erase_poll false chip fuel c' h') as [d tp] eqn:Ep
    end.
    injection H as -> <-.
    destruct (IH _ _ _ Ep) as (groups & F & Sg & St).
    exists (vals :: groups). split; [constructor; assumption | ].
    split.
    + rewrite !samples_app, Si, Sr, Sg. reflexivity.
    + cbn [map Host.stops_at_first_repeat]. rewrite Q. exact St.
Qed.

(** With safe mode off, [erase_chip] reports the erase done only when the
    last two bytes it read, each after the read-initialization sequence,
    are equal, and at the first such pair. *)
Lemma erase_chip_unsafe (fuel : nat) (garbage : Z) (h : Host.trace) :
  fst (Host.erase_chip false chip fuel garbage h) = Some tt ->
  exists c l,
    Host.bytes_read (snd (Host.erase_chip false chip fuel garbage h)) = c :: l /\
    Host.stops_at_first_repeat c l = true.
Proof.
  unfold Host.erase_chip.
  set (erase := for_range 13 0 tt _).
  cbv beta iota delta [bind Host.printf emit].
  match goal with
  | |- context [erase ?h'] =>
      destruct (burst_unsafe 13 Host.CMD_ERASE 0 h') as (t13 & E13 & S13)
  end.
  unfold erase. rewrite E13.
  match goal with
  | |- context [Host.init_read_mode false chip ?h'] =>
      destruct (init_read_mode_unsafe h') as (ti & Ei & Si); rewrite Ei
  end.
  match goal with
  | |- context [Host.read_byte false chip garbage ?h'] =>
      destruct (read_byte_unsafe garbage h') as (vals & t & L & Er & Sr);
      rewrite Er
  end.
  cbn [snd].
  match goal with
  | |- context [Host.erase_poll false chip fuel ?c' ?h'] =>
      destruct (Host.erase_poll false chip fuel c' h') as [d tp] eqn:Ep
  end.
  destruct d as [ [] | ]; cbn [fst snd ret]; [ | discriminate].
  intros _.
  destruct (erase_poll_unsafe _ _ _ _ Ep) as (groups & F & Sg & St).
  exists (Host.byte_of_samples vals), (map Host.byte_of_samples groups).
  split; [ | exact St].
  unfold Host.bytes_read.
  assert (Es : Host.samples
                 ([Host.Printf Host.MsgErasing] ++
                  t13 ++ ti ++ t ++ tp ++ [Host.Printf Host.MsgDone] ++ [])
               = concat (vals :: groups)).
  { cbn [app Host.samples]. rewrite !samples_app, S13, Si, Sr, Sg.
    cbn. rewrite app_nil_r. reflexivity. }
  rewrite Es.
  rewrite bytes_of_groups; [reflexivity | constructor; assumption | ].
  rewrite length_concat_groups by (constructor; assumption). lia.
Qed.

End UnsafeErase.

(** ** The same pentads from the host and from the firmware *)

Lemma last_outb_last (d v : Z) (h : Host.trace) :
  Host.last_outb d (h ++ [Host.Outb v]) = v.
Proof.
  revert d. induction h as [ | e h IH]; intros d; [reflexivity | ].
  destruct e; cbn [app Host.last_outb]; apply IH.
Qed.

Lemma strobe_of_outp (x : Z) :
  0 <= x < 256 ->
  Host.strobe (u8 (Host.format x)) = false /\
  Host.strobe (u8 (Z.lor (Host.format x) 0x10)) = true.
Proof.
  intros Hx.
  pose proof (byte_forall
    (fun x => negb (Host.strobe (u8 (Host.format x)))
              && Host.strobe (u8 (Z.lor (Host.format x) 0x10)))
    eq_refl x Hx) as B.
  cbv beta in B. apply andb_true_iff in B. destruct B as [B1 B2].
  apply negb_true_iff in B1. split; assumption.
Qed.

Section HostAcking.

Variable level : Host.trace -> bool.

(** A chip that acknowledges answers each phase of the handshake at its
    first sample. *)
Lemma safe_mode_check_acking (high : bool) (v : Z) (h : Host.trace) :
  Host.strobe v = negb high ->
  fst (Host.safe_mode_check (Host.acking level) high (h ++ [Host.Outb v])) = 0.
Proof.
  intros S.
  cbv [Host.safe_mode_check for_range for_step Host.MAX_TRIES bind ret
       Host._inb Host.usleep emit].
  assert (T : (Z.land (u8 (Host.acking level (h ++ [Host.Outb v])))
                       Host.MASK_CHIP_ERR =? 0) = negb high).
  { unfold Host.acking. rewrite last_outb_last, S.
    destruct high, (level _); reflexivity. }
  rewrite T. destruct high; reflexivity.
Qed.

Lemma outp_acking (x : Z) (h : Host.trace) :
  fst (Host.outp true (Host.acking level) x h) = 0.
Proof.
  destruct (strobe_of_outp (u8 x) (u8_range x)) as [S1 S2].
  unfold Host.outp, Host.checked, Host._outb.
  fold (Host.format (u8 x)). cbv zeta.
  rewrite run_bind. cbn [emit fst snd].
  rewrite run_bind, safe_mode_check_acking by exact S1.
  cbn [truthy Z.eqb negb fst snd].
  rewrite run_bind. cbn [emit fst snd].
  rewrite run_bind, safe_mode_check_acking by exact S2.
  reflexivity.
Qed.

End HostAcking.

(** [write_byte] returns 0 when each of its pentads is acknowledged. *)
Lemma write_byte_acknowledged (safe_mode : bool) (chip : Host.trace -> Z) :
  (forall x h, fst (Host.outp safe_mode chip x h) = 0) ->
  forall data address h,
    fst (Host.write_byte safe_mode chip data address h) = 0.
Proof.
  intros A data address h. unfold Host.write_byte.
  destruct (data =? 0xff); [reflexivity | ]. cbv zeta.
  do 5 (rewrite run_bind, A; cbn [truthy Z.eqb negb fst snd]).
  rewrite run_bind. reflexivity.
Qed.

(** C10: on addresses of at most 17 bits the two implementations of
    [write_byte] present the same pentads, although only the host masks
    the address.  For every address in [0, 0x1FFFF] and every data byte,
    let [nine] be no pentad at all for the byte 0xFF and otherwise the
    command pentad, the four pentads packing address and data and the four
    trailing data pentads.  With a chip that acknowledges every pentad the
    host and the firmware both return 0 after they presented exactly
    [nine], and so does the host with safe mode off, whatever the chip
    answers.  Whatever the two chips answer, each side returns 0 after
    [nine], or 1 after the first one to five of them, when it stopped at a
    fault; so the two sequences are equal when both calls return 0, and in
    every case one is a prefix of the other. *)
Theorem write_byte_same_pentads :
  forall (safe_mode : bool) (chip : Host.trace -> Z)
         (level : Host.trace -> bool) (PORTD0 : Z)
         (pin_err : Firmware.trace -> bool) (data address : Z)
         (h : Host.trace) (fh : Firmware.trace),
    0 <= address <= 0x1ffff ->
    0 <= data < 256 ->
    let nine := if data =? 0xff then []
                else Host.write_pentads data address
                     ++ repeat (Host.pentad_of data) 4 in
    let host := Host.write_byte safe_mode chip data address h in
    let firmware := Firmware.write_byte PORTD0 pin_err address data fh in
    let host_acked := Host.write_byte true (Host.acking level) data address h in
    let host_unsafe := Host.write_byte false chip data address h in
    let firmware_acked :=
      Firmware.write_byte PORTD0 Firmware.acking address data fh in
    (data <> 0xff -> length nine = 9%nat) /\
    (fst host_acked = 0 /\ Host.pentads (snd host_acked) = nine) /\
    (fst host_unsafe = 0 /\ Host.pentads (snd host_unsafe) = nine) /\
    (fst firmware_acked = 0 /\
     Firmware.pentads (snd firmware_acked) = nine) /\
    (fst host = 0 /\ Host.pentads (snd host) = nine \/
     fst host = 1 /\
     exists k, (1 <= k <= 5)%nat /\ Host.pentads (snd host) = firstn k nine) /\
    (fst firmware = 0 /\ Firmware.pentads (snd firmware) = nine \/
     fst firmware = 1 /\
     exists k, (1 <= k <= 5)%nat /\
               Firmware.pentads (snd firmware) = firstn k nine) /\
    (fst host = 0 -> fst firmware = 0 ->
     Host.pentads (snd host) = Firmware.pentads (snd firmware)) /\
    (exists k,
       Host.pentads (snd host) = firstn k (Firmware.pentads (snd firmware)) \/
       Firmware.pentads (snd firmware) = firstn k (Host.pentads (snd host))).
Proof.
  intros safe_mode chip level PORTD0 pin_err data address h fh Ha Hd
    nine host firmware host_acked host_unsafe firmware_acked.
  destruct (Z.eqb_spec data 0xff) as [-> | Hff].
  { subst nine host firmware host_acked host_unsafe firmware_acked. cbn.
    split; [intros C; contradiction | ].
    repeat (split; [split; reflexivity | ]).
    split; [left; split; reflexivity | ].
    split; [left; split; reflexivity | ].
    split; [reflexivity | exists 0%nat; left; reflexivity]. }
  assert (Hmask : Z.land address 0x1ffff = address).
  { change 0x1ffff with (Z.ones 17). rewrite Z.land_ones by lia.
    apply Z.mod_small. change (2 ^ 17) with 131072. lia. }
  assert (HL : Firmware.write_pentads data address
               = Host.write_pentads data address).
  { unfold Host.write_pentads, Firmware.write_pentads. cbv zeta.
    rewrite Hmask. reflexivity. }
  assert (L9 : length nine = 9%nat) by reflexivity.
  assert (Hhost : forall sm c,
            let r := Host.write_byte sm c data address h in
            fst r = 0 /\ Host.pentads (snd r) = nine \/
            fst r = 1 /\
            exists k, (1 <= k <= 5)%nat /\ Host.pentads (snd r) = firstn k nine).
  { intros sm c r. subst r.
    destruct (write_byte_pentads sm c data address h Hff)
      as (k & E & [[R ->] | [R K]]).
    - left. split; [exact R | ]. rewrite E. apply firstn_all2.
      fold nine. rewrite L9. apply Nat.le_refl.
    - right. split; [exact R | ]. exists k. split; [exact K | exact E]. }
  assert (Hfw : forall pe,
            let r := Firmware.write_byte PORTD0 pe address data fh in
            fst r = 0 /\ Firmware.pentads (snd r) = nine \/
            fst r = 1 /\
            exists k, (1 <= k <= 5)%nat /\
                      Firmware.pentads (snd r) = firstn k nine).
  { intros pe r. subst r.
    destruct (fw_write_byte_pentads PORTD0 pe address data fh Hff)
      as (k & E & [[R ->] | [R K]]); rewrite HL in E.
    - left. split; [exact R | ]. rewrite E. apply firstn_all2.
      fold nine. rewrite L9. apply Nat.le_refl.
    - right. split; [exact R | ]. exists k. split; [exact K | exact E]. }
  assert (A1 : fst host_acked = 0)
    by (apply write_byte_acknowledged; intros; apply outp_acking).
  assert (A2 : fst host_unsafe = 0).
  { apply write_byte_acknowledged. intros x hh.
    destruct (outp_unsafe chip x hh) as (t & E & _). rewrite E. reflexivity. }
  assert (A3 : fst firmware_acked = 0).
  { subst firmware_acked.
    destruct (fw_write_byte_acking PORTD0 address data fh) as (t & E & _).
    rewrite E. reflexivity. }
  split; [intros _; exact L9 | ].
  split.
  { split; [exact A1 | ].
    destruct (Hhost true (Host.acking level)) as [[_ P] | [C _]];
      [exact P | ].
    fold host_acked in C. rewrite A1 in C. discriminate C. }
  split.
  { split; [exact A2 | ].
    destruct (Hhost false chip) as [[_ P] | [C _]]; [exact P | ].
    fold host_unsafe in C. rewrite A2 in C. discriminate C. }
  split.
  { split; [exact A3 | ].
    destruct (Hfw Firmware.acking) as [[_ P] | [C _]]; [exact P | ].
    fold firmware_acked in C. rewrite A3 in C. discriminate C. }
  pose proof (Hhost safe_mode chip) as Kh. cbv zeta in Kh. fold host in Kh.
  pose proof (Hfw pin_err) as Kf. cbv zeta in Kf. fold firmware in Kf.
  split; [exact Kh | ]. split; [exact Kf | ].
  split.
  - intros R R'.
    destruct Kh as [[_ ->] | [X _]]; [ | rewrite R in X; discriminate X].
    destruct Kf as [[_ ->] | [X _]]; [reflexivity | ].
    rewrite R' in X. discriminate X.
  - destruct Kh as [[_ Ph] | [_ (k & Kk & Ph)]];
      destruct Kf as [[_ Pf] | [_ (k' & Kk' & Pf)]]; rewrite Ph, Pf.
    + exists 9%nat. left. symmetry. apply firstn_all2. rewrite L9.
      apply Nat.le_refl.
    + exists k'. right. reflexivity.
    + exists k. left. reflexivity.
    + destruct (Nat.le_gt_cases k k') as [C | C].
      * exists k. left. apply firstn_firstn_prefix. exact C.
      * exists k'. right. apply firstn_firstn_prefix. lia.
Qed.

Lemma write_byte_same_pentads_witness :
  let data := 0xa5 in
  let address := 0x12345 in
  let nine := if data =? 0xff then []
              else Host.write_pentads data address
                   ++ repeat (Host.pentad_of data) 4 in
  let host := Host.write_byte true Host.absent data address [] in
  let firmware := Firmware.write_byte 0x3 Firmware.absent address data [] in
  let host_acked :=
    Host.write_byte true (Host.acking (fun _ => false)) data address [] in
  let host_unsafe := Host.write_byte false Host.absent data address [] in
  let firmware_acked :=
    Firmware.write_byte 0x3 Firmware.acking address data [] in
  (data <> 0xff -> length nine = 9%nat) /\
  (fst host_acked = 0 /\ Host.pentads (snd host_acked) = nine) /\
  (fst host_unsafe = 0 /\ Host.pentads (snd host_unsafe) = nine) /\
  (fst firmware_acked = 0 /\
   Firmware.pentads (snd firmware_acked) = nine) /\
  (fst host = 0 /\ Host.pentads (snd host) = nine \/
   fst host = 1 /\
   exists k, (1 <= k <= 5)%nat /\ Host.pentads (snd host) = firstn k nine) /\
  (fst firmware = 0 /\ Firmware.pentads (snd firmware) = nine \/
   fst firmware = 1 /\
   exists k, (1 <= k <= 5)%nat /\
             Firmware.pentads (snd firmware) = firstn k nine) /\
  (fst host = 0 -> fst firmware = 0 ->
   Host.pentads (snd host) = Firmware.pentads (snd firmware)) /\
  (exists k,
     Host.pentads (snd host) = firstn k (Firmware.pentads (snd firmware)) \/
     Firmware.pentads (snd firmware) = firstn k (Host.pentads (snd host))).
Proof.
  apply (write_byte_same_pentads true Host.absent (fun _ => false) 0x3
           Firmware.absent 0xa5 0x12345 [] []); lia.
Defined.

(** * More of the program: the transport, the files, the command line *)
(** ** Loops and invariants of a trace *)

Lemma preserves_ret {E A : Type} (P : list E -> Prop) (a : A) :
  preserves P (ret a).
Proof. intros h H. cbn. rewrite app_nil_r. exact H. Qed.

Lemma preserves_bind {E A B : Type} (P : list E -> Prop)
    (m : Run E A) (k : A -> Run E B) :
  preserves P m -> (forall a, preserves P (k a)) -> preserves P (bind m k).
Proof.
  intros Hm Hk h H. rewrite run_bind. cbn [snd]. rewrite app_assoc.
  apply Hk, Hm, H.
Qed.

Lemma preserves_for_step {E St R : Type} (P : list E -> Prop)
    (body : Z -> St -> Run E (St + R)) (step : Z) :
  (forall i s, preserves P (body i s)) ->
  forall n i s, preserves P (for_step n i step s body).
Proof.
  intros Hb. induction n as [ | n IH]; intros i s; cbn [for_step].
  - apply preserves_ret.
  - apply preserves_bind; [apply Hb | ].
    intros [s' | r]; [apply IH | apply preserves_ret].
Qed.

Lemma for_step_S {E St R : Type} (n : nat) (i step : Z) (s : St)
    (body : Z -> St -> Run E (St + R)) (h : list E) :
  for_step (S n) i step s body h =
  match fst (body i s h) with
  | inl s' =>
      (fst (for_step n (u32 (i + step)) step s' body (h ++ snd (body i s h))),
       snd (body i s h)
         ++ snd (for_step n (u32 (i + step)) step s' body
                   (h ++ snd (body i s h))))
  | inr r => (inr r, snd (body i s h))
  end.
Proof.
  cbn [for_step]. rewrite run_bind.
  destruct (fst (body i s h)); [reflexivity | ].
  cbn [ret fst snd]. rewrite app_nil_r. reflexivity.
Qed.

Lemma for_range_split {E St R : Type} (a b : nat)
    (body : Z -> St -> Run E (St + R)) :
  forall (i : Z) (s : St) (h : list E),
    0 <= i -> i + Z.of_nat a < 4294967296 ->
    for_range (a + b) i s body h =
    match fst (for_range a i s body h) with
    | inl s' =>
        (fst (for_range b (i + Z.of_nat a) s' body
                (h ++ snd (for_range a i s body h))),
         snd (for_range a i s body h)
           ++ snd (for_range b (i + Z.of_nat a) s' body
                     (h ++ snd (for_range a i s body h))))
    | inr r => (inr r, snd (for_range a i s body h))
    end.
Proof.
  unfold for_range.
  induction a as [ | a IH]; intros i s h Hi Ha.
  - cbn [for_step Nat.add ret fst snd]. rewrite Z.add_0_r, app_nil_r.
    destruct (for_step b i 1 s body h). reflexivity.
  - cbn [Nat.add]. rewrite !for_step_S.
    destruct (fst (body i s h)) as [s' | r]; [ | reflexivity].
    cbn [fst snd].
    assert (U : u32 (i + 1) = i + 1) by (apply Z.mod_small; lia).
    rewrite U, IH by lia.
    replace (i + 1 + Z.of_nat a) with (i + Z.of_nat (S a)) by lia.
    destruct (fst (for_step a (i + 1) 1 s' body (h ++ snd (body i s h)))).
    + cbn [fst snd]. rewrite <- !app_assoc. reflexivity.
    + reflexivity.
Qed.

(** ** The pins of the serial port

    Bits 0 and 1 of [PORTD] are the receive and transmit pins of the
    serial port of the board; [outb] is the only assignment to [PORTD]. *)

Lemma last_port_low (low : Z) (h : Firmware.trace) :
  forall r, Z.land r 0x3 = Z.land low 0x3 ->
  Firmware.keeps_low_bits low h ->
  Z.land (Firmware.last_port r h) 0x3 = Z.land low 0x3.
Proof.
  unfold Firmware.keeps_low_bits.
  induction h as [ | e h IH]; intros r Hr H; [exact Hr | ].
  inversion H as [ | ? ? He Hh]; subst.
  destruct e; cbn [Firmware.last_port]; apply IH; assumption.
Qed.

Lemma outb_low_bits (d p : Z) :
  Z.land (u8 (Z.lor (Z.shiftl (u8 d) 2) (Z.land p 0x3))) 0x3 = Z.land p 0x3.
Proof.
  rewrite u8_land. apply Z.bits_inj'. intros n Hn.
  rewrite !Z.land_spec, Z.lor_spec, Z.land_spec.
  destruct (Z.ltb_spec n 2) as [L | L].
  - rewrite Z.shiftl_spec_low by lia.
    assert (T : Z.testbit 255 n = true).
    { change 255 with (Z.ones 8). apply Z.ones_spec_low. lia. }
    rewrite T. destruct (Z.testbit p n), (Z.testbit 3 n); reflexivity.
  - assert (T : Z.testbit 3 n = false).
    { change 3 with (Z.ones 2). apply Z.ones_spec_high. lia. }
    rewrite T, !andb_false_r. reflexivity.
Qed.

Section FirmwarePort.

Variable PORTD0 : Z.
Variable pin_err pin_sel : Firmware.trace -> bool.
Variable serial_in : Firmware.trace -> list Z.

#[local] Abbreviation inv := (Firmware.keeps_low_bits PORTD0).

Lemma inv_app (a b : Firmware.trace) : inv a -> inv b -> inv (a ++ b).
Proof. intros Ha Hb. apply Forall_app. split; assumption. Qed.

Lemma preserves_outb (d : Z) : preserves inv (Firmware.outb PORTD0 d).
Proof.
  intros h H. apply inv_app; [exact H | ].
  constructor; [ | constructor]. rewrite outb_low_bits.
  apply last_port_low; [reflexivity | exact H].
Qed.

Lemma preserves_quiet {A : Type} (m : Run Firmware.event A) :
  (forall h, Forall (fun e => match e with Firmware.Port _ => False | _ => True end)
               (snd (m h))) ->
  preserves inv m.
Proof.
  intros Hm h H. apply inv_app; [exact H | ].
  specialize (Hm h). induction Hm as [ | e t He _ IH]; constructor; [ | exact IH].
  destruct e; tauto.
Qed.

Lemma preserves_delay (ms : Z) : preserves inv (Firmware.delay ms).
Proof. apply preserves_quiet. intros h. repeat constructor. Qed.

Lemma preserves_digitalRead_ERR : preserves inv (Firmware.digitalRead_ERR pin_err).
Proof. apply preserves_quiet. intros h. repeat constructor. Qed.

Lemma preserves_digitalRead_SEL : preserves inv (Firmware.digitalRead_SEL pin_sel).
Proof. apply preserves_quiet. intros h. repeat constructor. Qed.

Lemma preserves_Serial_write (b : Z) : preserves inv (Firmware.Serial_write b).
Proof. apply preserves_quiet. intros h. repeat constructor. Qed.

Lemma preserves_Serial_readBytes (n : Z) :
  preserves inv (Firmware.Serial_readBytes serial_in n).
Proof. apply preserves_quiet. intros h. repeat constructor. Qed.

Ltac keeps_step :=
  lazymatch goal with
  | |- preserves _ (ret _) => apply preserves_ret
  | |- preserves _ (bind _ _) => apply preserves_bind; [ | intros ? ]
  | |- preserves _ (for_range _ _ _ _) => unfold for_range
  | |- preserves _ (for_step _ _ _ _ _) => apply preserves_for_step; intros ? ?
  | |- preserves _ (if ?c then _ else _) => destruct c
  | |- preserves _ (match ?x with inl _ => _ | inr _ => _ end) => destruct x
  | |- preserves _ (Firmware.outb _ _) => apply preserves_outb
  | |- preserves _ (Firmware.delay _) => apply preserves_delay
  | |- preserves _ (Firmware.digitalRead_ERR _) => apply preserves_digitalRead_ERR
  | |- preserves _ (Firmware.digitalRead_SEL _) => apply preserves_digitalRead_SEL
  | |- preserves _ (Firmware.Serial_write _) => apply preserves_Serial_write
  | |- preserves _ (Firmware.Serial_readBytes _ _) => apply preserves_Serial_readBytes
  end.

Ltac keeps := cbv zeta; repeat (keeps_step; cbv zeta).

Lemma preserves_safe_mode_check (b : bool) :
  preserves inv (Firmware.safe_mode_check pin_err b).
Proof. unfold Firmware.safe_mode_check. keeps. Qed.

Lemma preserves_outp (d : Z) : preserves inv (Firmware.outp PORTD0 pin_err d).
Proof.
  unfold Firmware.outp. keeps; apply preserves_safe_mode_check.
Qed.

Lemma preserves_read_size (first : Z) :
  preserves inv (Firmware.read_size serial_in first).
Proof. unfold Firmware.read_size. keeps. Qed.

Lemma preserves_read_byte_stream (first : Z) :
  preserves inv (Firmware.read_byte_stream PORTD0 pin_err pin_sel serial_in first).
Proof.
  unfold Firmware.read_byte_stream.
  keeps; first [apply preserves_read_size | apply preserves_outp].
Qed.

Lemma preserves_write_byte (address data : Z) :
  preserves inv (Firmware.write_byte PORTD0 pin_err address data).
Proof. unfold Firmware.write_byte. keeps; apply preserves_outp. Qed.

Lemma preserves_write_byte_stream (garbage : list Z) (first : Z) :
  preserves inv (Firmware.write_byte_stream PORTD0 pin_err serial_in garbage first).
Proof.
  unfold Firmware.write_byte_stream. keeps; [apply preserves_read_size | ].
  unfold Firmware.write_byte_stream_body. keeps. apply preserves_write_byte.
Qed.

Lemma preserves_inb : preserves inv (Firmware.inb pin_err pin_sel).
Proof. unfold Firmware.inb. keeps. Qed.

Lemma preserves_command (garbage : list Z) (d : Z) :
  preserves inv (Firmware.command PORTD0 pin_err pin_sel serial_in garbage d).
Proof.
  unfold Firmware.command. keeps;
    first [ apply preserves_inb | apply preserves_read_byte_stream
          | apply preserves_write_byte_stream | apply preserves_outp ].
Qed.

End FirmwarePort.

(** X1: whatever command byte [loop()] receives, and whatever the chip and
    the serial line do, every assignment to [PORTD] made while the command
    is served leaves bits 0 and 1, the pins of the serial port, as
    they were. *)
Theorem loop_keeps_serial_pins :
  forall (PORTD0 : Z) (pin_err pin_sel : Firmware.trace -> bool)
         (serial_in : Firmware.trace -> list Z) (garbage : list Z) (d : Z)
         (h : Firmware.trace),
    Firmware.keeps_low_bits PORTD0 h ->
    Firmware.keeps_low_bits PORTD0
      (h ++ snd (Firmware.command PORTD0 pin_err pin_sel serial_in garbage d h)).
Proof.
  intros PORTD0 pin_err pin_sel serial_in garbage d h H.
  exact (preserves_command PORTD0 pin_err pin_sel serial_in garbage d h H).
Qed.

Lemma loop_keeps_serial_pins_witness :
  Firmware.keeps_low_bits 0x1
    ([] ++ snd (Firmware.command 0x1 Firmware.acking Firmware.acking
                  (Firmware.fed [0x00; 0x01; 0x12]) [] 0xc0 [])).
Proof.
  apply loop_keeps_serial_pins. constructor.
Defined.

(** ** Reading a stream, on the firmware *)

Lemma sel_levels_app (a b : Firmware.trace) :
  Firmware.sel_levels (a ++ b) = Firmware.sel_levels a ++ Firmware.sel_levels b.
Proof.
  induction a as [ | e a IH]; [reflexivity | ].
  destruct e; simpl; congruence.
Qed.

Lemma shift_in_byte (l : bool) (data : Z) :
  0 <= data < 256 -> 0 <= Firmware.shift_in l data < 256.
Proof.
  intros H.
  pose proof (byte_forall
    (fun d => (0 <=? Firmware.shift_in l d) && (Firmware.shift_in l d <? 256))) as B.
  assert (G : (0 <=? Firmware.shift_in l data) && (Firmware.shift_in l data <? 256) = true).
  { apply B; [destruct l; vm_compute; reflexivity | exact H]. }
  apply andb_true_iff in G. destruct G as [G1 G2]. lia.
Qed.

Lemma shift_in_eight (l0 l1 l2 l3 l4 l5 l6 l7 : bool) (data : Z) :
  0 <= data < 256 ->
  Firmware.shift_in l7 (Firmware.shift_in l6 (Firmware.shift_in l5 (Firmware.shift_in l4
    (Firmware.shift_in l3 (Firmware.shift_in l2 (Firmware.shift_in l1 (Firmware.shift_in l0 data)))))))
  = Firmware.byte_of_levels [l0; l1; l2; l3; l4; l5; l6; l7].
Proof.
  intros H.
  pose proof (byte_forall
    (fun d => Firmware.shift_in l7 (Firmware.shift_in l6 (Firmware.shift_in l5 (Firmware.shift_in l4
                (Firmware.shift_in l3 (Firmware.shift_in l2 (Firmware.shift_in l1 (Firmware.shift_in l0 d)))))))
              =? Firmware.byte_of_levels [l0; l1; l2; l3; l4; l5; l6; l7])) as B.
  apply Z.eqb_eq. apply B; [ | exact H].
  destruct l0, l1, l2, l3, l4, l5, l6, l7; vm_compute; reflexivity.
Qed.

Section FirmwareRead.

Variable PORTD0 : Z.
Variable pin_sel : Firmware.trace -> bool.

Ltac acking_step t E :=
  cbv beta delta [bind];
  match goal with
  | |- context [Firmware.outp PORTD0 Firmware.acking ?d ?h] =>
      let lo := fresh "lo" in
      let hi := fresh "hi" in
      destruct (fw_outp_acking PORTD0 d h) as (lo & hi & E);
      rewrite E
  end.

Ltac level_step l t E :=
  cbv beta iota zeta delta [bind Firmware.digitalRead_SEL];
  match goal with
  | |- context [pin_sel ?h] => set (l := pin_sel h) in *
  end;
  acking_step t E; cbn [truthy Z.eqb negb ret app].

Lemma fw_read_bits (data : Z) (h : Firmware.trace) :
  0 <= data < 256 ->
  exists ls t,
    length ls = 8%nat /\
    for_range 8 0 data
      (fun i data =>
         let data := Z.shiftr data 1 in
         l <- Firmware.digitalRead_SEL pin_sel ;;
         let data := if l then Z.lor data 0x80 else data in
         r <- Firmware.outp PORTD0 Firmware.acking i ;;
         if truthy r then ret (inr 1) else ret (inl data)) h
    = (inl (Firmware.byte_of_levels ls), t) /\
    Firmware.sel_levels t = ls /\
    Firmware.sent t = [] /\ Firmware.delays t = [].
Proof.
  intros H. unfold for_range. cbn [for_step].
  level_step l0 t0 E0. level_step l1 t1 E1.
  level_step l2 t2 E2. level_step l3 t3 E3.
  level_step l4 t4 E4. level_step l5 t5 E5.
  level_step l6 t6 E6. level_step l7 t7 E7.
  exists [l0; l1; l2; l3; l4; l5; l6; l7]. eexists.
  split; [reflexivity | ]. split; [ | ].
  - f_equal. f_equal.
    rewrite <- (shift_in_eight l0 l1 l2 l3 l4 l5 l6 l7 data H).
    unfold Firmware.shift_in.
    destruct l0, l1, l2, l3, l4, l5, l6, l7; reflexivity.
  - repeat split.
Qed.

Lemma byte_of_levels_range (ls : list bool) :
  0 <= Firmware.byte_of_levels ls < 2 ^ Z.of_nat (length ls).
Proof.
  induction ls as [ | l ls IH]; [cbn; lia | ].
  cbn [Firmware.byte_of_levels length]. rewrite Nat2Z.inj_succ, Z.pow_succ_r by lia.
  destruct l; lia.
Qed.

Lemma fw_read_rounds (n : nat) :
  forall (b data : Z) (h : Firmware.trace),
    0 <= data < 256 ->
    exists groups data' t,
      for_range n b data
        (fun b data =>
           r <- Firmware.outp PORTD0 Firmware.acking Firmware.CMD_READ ;;
           if truthy r then ret (inr 1)
           else
             y <- for_range 8 0 data (fun i data =>
                    let data := Z.shiftr data 1 in
                    l <- Firmware.digitalRead_SEL pin_sel ;;
                    let data := if l then Z.lor data 0x80 else data in
                    r <- Firmware.outp PORTD0 Firmware.acking i ;;
                    if truthy r then ret (inr 1) else ret (inl data)) ;;
             match y with
             | inr r => ret (inr r)
             | inl data => Firmware.Serial_write data ;; ret (inl data)
             end) h
      = (inl data', t) /\
      Forall (fun g => length g = 8%nat) groups /\
      length groups = n /\
      Firmware.sel_levels t = concat groups /\
      Firmware.sent t = map Firmware.byte_of_levels groups /\
      Firmware.delays t = [].
Proof.
  unfold for_range at 1.
  set (body := fun (b data : Z) => _).
  induction n as [ | n IH]; intros b data h H.
  - exists [], data, []. repeat split. constructor.
  - cbn [for_step]. unfold body at 1. cbv beta.
    set (bits := for_range 8 0 data _).
    acking_step t0 E0. cbn [truthy Z.eqb negb].
    match goal with
    | |- context [bits ?h'] =>
        destruct (fw_read_bits data h' H) as (ls & tb & L & Eb & Sb & Wb & Db);
        change (bits h' = (inl (Firmware.byte_of_levels ls), tb)) in Eb
    end.
    rewrite Eb. cbv beta iota delta [Firmware.Serial_write emit ret].
    pose proof (byte_of_levels_range ls) as R. rewrite L in R.
    change (2 ^ Z.of_nat 8) with 256 in R.
    assert (U : u8 (Firmware.byte_of_levels ls) = Firmware.byte_of_levels ls)
      by (apply Z.mod_small; exact R).
    rewrite U.
    match goal with
    | |- context [for_step n ?b' 1 _ body ?h'] =>
        destruct (IH b' (Firmware.byte_of_levels ls) h' R)
          as (groups & data' & t & E & F & Lg & Sg & Wg & Dg)
    end.
    rewrite E.
    exists (ls :: groups), data'. eexists.
    split; [reflexivity | ].
    split; [constructor; assumption | ].
    split; [cbn; lia | ].
    rewrite ?app_nil_r.
    repeat (rewrite ?sel_levels_app, ?sent_app, ?delays_app;
            cbn [Firmware.sel_levels Firmware.sent Firmware.delays app]).
    rewrite Sb, Wb, Db, Sg, Wg, Dg, ?app_nil_r. repeat split.
Qed.

End FirmwareRead.

Lemma bytes_of_levels_groups (groups : list (list bool)) :
  Forall (fun g => length g = 8%nat) groups ->
  forall n, (length groups <= n)%nat ->
  Firmware.bytes_of_levels n (concat groups)
  = map Firmware.byte_of_levels groups.
Proof.
  induction 1 as [ | g groups Hg _ IH]; intros n Hn.
  - destruct n; reflexivity.
  - destruct n as [ | n]; [cbn in Hn; lia | ].
    cbn [concat map].
    destruct g as [ | v g]; [discriminate Hg | ].
    cbn [Firmware.bytes_of_levels app].
    change (v :: g ++ concat groups) with ((v :: g) ++ concat groups).
    rewrite firstn_app, skipn_app, Hg, Nat.sub_diag.
    rewrite <- Hg at 1 2. rewrite firstn_all, skipn_all.
    cbn [firstn skipn app]. rewrite app_nil_r, IH by (cbn in Hn; lia).
    reflexivity.
Qed.

Lemma length_concat_levels (groups : list (list bool)) :
  Forall (fun g => length g = 8%nat) groups ->
  length (concat groups) = (8 * length groups)%nat.
Proof.
  induction 1 as [ | g groups Hg _ IH]; [reflexivity | ].
  cbn [concat length]. rewrite length_app, Hg, IH. lia.
Qed.

(** X2: with a chip that acknowledges every pentad, [read_byte_stream] returns
    0 without a wait after it sent one byte for each byte asked for; it
    samples the data line eight times for each, and bit [i] of a byte sent
    is the level of the [i]-th of its eight samples, whatever the byte sent
    before was. *)
Theorem read_byte_stream_sends_each_byte :
  forall (PORTD0 : Z) (pin_sel : Firmware.trace -> bool)
         (serial_in : Firmware.trace -> list Z) (first : Z) (h : Firmware.trace),
    let total := fst (Firmware.read_size serial_in first h) in
    let run := Firmware.read_byte_stream PORTD0 Firmware.acking pin_sel
                 serial_in first h in
    let levels := Firmware.sel_levels (snd run) in
    fst run = 0 /\
    length levels = (8 * Z.to_nat total)%nat /\
    Firmware.sent (snd run) = Firmware.bytes_of_levels (length levels) levels /\
    length (Firmware.sent (snd run)) = Z.to_nat total /\
    Firmware.delays (snd run) = [].
Proof.
  intros PORTD0 pin_sel serial_in first h total run levels.
  subst levels run total. unfold Firmware.read_byte_stream.
  rewrite run_bind.
  destruct (Firmware.read_size serial_in first h) as [total ts] eqn:Es.
  assert (Q : Firmware.sel_levels ts = [] /\ Firmware.sent ts = []
              /\ Firmware.delays ts = []).
  { unfold Firmware.read_size, Firmware.Serial_readBytes in Es.
    cbv beta iota zeta delta [bind ret] in Es. injection Es as _ <-.
    repeat split. }
  destruct Q as (Q1 & Q2 & Q3).
  cbn [fst snd]. rewrite run_bind.
  destruct (fw_read_rounds PORTD0 pin_sel (Z.to_nat total) 0 0 (h ++ ts))
    as (groups & data' & t & E & F & Lg & Sg & Wg & Dg); [lia | ].
  match goal with
  | |- context [for_range (Z.to_nat total) 0 0 ?body ?h'] =>
      assert (E' : for_range (Z.to_nat total) 0 0 body h' = (inl data', t))
        by exact E;
      rewrite E'
  end.
  cbn [fst snd ret].
  rewrite ?app_nil_r, !sel_levels_app, !sent_app, !delays_app.
  rewrite Q1, Q2, Q3, Sg, Wg, Dg. cbn [app].
  split; [reflexivity | ].
  split; [rewrite length_concat_levels, Lg by assumption; reflexivity | ].
  split.
  - rewrite bytes_of_levels_groups; [reflexivity | assumption | ].
    rewrite length_concat_levels by assumption. lia.
  - split; [rewrite length_map; exact Lg | reflexivity].
Qed.

(** ** Reading a byte, on the host *)

Lemma data_bit (v : Z) :
  Z.land v Host.MASK_CHIP_DATA
  = if truthy (Z.land v Host.MASK_CHIP_DATA) then 0x10 else 0.
Proof.
  unfold truthy, Host.MASK_CHIP_DATA.
  assert (H : Z.land v 0x10 = if Z.testbit v 4 then 0x10 else 0).
  { apply Z.bits_inj'. intros n Hn. rewrite Z.land_spec.
    change 0x10 with (2 ^ 4). rewrite Z.pow2_bits_eqb by lia.
    destruct (Z.eqb_spec 4 n) as [<- | N].
    - destruct (Z.testbit v 4); [ | reflexivity].
      rewrite Z.pow2_bits_true by lia. reflexivity.
    - rewrite andb_false_r. destruct (Z.testbit v 4).
      + rewrite Z.pow2_bits_false by lia. reflexivity.
      + rewrite Z.bits_0. reflexivity. }
  rewrite H. destruct (Z.testbit v 4); reflexivity.
Qed.

Lemma byte_of_samples_levels (vals : list Z) :
  length vals = 8%nat ->
  Host.byte_of_samples vals
  = Firmware.byte_of_levels
      (map (fun v => truthy (Z.land v Host.MASK_CHIP_DATA)) vals).
Proof.
  intros L.
  do 8 (destruct vals as [ | ? vals]; [discriminate L | ]).
  destruct vals; [ | discriminate L].
  unfold Host.byte_of_samples. cbn [fold_left map].
  rewrite (data_bit z), (data_bit z0), (data_bit z1), (data_bit z2),
    (data_bit z3), (data_bit z4), (data_bit z5), (data_bit z6).
  destruct (truthy (Z.land z _)), (truthy (Z.land z0 _)),
    (truthy (Z.land z1 _)), (truthy (Z.land z2 _)),
    (truthy (Z.land z3 _)), (truthy (Z.land z4 _)),
    (truthy (Z.land z5 _)), (truthy (Z.land z6 _)); reflexivity.
Qed.

(** X3: with safe mode off [read_byte] succeeds after eight samples of the
    status register, and bit [i] of the byte it stores is the level of the
    data line in its [i]-th sample: the byte the bridge builds from the same
    levels. *)
Theorem read_byte_assembles_like_the_bridge :
  forall (chip : Host.trace -> Z) (out : Z) (h : Host.trace),
    let run := Host.read_byte false chip out h in
    fst (fst run) = 0 /\
    length (Host.samples (snd run)) = 8%nat /\
    snd (fst run)
    = Firmware.byte_of_levels
        (map (fun v => truthy (Z.land v Host.MASK_CHIP_DATA))
             (Host.samples (snd run))).
Proof.
  intros chip out h run. subst run.
  destruct (read_byte_unsafe chip out h) as (vals & t & L & E & S).
  rewrite E. cbn [fst snd]. rewrite S.
  split; [reflexivity | ]. split; [exact L | ].
  apply byte_of_samples_levels, L.
Qed.

(** ** Reading a stream, on the host *)

Lemma rx_bytes_app (a b : Host.trace) :
  Host.rx_bytes (a ++ b) = Host.rx_bytes a ++ Host.rx_bytes b.
Proof.
  induction a as [ | e a IH]; [reflexivity | ].
  destruct e; simpl; rewrite ?IH, ?app_assoc; reflexivity.
Qed.

Lemma store_length (buf : list Z) (i : Z) (bs : list Z) :
  0 <= i -> (Z.to_nat i + length bs <= length buf)%nat ->
  length (store buf i bs) = length buf.
Proof.
  intros Hi H. unfold store.
  rewrite !length_app, length_firstn, length_skipn. lia.
Qed.

Lemma store_firstn (buf : list Z) (i : Z) (bs : list Z) :
  (Z.to_nat i <= length buf)%nat ->
  firstn (Z.to_nat i + length bs) (store buf i bs)
  = firstn (Z.to_nat i) buf ++ bs.
Proof.
  intros H. unfold store. rewrite app_assoc.
  rewrite firstn_app.
  rewrite length_app, length_firstn, Nat.min_l by lia.
  rewrite Nat.sub_diag. cbn [firstn]. rewrite app_nil_r.
  apply firstn_all2. rewrite length_app, length_firstn. lia.
Qed.

Lemma store_skipn (buf : list Z) (i : Z) (bs : list Z) :
  (Z.to_nat i <= length buf)%nat ->
  skipn (Z.to_nat i + length bs) (store buf i bs)
  = skipn (Z.to_nat i + length bs) buf.
Proof.
  intros H. unfold store. rewrite app_assoc.
  rewrite skipn_app.
  rewrite length_app, length_firstn, Nat.min_l by lia.
  rewrite Nat.sub_diag. cbn [skipn].
  rewrite skipn_all2; [reflexivity | ].
  rewrite length_app, length_firstn. lia.
Qed.

Section HostStreamRead.

Variable sel : Host.trace -> Z.
Variable incoming : Host.trace -> option (list Z).

Lemma serial_wait_data_reads_nothing (timeout : option Z) (silent : bool)
    (h : Host.trace) :
  Host.rx_bytes (snd (Host.serial_wait_data sel timeout silent h)) = [] /\
  ~ In Host.RxFailed (snd (Host.serial_wait_data sel timeout silent h)).
Proof.
  unfold Host.serial_wait_data, Host.select.
  cbv beta iota zeta delta [bind ret Host.eprintf emit].
  destruct (sel h =? -1).
  { cbn. split; [reflexivity | ]. intros [X | [X | []]]; discriminate. }
  destruct (sel h =? 0); [destruct silent | ]; cbn;
    (split; [reflexivity | ]); intuition discriminate.
Qed.

(** The buffer keeps its length, whatever the [read] calls return. *)
Lemma read_stream_loop_length (fuel : nat) :
  forall (i max r : Z) (buf buf' : list Z) (h : Host.trace),
    0 <= i < 4294967296 -> max < 4294967296 ->
    (Z.to_nat max <= length buf)%nat ->
    fst (Host.read_stream_loop sel incoming fuel i max buf h)
    = Some (r, buf') ->
    length buf' = length buf.
Proof.
  induction fuel as [ | fuel IH]; intros i max r buf buf' h Hi Hm Hl H.
  - cbn [Host.read_stream_loop] in H.
    destruct (i <? max); [discriminate H | ].
    injection H as _ <-. reflexivity.
  - cbn [Host.read_stream_loop] in H.
    destruct (i <? max) eqn:Q; [ | injection H as _ <-; reflexivity].
    apply Z.ltb_lt in Q.
    cbv beta delta [bind] in H.
    destruct (Host.serial_wait_data sel None false h) as [w tw].
    destruct (truthy w); [injection H as _ <-; reflexivity | ].
    unfold Host.read in H.
    destruct (incoming (h ++ tw)) as [bytes | ].
    + cbv beta iota zeta delta [Host.printf emit fst snd] in H.
      set (bs := firstn (Z.to_nat (max - i)) (map u8 bytes)) in *.
      assert (Lb : (length bs <= Z.to_nat (max - i))%nat)
        by (subst bs; rewrite length_firstn; lia).
      match type of H with
      | context [Host.read_stream_loop sel incoming fuel ?i' max ?b' ?h'] =>
          destruct (Host.read_stream_loop sel incoming fuel i' max b' h')
            as [x tl] eqn:El
      end.
      cbn [fst] in H. subst x.
      apply (f_equal fst) in El. cbn [fst] in El.
      apply IH in El.
      * rewrite El. apply store_length; lia.
      * apply Z.mod_pos_bound. lia.
      * exact Hm.
      * rewrite store_length; lia.
    + cbv beta iota zeta delta [Host.printf emit fst snd] in H.
      match type of H with
      | context [Host.read_stream_loop sel incoming fuel ?i' max ?b' ?h'] =>
          destruct (Host.read_stream_loop sel incoming fuel i' max b' h')
            as [x tl] eqn:El
      end.
      cbn [fst] in H. subst x.
      apply (f_equal fst) in El. cbn [fst] in El.
      apply IH in El.
      * rewrite El. apply store_length; cbn [length]; lia.
      * apply Z.mod_pos_bound. lia.
      * exact Hm.
      * rewrite store_length; cbn [length]; lia.
Qed.

Lemma read_stream_loop_content (fuel : nat) :
  forall (i max : Z) (buf buf' : list Z) (h t : Host.trace),
    0 <= i <= max -> max < 4294967296 ->
    (Z.to_nat max <= length buf)%nat ->
    Host.read_stream_loop sel incoming fuel i max buf h = (Some (0, buf'), t) ->
    ~ In Host.RxFailed t ->
    firstn (Z.to_nat max) buf' = firstn (Z.to_nat i) buf ++ Host.rx_bytes t /\
    skipn (Z.to_nat max) buf' = skipn (Z.to_nat max) buf.
Proof.
  induction fuel as [ | fuel IH]; intros i max buf buf' h t Hi Hm Hl H Hn.
  - cbn [Host.read_stream_loop] in H.
    destruct (i <? max) eqn:Q; [discriminate H | ].
    injection H as <- <-. apply Z.ltb_ge in Q.
    assert (i = max) by lia. subst i.
    cbn [Host.rx_bytes]. rewrite app_nil_r. split; reflexivity.
  - cbn [Host.read_stream_loop] in H.
    destruct (i <? max) eqn:Q.
    2:{ injection H as <- <-. apply Z.ltb_ge in Q.
        assert (i = max) by lia. subst i.
        cbn [Host.rx_bytes]. rewrite app_nil_r. split; reflexivity. }
    apply Z.ltb_lt in Q.
    cbv beta delta [bind] in H.
    destruct (serial_wait_data_reads_nothing None false h) as [Rw _].
    destruct (Host.serial_wait_data sel None false h) as [w tw].
    cbn [snd] in Rw.
    destruct (truthy w); [discriminate H | ].
    unfold Host.read in H.
    destruct (incoming (h ++ tw)) as [bytes | ].
    2:{ exfalso. apply Hn.
        cbv beta iota zeta delta [Host.printf emit fst snd] in H.
        destruct (Host.read_stream_loop _ _ _ _ _ _ _) as [x tl] in H.
        injection H as _ <-.
        apply in_or_app. right. left. reflexivity. }
    cbv beta iota zeta delta [Host.printf emit fst snd] in H.
    set (bs := firstn (Z.to_nat (max - i)) (map u8 bytes)) in *.
    assert (Lb : (length bs <= Z.to_nat (max - i))%nat)
      by (subst bs; rewrite length_firstn; lia).
    assert (Hu : u32 (i + Z.of_nat (length bs)) = i + Z.of_nat (length bs))
      by (apply Z.mod_small; lia).
    rewrite Hu in H.
    match type of H with
    | context [Host.read_stream_loop sel incoming fuel ?i' max ?b' ?h'] =>
        destruct (Host.read_stream_loop sel incoming fuel i' max b' h')
          as [r tl] eqn:El
    end.
    injection H as -> <-.
    apply IH in El; [ | lia | lia | rewrite store_length; lia | ].
    2:{ intros X. apply Hn. apply in_or_app. right. right. right.
        exact X. }
    destruct El as (F & S).
    replace (Z.to_nat (i + Z.of_nat (length bs)))
      with (Z.to_nat i + length bs)%nat in F by lia.
    rewrite store_firstn in F by lia.
    split.
    + rewrite F, !rx_bytes_app, Rw. cbn [Host.rx_bytes app].
      rewrite ?app_nil_r, <- ?app_assoc. reflexivity.
    + rewrite S.
      replace (Z.to_nat max)
        with ((Z.to_nat max - (Z.to_nat i + length bs))
              + (Z.to_nat i + length bs))%nat at 1 2 by lia.
      rewrite <- (skipn_skipn _ (Z.to_nat i + length bs) (store buf i bs)).
      rewrite <- (skipn_skipn _ (Z.to_nat i + length bs) buf).
      rewrite store_skipn by lia. reflexivity.
Qed.

Lemma read_stream_loop_runs (fuel : nat) :
  forall (i max : Z) (buf : list Z) (h : Host.trace),
    (forall h', 0 < sel h') ->
    (forall h', exists b bs, incoming h' = Some (b :: bs)) ->
    0 <= i <= max -> max < 4294967296 ->
    (Z.to_nat (max - i) <= fuel)%nat ->
    exists buf' t,
      Host.read_stream_loop sel incoming fuel i max buf h = (Some (0, buf'), t).
Proof.
  induction fuel as [ | fuel IH]; intros i max buf h Hs Hin Hi Hm Hf.
  - cbn [Host.read_stream_loop].
    destruct (i <? max) eqn:Q; [apply Z.ltb_lt in Q; lia | ].
    eexists. eexists. reflexivity.
  - cbn [Host.read_stream_loop].
    destruct (i <? max) eqn:Q; [ | eexists; eexists; reflexivity].
    apply Z.ltb_lt in Q.
    cbv beta delta [bind].
    assert (Ew : Host.serial_wait_data sel None false h
                 = (0, [Host.Select Host.cfg_timeout (sel h)])).
    { unfold Host.serial_wait_data, Host.select.
      cbv beta iota zeta delta [bind ret].
      pose proof (Hs h) as P.
      destruct (Z.eqb_spec (sel h) (-1)) as [C | _]; [lia | ].
      destruct (Z.eqb_spec (sel h) 0) as [C | _]; [lia | ].
      reflexivity. }
    rewrite Ew. cbn [truthy Z.eqb negb].
    unfold Host.read.
    match goal with
    | |- context [incoming ?h'] =>
        destruct (Hin h') as (b & bytes & Eb); rewrite Eb
    end.
    cbv beta iota zeta delta [Host.printf emit fst snd].
    set (bs := firstn (Z.to_nat (max - i)) (map u8 (b :: bytes))) in *.
    assert (Lb : (1 <= length bs <= Z.to_nat (max - i))%nat).
    { subst bs. rewrite length_firstn, length_map. cbn [length]. lia. }
    assert (Hu : u32 (i + Z.of_nat (length bs)) = i + Z.of_nat (length bs))
      by (apply Z.mod_small; lia).
    rewrite Hu.
    match goal with
    | |- context [Host.read_stream_loop sel incoming fuel ?i' max ?b' ?h'] =>
        destruct (IH i' max b' h') as (buf' & t & E); try assumption; try lia;
        rewrite E
    end.
    eexists. eexists. reflexivity.
Qed.

End HostStreamRead.

(** X4: when [serial_read_byte_stream] returns 0 and none of its [read]
    calls failed, the first [max] bytes of the buffer are the bytes those
    calls returned, in the order they came and however they were split
    over the calls; there are exactly [max] of them, and the buffer beyond
    them is untouched. *)
Theorem stream_read_fills_the_buffer :
  forall (sel : Host.trace -> Z) (incoming : Host.trace -> option (list Z))
         (wr_ok : Host.trace -> bool) (fuel : nat)
         (bios_buffer buf' : list Z) (max : Z) (h : Host.trace),
    0 <= max < 4294967296 ->
    (Z.to_nat max <= length bios_buffer)%nat ->
    fst (Host.serial_read_byte_stream sel incoming wr_ok fuel
           bios_buffer max h) = Some (0, buf') ->
    ~ In Host.RxFailed
         (snd (Host.serial_read_byte_stream sel incoming wr_ok fuel
                 bios_buffer max h)) ->
    let t := snd (Host.serial_read_byte_stream sel incoming wr_ok fuel
                    bios_buffer max h) in
    firstn (Z.to_nat max) buf' = Host.rx_bytes t /\
    length (Host.rx_bytes t) = Z.to_nat max /\
    skipn (Z.to_nat max) buf' = skipn (Z.to_nat max) bios_buffer.
Proof.
  intros sel incoming wr_ok fuel buf buf' max h Hm Hl H Hn t. subst t.
  unfold Host.serial_read_byte_stream in *. cbv zeta in *.
  cbv beta delta [bind] in *.
  destruct (Host.write wr_ok _ h) as [w tw] eqn:Ew.
  assert (Rw : Host.rx_bytes tw = []).
  { unfold Host.write in Ew. destruct (wr_ok h); injection Ew as _ <-; reflexivity. }
  destruct (w <=? 0).
  { cbv beta iota delta [Host.eprintf emit ret] in H. discriminate H. }
  match type of H with
  | context [Host.read_stream_loop sel incoming fuel 0 max buf ?h'] =>
      destruct (Host.read_stream_loop sel incoming fuel 0 max buf h')
        as [r tl] eqn:El
  end.
  cbn [fst snd] in *. subst r.
  assert (Ll : length buf' = length buf).
  { apply (f_equal fst) in El. cbn [fst] in El.
    apply read_stream_loop_length in El; [exact El | lia | lia | lia]. }
  apply read_stream_loop_content in El; [ | lia | lia | lia | ].
  2:{ intros X. apply Hn. apply in_or_app. right. exact X. }
  destruct El as (F & S). cbn [Z.to_nat firstn app] in F.
  rewrite rx_bytes_app, Rw. cbn [app].
  split; [exact F | ]. split; [ | exact S].
  rewrite <- F, length_firstn. lia.
Qed.

Lemma stream_read_fills_the_buffer_witness :
  let t := snd (Host.serial_read_byte_stream (Host.ready [7; 8; 9])
                  (Host.arriving (Host.trickle [7; 8; 9])) Host.writable 3
                  [0; 0; 0; 5] 3 []) in
  firstn (Z.to_nat 3) [7; 8; 9; 5] = Host.rx_bytes t /\
  length (Host.rx_bytes t) = Z.to_nat 3 /\
  skipn (Z.to_nat 3) [7; 8; 9; 5] = skipn (Z.to_nat 3) [0; 0; 0; 5].
Proof.
  apply (stream_read_fills_the_buffer (Host.ready [7; 8; 9])
           (Host.arriving (Host.trickle [7; 8; 9])) Host.writable 3
           [0; 0; 0; 5] [7; 8; 9; 5] 3 []).
  - lia.
  - cbn. lia.
  - vm_compute. reflexivity.
  - vm_compute. intuition discriminate.
Defined.

(** X5: on a line where every [write] goes through, every [select] finds
    data and every [read] returns at least one byte, the loop of
    [serial_read_byte_stream] ends after at most [max] rounds, and the
    function returns 0. *)
Theorem stream_read_ends :
  forall (sel : Host.trace -> Z) (incoming : Host.trace -> option (list Z))
         (wr_ok : Host.trace -> bool)
         (bios_buffer : list Z) (max : Z) (h : Host.trace),
    (forall h', wr_ok h' = true) ->
    (forall h', 0 < sel h') ->
    (forall h', exists b bs, incoming h' = Some (b :: bs)) ->
    0 <= max < 4294967296 ->
    exists buf',
      fst (Host.serial_read_byte_stream sel incoming wr_ok (Z.to_nat max)
             bios_buffer max h) = Some (0, buf').
Proof.
  intros sel incoming wr_ok buf max h Hw Hs Hin Hm.
  unfold Host.serial_read_byte_stream. cbv zeta.
  cbv beta delta [bind].
  rewrite (write_run wr_ok _ h (Hw h)).
  cbn [length Z.of_nat Pos.of_succ_nat Pos.succ Z.leb Z.compare].
  match goal with
  | |- context [Host.read_stream_loop sel incoming ?f 0 max buf ?h'] =>
      destruct (read_stream_loop_runs sel incoming f 0 max buf h')
        as (buf' & t & E); try assumption; try lia; rewrite E
  end.
  exists buf'. reflexivity.
Qed.

Lemma stream_read_ends_witness :
  exists buf',
    fst (Host.serial_read_byte_stream (fun _ => 1) (fun _ => Some [0xab])
           Host.writable (Z.to_nat 3) [0; 0; 0; 5] 3 [])
    = Some (0, buf').
Proof.
  apply (stream_read_ends (fun _ => 1) (fun _ => Some [0xab]) Host.writable
           [0; 0; 0; 5] 3 []).
  - reflexivity.
  - intros h'. lia.
  - intros h'. exists 0xab, []. reflexivity.
  - lia.
Defined.

(** X21: a [read] that fails goes unnoticed in [serial_read_byte_stream]:
    the -1 it returns is added to the counter.  When the first [read]
    fails, the counter wraps around to 2^32 - 1, the loop ends, and the
    function returns 0 with nothing received and the buffer as it was. *)
Theorem stream_read_takes_a_failed_read_for_the_end :
  forall (sel : Host.trace -> Z) (incoming : Host.trace -> option (list Z))
         (wr_ok : Host.trace -> bool) (fuel : nat)
         (bios_buffer : list Z) (max : Z) (h : Host.trace),
    0 < max < 4294967296 ->
    wr_ok h = true ->
    let h1 := h ++ [Host.Tx [u8 (Z.lor 0x80 (Z.shiftr max 16));
                             Z.land (Z.shiftr max 8) 0xff;
                             Z.land max 0xff]] in
    0 < sel h1 ->
    incoming (h1 ++ [Host.Select Host.cfg_timeout (sel h1)]) = None ->
    let run := Host.serial_read_byte_stream sel incoming wr_ok (S fuel)
                 bios_buffer max h in
    fst run = Some (0, bios_buffer) /\
    Host.rx_bytes (snd run) = [] /\
    In Host.RxFailed (snd run) /\
    In (Host.Printf (Host.MsgReceived 4294967295 max)) (snd run).
Proof.
  intros sel incoming wr_ok fuel buf max h Hm Hw h1 Hs Hr run. subst run.
  unfold Host.serial_read_byte_stream. cbv zeta.
  rewrite run_bind, (write_run wr_ok _ h Hw). cbv beta iota delta [fst snd].
  cbn [length Z.of_nat Pos.of_succ_nat Pos.succ Z.leb Z.compare].
  fold h1. cbn [Host.read_stream_loop].
  destruct (Z.ltb_spec 0 max) as [_ | C]; [ | lia].
  cbv beta delta [bind].
  assert (Ew : Host.serial_wait_data sel None false h1
               = (0, [Host.Select Host.cfg_timeout (sel h1)])).
  { unfold Host.serial_wait_data, Host.select.
    cbv beta iota zeta delta [bind ret].
    destruct (Z.eqb_spec (sel h1) (-1)) as [C | _]; [lia | ].
    destruct (Z.eqb_spec (sel h1) 0) as [C | _]; [lia | ].
    reflexivity. }
  rewrite Ew. cbn [truthy Z.eqb negb].
  unfold Host.read. rewrite Hr.
  cbv beta iota zeta delta [Host.printf emit fst snd].
  change (u32 (0 + -1)) with 4294967295.
  change (store buf 0 []) with (firstn 0 buf ++ [] ++ skipn 0 buf).
  cbn [firstn skipn app].
  assert (El : forall h', Host.read_stream_loop sel incoming fuel 4294967295
                            max buf h' = (Some (0, buf), [])).
  { intros h'. destruct fuel; cbn [Host.read_stream_loop];
      (destruct (Z.ltb_spec 4294967295 max) as [C | _]; [lia | reflexivity]). }
  rewrite El. cbn [fst snd app Host.rx_bytes].
  split; [reflexivity | ]. split; [reflexivity | ].
  split; [right; right; left; reflexivity | ].
  right. right. right. left. reflexivity.
Qed.

Lemma stream_read_takes_a_failed_read_for_the_end_witness :
  let run := Host.serial_read_byte_stream (fun _ => 1) (fun _ => None)
               Host.writable 1 [7; 8; 9] 3 [] in
  fst run = Some (0, [7; 8; 9]) /\
  Host.rx_bytes (snd run) = [] /\
  In Host.RxFailed (snd run) /\
  In (Host.Printf (Host.MsgReceived 4294967295 3)) (snd run).
Proof.
  apply (stream_read_takes_a_failed_read_for_the_end (fun _ => 1)
           (fun _ => None) Host.writable 0 [7; 8; 9] 3 []).
  - lia.
  - reflexivity.
  - lia.
  - reflexivity.
Defined.

(** ** Calls from the rest of the program *)

Lemma lower_app (a b : Loader.trace) :
  Loader.lower (a ++ b) = Loader.lower a ++ Loader.lower b.
Proof.
  induction a as [ | e a IH]; [reflexivity | ].
  destruct e; simpl; congruence.
Qed.

Lemma lower_map (t : Host.trace) : Loader.lower (map Loader.Lower t) = t.
Proof. induction t as [ | e t IH]; [reflexivity | ]. simpl. congruence. Qed.

Lemma call_run {A : Type} (m : Run Host.event A) (h : Loader.trace) :
  Loader.call m h
  = (fst (m (Loader.lower h)), map Loader.Lower (snd (m (Loader.lower h)))).
Proof. unfold Loader.call. destruct (m (Loader.lower h)). reflexivity. Qed.

(** ** [_outb] and [_inb] over the bridge *)


Lemma wires_of_port (b p : Z) :
  0 <= b < 64 ->
  Firmware.wires (u8 (Z.lor (Z.shiftl (u8 b) 2) (Z.land p 0x3))) = b.
Proof.
  intros Hb. unfold Firmware.wires.
  assert (Hp : 0 <= Z.land p 3 < 2 ^ 2).
  { change 3 with (Z.ones 2). rewrite Z.land_ones by lia.
    apply Z.mod_pos_bound. lia. }
  assert (U : u8 b = b) by (apply Z.mod_small; lia).
  rewrite U, lor_shifted by lia.
  unfold u8. rewrite Z.mod_small by lia.
  rewrite Z.shiftr_div_pow2 by lia.
  change (2 ^ 2) with 4 in *.
  symmetry. apply Z.div_unique with (r := Z.land p 3); lia.
Qed.
Lemma safe_mode_check_fits (chip : Host.trace -> Z) (high : bool)
    (h : Host.trace) :
  Forall Host.fits_wires (snd (Host.safe_mode_check chip high h)).
Proof.
  cbv [Host.safe_mode_check for_range for_step Host.MAX_TRIES bind ret
       Host._inb Host.usleep emit].
  repeat match goal with
         | |- context [if ?c then _ else _] => destruct c; cbn
         end; repeat constructor.
Qed.

Lemma outp_bytes (safe_mode : bool) (chip : Host.trace -> Z) (d : Z)
    (h : Host.trace) :
  Forall Host.fits_wires (snd (Host.outp safe_mode chip d h)).
Proof.
  assert (F : forall x, 0 <= x < 256 ->
                Z.land (u8 (u8 (Host.format x))) 0x3f = u8 (Host.format x) /\
                Z.land (u8 (u8 (Z.lor (Host.format x) 0x10))) 0x3f
                = u8 (Z.lor (Host.format x) 0x10)).
  { intros x Hx.
    pose proof (byte_forall
      (fun x => (Z.land (u8 (u8 (Host.format x))) 0x3f =? u8 (Host.format x))
                && (Z.land (u8 (u8 (Z.lor (Host.format x) 0x10))) 0x3f
                    =? u8 (Z.lor (Host.format x) 0x10))) eq_refl x Hx) as B.
    cbv beta in B. rewrite andb_true_iff, !Z.eqb_eq in B. exact B. }
  destruct (F (u8 d) (u8_range d)) as [F1 F2].
  assert (C : forall b hh, Forall Host.fits_wires
                             (snd (Host.checked safe_mode chip b hh))).
  { intros b hh. unfold Host.checked. destruct safe_mode.
    - apply safe_mode_check_fits.
    - constructor. }
  unfold Host.outp, Host._outb. fold (Host.format (u8 d)). cbv zeta.
  rewrite run_bind. cbn [emit fst snd].
  constructor; [exact F1 | ].
  rewrite run_bind. apply Forall_app. split; [apply C | ].
  destruct (truthy _); [constructor | ].
  rewrite run_bind. cbn [emit fst snd app].
  constructor; [exact F2 | ].
  rewrite run_bind. apply Forall_app. split; [apply C | ].
  destruct (truthy _); constructor.
Qed.

(** X6: what [outp] hands to [_outb] reaches the chip unchanged over the
    bridge.  [serial_outb] sends one byte, the low six bits of its
    argument; the sketch takes such a byte for an output command and puts
    it on the six wires, leaving the two low bits of [PORTD] alone; and
    every byte [outp] writes fits in six bits. *)
Theorem outb_crosses_the_bridge :
  forall (wr_ok : Host.trace -> bool) (data : Z) (h : Loader.trace)
         (PORTD0 : Z) (pin_err pin_sel : Firmware.trace -> bool)
         (serial_in : Firmware.trace -> list Z) (garbage : list Z)
         (fh : Firmware.trace),
    wr_ok (Loader.lower h) = true ->
    let b := Z.land (u8 data) 0x3f in
    Loader.lower (snd (Loader.serial_outb wr_ok data h)) = [Host.Tx [b]] /\
    (exists v,
       Firmware.command PORTD0 pin_err pin_sel serial_in garbage b fh
       = (tt, [Firmware.Port v]) /\
       Firmware.wires v = b /\
       Z.land v 0x3 = Z.land (Firmware.last_port PORTD0 fh) 0x3) /\
    forall (safe_mode : bool) (chip : Host.trace -> Z) (d : Z) (hh : Host.trace),
      Forall Host.fits_wires (snd (Host.outp safe_mode chip d hh)).
Proof.
  intros wr_ok data h PORTD0 pin_err pin_sel serial_in garbage fh Hw b.
  assert (Hb : 0 <= b < 64).
  { subst b. change 0x3f with (Z.ones 6). rewrite Z.land_ones by lia.
    apply Z.mod_pos_bound. lia. }
  split; [ | split].
  - unfold Loader.serial_outb. cbv zeta. fold b.
    rewrite run_bind, call_run, (write_run wr_ok _ _ Hw).
    cbn [fst snd map length Z.of_nat Pos.of_succ_nat Z.leb Z.compare ret app].
    reflexivity.
  - unfold Firmware.command. cbv zeta.
    assert (Z0 : Z.land b 0xC0 = 0).
    { subst b. rewrite <- Z.land_assoc. change (Z.land 0x3f 0xC0) with 0.
      apply Z.land_0_r. }
    rewrite Z0. cbn [Z.eqb]. unfold Firmware.outb.
    eexists. split; [reflexivity | ]. split.
    + apply wires_of_port, Hb.
    + apply outb_low_bits.
  - intros. apply outp_bytes.
Qed.

Lemma outb_crosses_the_bridge_witness :
  let b := Z.land (u8 0xd5) 0x3f in
  Loader.lower (snd (Loader.serial_outb Host.writable 0xd5 [])) = [Host.Tx [b]] /\
  (exists v,
     Firmware.command 0x1 Firmware.acking Firmware.absent (Firmware.fed [])
       [] b []
     = (tt, [Firmware.Port v]) /\
     Firmware.wires v = b /\
     Z.land v 0x3 = Z.land (Firmware.last_port 0x1 []) 0x3) /\
  forall (safe_mode : bool) (chip : Host.trace -> Z) (d : Z) (hh : Host.trace),
    Forall Host.fits_wires (snd (Host.outp safe_mode chip d hh)).
Proof.
  apply (outb_crosses_the_bridge Host.writable 0xd5 [] 0x1 Firmware.acking
           Firmware.absent (Firmware.fed []) [] []).
  reflexivity.
Defined.

Lemma write_failed (wr_ok : Host.trace -> bool) (bytes : list Z)
    (h : Host.trace) :
  wr_ok h = false -> Host.write wr_ok bytes h = (-1, [Host.TxFailed]).
Proof. intros H. unfold Host.write. rewrite H. reflexivity. Qed.

Lemma wire_app (a c : Host.trace) :
  Host.wire (a ++ c) = Host.wire a ++ Host.wire c.
Proof.
  induction a as [ | ev a IH]; [reflexivity | ].
  destruct ev; cbn; rewrite ?IH, ?app_assoc; reflexivity.
Qed.

Lemma received_app (a c : Host.trace) :
  Host.received (a ++ c) = (Host.received a + Host.received c)%nat.
Proof.
  induction a as [ | ev a IH]; [reflexivity | ].
  destruct ev; cbn; rewrite ?IH; lia.
Qed.

Ltac lower_simpl :=
  rewrite ?app_nil_r;
  repeat (rewrite ?lower_app, ?lower_map; cbn [Loader.lower app map]).

(** X7: a status read over the bridge.  For the command byte 0x40 the
    sketch samples the data pin, then the acknowledgment pin, and answers
    with one byte; [serial_inb], which sends 0x40 and finds that byte on the
    line, returns a status byte in which bit 4 is the level of the data pin
    and bit 3 the level of the acknowledgment pin, the two bits that the
    masks [MASK_CHIP_DATA] and [MASK_CHIP_ERR] select. *)
Theorem inb_crosses_the_bridge :
  forall (PORTD0 : Z) (pin_err pin_sel : Firmware.trace -> bool)
         (serial_in : Firmware.trace -> list Z) (garbage : list Z)
         (fh : Firmware.trace),
    let s := pin_sel fh in
    let e := pin_err (fh ++ [Firmware.SelPin s]) in
    let reply := Firmware.sent
                   (snd (Firmware.command PORTD0 pin_err pin_sel serial_in
                           garbage 0x40 fh)) in
    let run := Loader.serial_inb (Host.ready reply)
                 (Host.arriving (Host.fed reply)) Host.writable [] in
    snd (Firmware.command PORTD0 pin_err pin_sel serial_in garbage 0x40 fh)
    = [Firmware.SelPin s; Firmware.ErrPin e;
       Firmware.SerialWrite (fst run)] /\
    Host.wire (Loader.lower (snd run)) = [0x40] /\
    truthy (Z.land (fst run) Host.MASK_CHIP_DATA) = s /\
    Host.err_high (fst run) = e /\
    Z.land (fst run) (Z.lor Host.MASK_CHIP_DATA Host.MASK_CHIP_ERR) = fst run.
Proof.
  intros PORTD0 pin_err pin_sel serial_in garbage fh s e reply run.
  assert (E : Firmware.command PORTD0 pin_err pin_sel serial_in garbage 0x40 fh
              = (tt, [Firmware.SelPin s; Firmware.ErrPin e;
                      Firmware.SerialWrite
                        (u8 (if e then Z.lor (if s then Z.lor 0 0x10 else 0) 0x08
                             else if s then Z.lor 0 0x10 else 0))])).
  { unfold Firmware.command. cbv zeta.
    change (Z.land 0x40 0xC0 =? 0x00) with false.
    change (Z.land 0x40 0xC0 =? 0x40) with true. cbv iota.
    unfold Firmware.inb, Firmware.digitalRead_SEL, Firmware.digitalRead_ERR,
      Firmware.Serial_write.
    cbv beta iota zeta delta [bind emit]. fold s. fold e. reflexivity. }
  subst run reply. rewrite E. cbn [snd Firmware.sent].
  destruct s, e; vm_compute; repeat split; reflexivity.
Qed.

(** X8: [serial_inb] returns a byte from the line only when its [write]
    goes through, its [select] finds data and its [read] delivers a byte,
    and then it returns that byte.  When the [write] fails, when [select]
    fails or times out, and when [read] fails or delivers nothing, it
    returns 1 without having read a byte: a status byte in which the
    acknowledgment line and the data line both read low. *)
Theorem serial_inb_answers :
  forall (sel : Host.trace -> Z) (incoming : Host.trace -> option (list Z))
         (wr_ok : Host.trace -> bool) (h : Loader.trace),
    let run := Loader.serial_inb sel incoming wr_ok h in
    let h1 := Loader.lower h ++ [Host.Tx [0x40]] in
    let s := sel h1 in
    let h2 := h1 ++ [Host.Select Host.cfg_timeout s] in
    (if negb (wr_ok (Loader.lower h)) then
       fst run = 1 /\
       snd run = map Loader.Lower
                   [Host.TxFailed; Host.Eprintf Host.MsgWriteFailure]
     else if (s =? -1) || (s =? 0) then
       fst run = 1 /\
       snd run = map Loader.Lower
                   [Host.Tx [0x40]; Host.Select Host.cfg_timeout s;
                    Host.Eprintf (if s =? -1 then Host.MsgSelectError
                                  else Host.MsgTimedOut)]
     else
       match incoming h2 with
       | None =>
           fst run = 1 /\
           snd run = map Loader.Lower
                       [Host.Tx [0x40]; Host.Select Host.cfg_timeout s;
                        Host.RxFailed]
                     ++ [Loader.Eprintf Loader.MsgSerialReadFailure]
       | Some [] =>
           fst run = 1 /\
           snd run = map Loader.Lower
                       [Host.Tx [0x40]; Host.Select Host.cfg_timeout s;
                        Host.Rx []]
                     ++ [Loader.Eprintf Loader.MsgSerialReadFailure]
       | Some (b :: _) =>
           fst run = u8 b /\
           snd run = map Loader.Lower
                       [Host.Tx [0x40]; Host.Select Host.cfg_timeout s;
                        Host.Rx [u8 b]]
       end) /\
    Host.err_high 1 = false /\
    truthy (Z.land 1 Host.MASK_CHIP_DATA) = false.
Proof.
  intros sel incoming wr_ok h run h1 s h2.
  split; [ | split; reflexivity].
  subst run. unfold Loader.serial_inb. cbv zeta.
  cbv beta delta [bind Loader.call].
  destruct (wr_ok (Loader.lower h)) eqn:Hw; cbn [negb].
  2:{ rewrite (write_failed wr_ok _ _ Hw). cbv. split; reflexivity. }
  rewrite (write_run wr_ok _ _ Hw).
  cbn [length Z.of_nat Pos.of_succ_nat Z.leb Z.compare map].
  rewrite lower_app. cbn [Loader.lower]. fold h1.
  unfold Host.serial_wait_data, Host.select.
  cbv beta iota zeta delta [bind ret Host.eprintf emit]. fold s.
  destruct (s =? -1) eqn:E1.
  { cbn [orb truthy Z.eqb negb fst snd map app]. split; reflexivity. }
  destruct (s =? 0) eqn:E0.
  { cbn [orb truthy Z.eqb negb fst snd map app]. split; reflexivity. }
  cbn [orb truthy Z.eqb negb fst snd map app].
  assert (L2 : Loader.lower
                 ((h ++ [Loader.Lower (Host.Tx [0x40])])
                  ++ [Loader.Lower (Host.Select Host.cfg_timeout s)]) = h2)
    by (rewrite !lower_app; reflexivity).
  rewrite L2.
  unfold Host.read.
  destruct (incoming h2) as [[ | b bytes] | ].
  - cbn [map firstn length Z.of_nat fst snd Z.eqb negb].
    cbv beta iota delta [Loader.eprintf emit ret].
    cbn [fst snd map app]. split; reflexivity.
  - change (Z.to_nat 1) with 1%nat.
    cbn [map firstn length Z.of_nat Pos.of_succ_nat fst snd Z.eqb Pos.eqb
         negb nth ret app].
    split; reflexivity.
  - cbn [fst snd Z.eqb negb].
    cbv beta iota delta [Loader.eprintf emit ret].
    cbn [fst snd map app]. split; reflexivity.
Qed.

(** ** The file to write or to compare *)

Section LoadFile.

Variable file_opens : bool.
Variable file_size : Z.
Variable file_data : list Z.

Lemma load_readable (buffer : list Z) (h : Loader.trace) :
  Loader.readable file_opens file_size file_data ->
  Loader.load_bios_file file_opens file_size file_data buffer h
  = ((file_size, store buffer 0 (Loader.contents file_size file_data)), []).
Proof.
  intros (Ho & Hs & Hl). unfold Loader.load_bios_file. rewrite Ho. cbn [negb].
  unfold Host.BIOS_SIZE in *.
  assert (S : Loader.size_t file_size = file_size)
    by (apply Z.mod_small; lia).
  cbv zeta. rewrite S.
  destruct (Z.gtb_spec file_size 131072) as [G | _]; [lia | ].
  assert (L : Z.of_nat (length (firstn (Z.to_nat file_size) (map u8 file_data)))
              = file_size).
  { rewrite length_firstn, length_map. lia. }
  rewrite L, Z.eqb_refl. reflexivity.
Qed.

Lemma load_refused (buffer : list Z) (h : Loader.trace) :
  file_opens = false \/ Host.BIOS_SIZE < Loader.size_t file_size \/
  (length file_data < Z.to_nat (Loader.size_t file_size))%nat \/
  Loader.size_t file_size = 0 ->
  let run := Loader.load_bios_file file_opens file_size file_data buffer h in
  fst (fst run) <= 0 /\ Loader.lower (snd run) = [].
Proof.
  intros H run. subst run. unfold Loader.load_bios_file. cbv zeta.
  destruct file_opens; cbn [negb]; [ | cbn; split; [lia | reflexivity]].
  destruct (Z.gtb_spec (Loader.size_t file_size) Host.BIOS_SIZE) as [G | G];
    [cbn; split; [lia | reflexivity] | ].
  rewrite length_firstn, length_map.
  destruct (Z.eqb_spec
              (Z.of_nat (Nat.min (Z.to_nat (Loader.size_t file_size))
                                 (length file_data)))
              (Loader.size_t file_size)) as [Q | Q]; cbn [negb];
    [ | cbn; split; [lia | reflexivity]].
  cbn [ret fst snd Loader.lower]. split; [ | reflexivity].
  destruct H as [H | [H | [H | H]]]; [discriminate | lia | lia | lia].
Qed.

End LoadFile.

(** X9: a file that cannot be opened, that is larger than the chip, that
    cannot be read to its end or that is empty stops [write_bios] and
    [compare_bios] before they touch the chip or the serial line: both
    return 1 (and the chip is not erased). *)
Theorem unusable_file_leaves_the_chip_alone :
  forall (safe_mode use_serial : bool) (chip sel : Host.trace -> Z)
         (incoming : Host.trace -> option (list Z)) (wr_ok : Host.trace -> bool)
         (file_opens : bool) (file_size : Z) (file_data : list Z)
         (fuel : nat) (c2 : Z) (garbage garbage_actual : list Z)
         (h : Loader.trace),
    file_opens = false \/ Host.BIOS_SIZE < Loader.size_t file_size \/
    (length file_data < Z.to_nat (Loader.size_t file_size))%nat \/
    Loader.size_t file_size = 0 ->
    let w := Loader.write_bios safe_mode use_serial chip sel incoming wr_ok
               file_opens file_size file_data fuel c2 garbage h in
    let c := Loader.compare_bios safe_mode use_serial chip sel incoming wr_ok
               file_opens file_size file_data fuel garbage garbage_actual h in
    fst w = Some (Loader.Returned 1) /\ Loader.lower (snd w) = [] /\
    fst c = Some (Loader.Returned 1) /\ Loader.lower (snd c) = [].
Proof.
  intros safe_mode use_serial chip sel incoming wr_ok file_opens file_size
    file_data fuel c2 garbage garbage_actual h H w c.
  destruct (load_refused file_opens file_size file_data garbage h H) as [R L].
  subst w c. unfold Loader.write_bios, Loader.compare_bios.
  rewrite !run_bind. cbv zeta.
  destruct (Z.leb_spec
              (fst (fst (Loader.load_bios_file file_opens file_size file_data
                           garbage h))) 0) as [_ | G]; [ | lia].
  cbn [ret fst snd]. rewrite !app_nil_r. repeat split; assumption.
Qed.

Lemma unusable_file_leaves_the_chip_alone_witness :
  let w := Loader.write_bios true false Host.absent Host.timing_out
             Host.no_bytes Host.writable false 0 [] 1 0 Host.blank [] in
  let c := Loader.compare_bios true false Host.absent Host.timing_out
             Host.no_bytes Host.writable false 0 [] 1 Host.blank Host.blank
             [] in
  fst w = Some (Loader.Returned 1) /\ Loader.lower (snd w) = [] /\
  fst c = Some (Loader.Returned 1) /\ Loader.lower (snd c) = [].
Proof.
  apply (unusable_file_leaves_the_chip_alone true false Host.absent
           Host.timing_out Host.no_bytes Host.writable false 0 [] 1 0
           Host.blank Host.blank []).
  left. reflexivity.
Defined.

(** ** Writing with safe mode off *)

Section UnsafeWrite.

Variable chip : Host.trace -> Z.

Ltac unsafe_step t E :=
  cbv beta iota delta [bind];
  match goal with
  | |- context [Host.outp false chip ?d ?h] =>
      let S := fresh "S" in
      destruct (outp_unsafe chip d h) as (t & E & S);
      rewrite E
  end.

Lemma write_byte_unsafe (data address : Z) (h : Host.trace) :
  fst (Host.write_byte false chip data address h) = 0 /\
  Host.pentads (snd (Host.write_byte false chip data address h))
  = Loader.byte_pentads data address.
Proof.
  unfold Loader.byte_pentads.
  destruct (Z.eqb_spec data 0xff) as [-> | N].
  { split; reflexivity. }
  assert (F : fst (Host.write_byte false chip data address h) = 0).
  { unfold Host.write_byte.
    destruct (Z.eqb_spec data 0xff) as [C | _]; [contradiction | ].
    cbv zeta. set (trail := for_range 4 0 tt _).
    unsafe_step t0 E0. cbn [truthy Z.eqb negb].
    unsafe_step t1 E1. cbn [truthy Z.eqb negb].
    unsafe_step t2 E2. cbn [truthy Z.eqb negb].
    unsafe_step t3 E3. cbn [truthy Z.eqb negb].
    unsafe_step t4 E4. cbn [truthy Z.eqb negb].
    destruct (trail _) as [x tt']. reflexivity. }
  split; [exact F | ].
  destruct (write_byte_pentads false chip data address h N) as (k & P & [[_ K] | [C _]]).
  - rewrite P, K. apply firstn_all2.
    rewrite length_app, repeat_length. cbn. lia.
  - rewrite F in C. discriminate C.
Qed.

End UnsafeWrite.

Lemma pentads_lower_app (a b : Loader.trace) :
  Host.pentads (Loader.lower (a ++ b))
  = Host.pentads (Loader.lower a) ++ Host.pentads (Loader.lower b).
Proof. rewrite lower_app. apply pentads_app. Qed.

Section FlashLoop.

Variable chip : Host.trace -> Z.
Variable buffer : list Z.
Variable one_percent : Z.

Lemma flash_loop_unsafe (n : nat) :
  forall (i : Z) (h : Loader.trace),
    0 <= i -> i + Z.of_nat n < 4294967296 -> one_percent <> 0 ->
    exists t,
      for_range n i tt (fun i _ =>
        let b := nth (Z.to_nat i) buffer 0 in
        r <- Loader.call (Host.write_byte false chip b i) ;;
        r <- (if truthy r
              then Loader.eprintf (Loader.MsgWriteAt i b) ;;
                   Loader.call (Host.write_byte false chip b i)
              else ret 0) ;;
        if truthy r then ret (inr (Loader.Returned 1))
        else if one_percent =? 0 then ret (inr Loader.DividedByZero)
        else
          (if i mod one_percent =? 0
           then Loader.call (Host.printf (Host.MsgPercent (i / one_percent)))
           else ret tt) ;;
          ret (inl tt)) h
      = (inl tt, t) /\
      Host.pentads (Loader.lower t) = Loader.flash_pentads n i buffer.
Proof.
  unfold for_range.
  set (body := fun (i : Z) (_ : unit) => _).
  induction n as [ | n IH]; intros i h Hi Hn H1.
  - exists []. split; reflexivity.
  - cbn [for_step Loader.flash_pentads]. unfold body at 1.
    cbv beta iota zeta delta [bind Loader.call].
    destruct (write_byte_unsafe chip (nth (Z.to_nat i) buffer 0) i
                (Loader.lower h)) as [F P].
    destruct (Host.write_byte false chip _ i (Loader.lower h)) as [r tw].
    cbn [fst snd] in F, P. subst r.
    cbn [truthy Z.eqb negb ret].
    destruct (Z.eqb_spec one_percent 0) as [C | _]; [contradiction | ].
    assert (U : u32 (i + 1) = i + 1) by (apply Z.mod_small; lia).
    rewrite U.
    destruct (i mod one_percent =? 0).
    + cbv beta iota delta [Host.printf emit].
      match goal with
      | |- context [for_step n (i + 1) 1 tt body ?h'] =>
          destruct (IH (i + 1) h') as (t & E & Pt); [lia | lia | assumption | ]
      end.
      rewrite E. eexists. split; [reflexivity | ].
      lower_simpl. rewrite !pentads_app, P, Pt. cbn [Host.pentads app].
      rewrite app_nil_r. reflexivity.
    + cbv beta iota delta [ret].
      match goal with
      | |- context [for_step n (i + 1) 1 tt body ?h'] =>
          destruct (IH (i + 1) h') as (t & E & Pt); [lia | lia | assumption | ]
      end.
      rewrite E. eexists. split; [reflexivity | ].
      lower_simpl. rewrite !pentads_app, P, Pt. reflexivity.
Qed.

End FlashLoop.

Lemma flash_pentads_store (garbage c : list Z) (n : nat) :
  forall i, 0 <= i -> (Z.to_nat i + n <= length c)%nat ->
  Loader.flash_pentads n i (store garbage 0 c) = Loader.flash_pentads n i c.
Proof.
  induction n as [ | n IH]; intros i Hi H; [reflexivity | ].
  cbn [Loader.flash_pentads]. rewrite IH by lia. f_equal. f_equal.
  unfold store. cbn [Z.to_nat firstn app Nat.add].
  apply app_nth1. lia.
Qed.

(** X10: with safe mode off and the parallel port, [write_bios] flashes a file
    of 100 bytes or more in one pass once the erase loop has ended: after
    the pentads of the erase it presents, address after address from 0 on,
    nothing for a byte 0xff and for any other byte the write command, the
    four pentads that carry the address and the top bits of the data, and
    four times the low five bits of the data; it ends with the reset pentad
    and returns 0. *)
Theorem write_bios_presents_the_file :
  forall (chip sel : Host.trace -> Z) (incoming : Host.trace -> option (list Z))
         (wr_ok : Host.trace -> bool)
         (file_opens : bool) (file_size : Z) (file_data : list Z)
         (fuel : nat) (c2 : Z) (garbage : list Z) (h : Loader.trace),
    Loader.readable file_opens file_size file_data ->
    100 <= file_size ->
    fst (Host.erase_chip false chip fuel c2 (Loader.lower h)) = Some tt ->
    let run := Loader.write_bios false false chip sel incoming wr_ok
                 file_opens file_size file_data fuel c2 garbage h in
    fst run = Some (Loader.Returned 0) /\
    Host.pentads (Loader.lower (snd run))
    = Host.pentads (snd (Host.erase_chip false chip fuel c2 (Loader.lower h)))
      ++ Loader.flash_pentads (Z.to_nat file_size) 0 (Loader.contents file_size file_data)
      ++ [Host.CMD_RESET].
Proof.
  intros chip sel incoming wr_ok file_opens file_size file_data fuel c2
    garbage h R H100 He run. subst run.
  pose proof R as (Ho & Hs & Hl). unfold Host.BIOS_SIZE in Hs.
  unfold Loader.write_bios.
  rewrite run_bind, (load_readable _ _ _ garbage h R).
  cbn [fst snd]. cbv zeta.
  destruct (Z.leb_spec file_size 0) as [C | _]; [lia | ].
  set (one_percent := u32 (Z.quot file_size 100)).
  assert (H1 : one_percent <> 0).
  { subst one_percent. unfold u32. rewrite Z.mod_small.
    - intros Q. apply Z.quot_small_iff in Q; lia.
    - split; [apply Z.quot_pos; lia | ].
      apply Z.le_lt_trans with file_size; [ | lia].
      apply Z.quot_le_upper_bound; lia. }
  set (loop := for_range (Z.to_nat file_size) 0 tt _).
  cbv beta iota delta [bind Loader.call].
  rewrite app_nil_r.
  destruct (Host.erase_chip false chip fuel c2 (Loader.lower h)) as [e te].
  cbn [fst] in He. subst e. cbn [snd].
  cbv beta iota delta [Host.usleep Loader.printf emit ret andb].
  cbn [map].
  match goal with
  | |- context [loop ?h'] =>
      destruct (flash_loop_unsafe chip (store garbage 0 (Loader.contents file_size file_data))
                  one_percent (Z.to_nat file_size) 0 h')
        as (t & E & Pt); [lia | lia | exact H1 | ];
      assert (E' : loop h' = (inl tt, t)) by exact E;
      rewrite E'
  end.
  match goal with
  | |- context [Host.outp false chip Host.CMD_RESET ?h'] =>
      destruct (outp_unsafe chip Host.CMD_RESET h') as (tr & Er & _);
      destruct (outp_run false chip Host.CMD_RESET h') as (b & t' & E2 & Em & _);
      rewrite Er in E2; injection E2 as _ <-;
      assert (Pr : Host.pentads tr = [Host.CMD_RESET])
        by (rewrite <- emissions_pentads, Em; reflexivity)
  end.
  rewrite Er. cbn [fst snd].
  split; [reflexivity | ].
  lower_simpl. rewrite pentads_app. cbn [Host.pentads].
  rewrite !pentads_app, Pt, Pr.
  rewrite flash_pentads_store by (unfold Loader.contents; rewrite ?length_firstn, ?length_map; lia).
  cbn [Host.pentads app]. rewrite ?app_nil_r. reflexivity.
Qed.

Lemma write_bios_presents_the_file_witness :
  let run := Loader.write_bios false false Host.absent Host.timing_out
               Host.no_bytes Host.writable true 100 (repeat 0x5a 100) 1 0
               Host.blank [] in
  fst run = Some (Loader.Returned 0) /\
  Host.pentads (Loader.lower (snd run))
  = Host.pentads (snd (Host.erase_chip false Host.absent 1 0
                         (Loader.lower [])))
    ++ Loader.flash_pentads (Z.to_nat 100) 0
         (Loader.contents 100 (repeat 0x5a 100))
    ++ [Host.CMD_RESET].
Proof.
  apply (write_bios_presents_the_file Host.absent Host.timing_out
           Host.no_bytes Host.writable true 100 (repeat 0x5a 100) 1 0
           Host.blank []).
  - split; [reflexivity | ]. split; [unfold Host.BIOS_SIZE; lia | ].
    rewrite repeat_length. vm_compute. lia.
  - lia.
  - vm_compute. reflexivity.
Defined.


(** X11: over the parallel port [write_bios] never reports a file of fewer
    than 100 bytes as flashed.  For such a file [one_percent] is 0: once
    the chip is erased, the first round of the loop either gives up on the
    first byte and returns 1, or gets to the progress display and evaluates
    [i % one_percent], a division by zero.  With safe mode off no write
    can fail and the division is always reached. *)
Theorem write_bios_small_file :
  forall (safe_mode : bool) (chip sel : Host.trace -> Z)
         (incoming : Host.trace -> option (list Z)) (wr_ok : Host.trace -> bool)
         (file_opens : bool) (file_size : Z) (file_data : list Z)
         (fuel : nat) (c2 : Z) (garbage : list Z) (h : Loader.trace),
    Loader.readable file_opens file_size file_data ->
    file_size < 100 ->
    let run := Loader.write_bios safe_mode false chip sel incoming wr_ok
                 file_opens file_size file_data fuel c2 garbage h in
    let erased := fst (Host.erase_chip safe_mode chip fuel c2 (Loader.lower h)) in
    match fst run with
    | None => erased = None
    | Some (Loader.Returned r) => r = 1 /\ safe_mode = true
    | Some Loader.DividedByZero => erased = Some tt
    end.
Proof.
  intros safe_mode chip sel incoming wr_ok file_opens file_size file_data
    fuel c2 garbage h R H100 run erased. subst run erased.
  pose proof R as (Ho & Hs & Hl). unfold Host.BIOS_SIZE in Hs.
  unfold Loader.write_bios.
  rewrite run_bind, (load_readable _ _ _ garbage h R).
  cbn [fst snd]. cbv zeta.
  destruct (Z.leb_spec file_size 0) as [C | _]; [lia | ].
  assert (H0 : u32 (Z.quot file_size 100) = 0).
  { rewrite Z.quot_small by lia. reflexivity. }
  rewrite H0.
  destruct (Z.to_nat file_size) as [ | n] eqn:En; [lia | ].
  unfold for_range. cbn [for_step].
  cbv beta iota delta [bind Loader.call].
  rewrite app_nil_r.
  destruct (Host.erase_chip safe_mode chip fuel c2 (Loader.lower h))
    as [[[] | ] te]; [ | reflexivity].
  cbn [fst snd].
  cbv beta iota delta [Host.usleep Loader.printf Loader.eprintf emit ret andb].
  cbn [map].
  match goal with
  | |- context [Host.write_byte safe_mode chip ?b 0 ?h'] =>
      pose proof (write_byte_unsafe chip b 0 h') as [U _];
      destruct (Host.write_byte safe_mode chip b 0 h') as [r1 t1] eqn:W1
  end.
  destruct (truthy r1) eqn:T1.
  - match goal with
    | |- context [Host.write_byte safe_mode chip ?b 0 ?h'] =>
        destruct (Host.write_byte safe_mode chip b 0 h') as [r2 t2]
    end.
    destruct (truthy r2); cbn [Z.eqb fst]; [ | reflexivity].
    split; [reflexivity | ].
    destruct safe_mode; [reflexivity | ].
    rewrite W1 in U. cbn [fst] in U. subst r1. discriminate T1.
  - cbn [truthy Z.eqb negb fst]. reflexivity.
Qed.

Lemma write_bios_small_file_witness :
  let run := Loader.write_bios false false Host.absent Host.timing_out
               Host.no_bytes Host.writable true 3 [1; 2; 3] 1 0 Host.blank
               [] in
  let erased := fst (Host.erase_chip false Host.absent 1 0 (Loader.lower [])) in
  match fst run with
  | None => erased = None
  | Some (Loader.Returned r) => r = 1 /\ false = true
  | Some Loader.DividedByZero => erased = Some tt
  end.
Proof.
  apply (write_bios_small_file false Host.absent Host.timing_out
           Host.no_bytes Host.writable true 3 [1; 2; 3] 1 0 Host.blank []).
  - split; [reflexivity | ]. split; [unfold Host.BIOS_SIZE; lia | ].
    vm_compute. lia.
  - lia.
Defined.

(** ** Comparing with safe mode off *)

Lemma samples_lower_app (a b : Loader.trace) :
  Host.samples (Loader.lower (a ++ b))
  = Host.samples (Loader.lower a) ++ Host.samples (Loader.lower b).
Proof. rewrite lower_app. apply samples_app. Qed.

Section CompareLoop.

Variable chip : Host.trace -> Z.
Variable expect : list Z.
Variable one_percent : Z.

#[local] Abbreviation compare_round :=
  (fun (i : Z) (_ : unit) =>
     x <- Loader.call (Host.read_byte false chip 0) ;;
     let data := snd x in
     if truthy (fst x)
     then Loader.eprintf Loader.MsgReadFailed ;;
          ret (inr (Loader.Returned 1))
     else if negb (data =? nth (Z.to_nat i) expect 0)
     then Loader.eprintf (Loader.MsgDifferenceAt i) ;;
          ret (inr (Loader.Returned 1))
     else if one_percent =? 0 then ret (inr Loader.DividedByZero)
     else
       (if i mod one_percent =? 0
        then Loader.call (Host.printf (Host.MsgPercent (i / one_percent)))
        else ret tt) ;;
       ret (inl tt)).

Lemma compare_round_unsafe (i : Z) (h : Loader.trace) :
  one_percent <> 0 ->
  exists vals x t,
    compare_round i tt h = (x, t) /\
    length vals = 8%nat /\
    Host.samples (Loader.lower t) = vals /\
    (Host.byte_of_samples vals = nth (Z.to_nat i) expect 0 /\ x = inl tt \/
     Host.byte_of_samples vals <> nth (Z.to_nat i) expect 0 /\
     x = inr (Loader.Returned 1) /\
     In (Loader.Eprintf (Loader.MsgDifferenceAt i)) t).
Proof.
  intros H1.
  cbv beta iota zeta delta [bind Loader.call].
  destruct (read_byte_unsafe chip 0 (Loader.lower h))
    as (vals & tr & L & Er & Sr).
  rewrite Er. cbn [fst snd truthy Z.eqb negb].
  exists vals.
  destruct (Z.eqb_spec (Host.byte_of_samples vals) (nth (Z.to_nat i) expect 0))
    as [Q | Q]; cbn [negb].
  - destruct (Z.eqb_spec one_percent 0) as [C | _]; [contradiction | ].
    destruct (i mod one_percent =? 0).
    + cbv beta iota delta [Host.printf emit ret].
      eexists. eexists. split; [reflexivity | ]. split; [exact L | ].
      split; [ | left; split; [exact Q | reflexivity]].
      lower_simpl. rewrite samples_app, Sr. cbn. apply app_nil_r.
    + cbv beta iota delta [ret].
      eexists. eexists. split; [reflexivity | ]. split; [exact L | ].
      split; [ | left; split; [exact Q | reflexivity]].
      lower_simpl. exact Sr.
  - cbv beta iota delta [Loader.eprintf emit ret].
    eexists. eexists. split; [reflexivity | ]. split; [exact L | ].
    split.
    + lower_simpl. rewrite samples_app, Sr. cbn. apply app_nil_r.
    + right. split; [exact Q | ]. split; [reflexivity | ].
      apply in_or_app. right. left. reflexivity.
Qed.

Lemma compare_loop_unsafe (n : nat) :
  forall (i : Z) (h : Loader.trace),
    0 <= i -> i + Z.of_nat n < 4294967296 -> one_percent <> 0 ->
    exists groups x t,
      for_range n i tt compare_round h = (x, t) /\
      Forall (fun g => length g = 8%nat) groups /\
      Host.samples (Loader.lower t) = concat groups /\
      (x = inl tt /\ length groups = n /\
       (forall j, (j < n)%nat ->
          nth j (map Host.byte_of_samples groups) 0
          = nth (Z.to_nat i + j) expect 0)
       \/
       x = inr (Loader.Returned 1) /\
       exists k, (k < n)%nat /\ length groups = S k /\
         (forall j, (j < k)%nat ->
            nth j (map Host.byte_of_samples groups) 0
            = nth (Z.to_nat i + j) expect 0) /\
         nth k (map Host.byte_of_samples groups) 0
         <> nth (Z.to_nat i + k) expect 0 /\
         In (Loader.Eprintf (Loader.MsgDifferenceAt (i + Z.of_nat k))) t).
Proof.
  unfold for_range.
  induction n as [ | n IH]; intros i h Hi Hn H1.
  - exists [], (inl tt), []. split; [reflexivity | ].
    split; [constructor | ]. split; [reflexivity | ].
    left. repeat split. intros j Hj. lia.
  - rewrite for_step_S. cbv beta zeta.
    destruct (compare_round_unsafe i h H1)
      as (vals & x1 & t1 & E1 & L & S1 & [[Q ->] | (Q & -> & I)]);
      cbv beta zeta in E1.
    + rewrite E1. cbn [fst snd].
      assert (U : u32 (i + 1) = i + 1) by (apply Z.mod_small; lia).
      rewrite U.
      destruct (IH (i + 1) (h ++ t1))
        as (groups & x & t & E & F & Sg & D); [lia | lia | assumption | ].
      rewrite E. cbn [fst snd].
      exists (vals :: groups), x. eexists.
      split; [reflexivity | ].
      split; [constructor; assumption | ].
      split; [rewrite samples_lower_app, S1, Sg; reflexivity | ].
      replace (Z.to_nat (i + 1)) with (S (Z.to_nat i)) in D by lia.
      destruct D as [(-> & Lg & A) | (-> & k & Hk & Lg & A & B & I)].
      * left. split; [reflexivity | ]. split; [cbn; lia | ].
        intros [ | j] Hj; cbn [map nth].
        -- rewrite Nat.add_0_r. exact Q.
        -- rewrite A by lia. f_equal. lia.
      * right. split; [reflexivity | ].
        exists (S k). split; [lia | ]. split; [cbn; lia | ].
        split; [ | split].
        -- intros [ | j] Hj; cbn [map nth].
           ++ rewrite Nat.add_0_r. exact Q.
           ++ rewrite A by lia. f_equal. lia.
        -- cbn [map nth]. intros X. apply B. rewrite X. f_equal. lia.
        -- apply in_or_app. right.
           replace (i + Z.of_nat (S k)) with (i + 1 + Z.of_nat k) by lia.
           exact I.
    + rewrite E1. cbn [fst snd].
      exists [vals], (inr (Loader.Returned 1)), t1.
      split; [reflexivity | ].
      split; [repeat constructor; exact L | ].
      split; [rewrite S1; cbn; rewrite app_nil_r; reflexivity | ].
      right. split; [reflexivity | ].
      exists O. split; [lia | ]. split; [reflexivity | ].
      split; [intros j Hj; lia | ]. split.
      * cbn [map nth]. rewrite Nat.add_0_r. exact Q.
      * rewrite Z.add_0_r. exact I.
Qed.

End CompareLoop.

Lemma nth_store_contents (garbage c : list Z) (j : nat) :
  (j < length c)%nat -> nth j (store garbage 0 c) 0 = nth j c 0.
Proof.
  intros H. unfold store. cbn [Z.to_nat firstn app Nat.add].
  apply app_nth1, H.
Qed.

(** X12: over the parallel port with safe mode off, [compare_bios] reads the
    chip byte by byte against a file of 100 bytes or more and stops at the
    first byte that differs: it returns 0 exactly when the bytes it read
    are the bytes of the file, and otherwise returns 1 after it read one
    byte more than the two have in common, naming the address of that
    byte. *)
Theorem compare_bios_finds_the_first_difference :
  forall (chip sel : Host.trace -> Z) (incoming : Host.trace -> option (list Z))
         (wr_ok : Host.trace -> bool)
         (file_opens : bool) (file_size : Z) (file_data : list Z)
         (fuel : nat) (garbage garbage_actual : list Z) (h : Loader.trace),
    Loader.readable file_opens file_size file_data ->
    100 <= file_size ->
    let run := Loader.compare_bios false false chip sel incoming wr_ok
                 file_opens file_size file_data fuel garbage garbage_actual
                 h in
    let got := Host.bytes_read (Loader.lower (snd run)) in
    let file := Loader.contents file_size file_data in
    fst run = Some (Loader.Returned 0) /\ got = file \/
    fst run = Some (Loader.Returned 1) /\
    exists k, (k < length file)%nat /\ length got = S k /\
      firstn k got = firstn k file /\
      nth k got 0 <> nth k file 0 /\
      In (Loader.Eprintf (Loader.MsgDifferenceAt (Z.of_nat k))) (snd run).
Proof.
  intros chip sel incoming wr_ok file_opens file_size file_data fuel
    garbage garbage_actual h R H100 run got file. subst run got.
  pose proof R as (Ho & Hs & Hl). unfold Host.BIOS_SIZE in Hs.
  assert (Lf : length file = Z.to_nat file_size).
  { subst file. unfold Loader.contents. rewrite length_firstn, length_map. lia. }
  unfold Loader.compare_bios.
  rewrite run_bind, (load_readable _ _ _ garbage h R).
  cbn [fst snd]. cbv zeta. fold file. clearbody file.
  destruct (Z.leb_spec file_size 0) as [C | _]; [lia | ].
  set (one_percent := u32 (Z.quot file_size 100)).
  assert (H1 : one_percent <> 0).
  { subst one_percent. unfold u32. rewrite Z.mod_small.
    - intros Q. apply Z.quot_small_iff in Q; lia.
    - split; [apply Z.quot_pos; lia | ].
      apply Z.le_lt_trans with file_size; [ | lia].
      apply Z.quot_le_upper_bound; lia. }
  set (loop := for_range (Z.to_nat file_size) 0 tt _).
  cbv beta iota delta [bind Loader.call Loader.printf emit].
  rewrite app_nil_r.
  match goal with
  | |- context [Host.init_read_mode false chip ?h'] =>
      destruct (init_read_mode_unsafe chip h') as (ti & Ei & Si); rewrite Ei
  end.
  cbn [truthy Z.eqb negb ret].
  match goal with
  | |- context [loop ?h'] =>
      destruct (compare_loop_unsafe chip (store garbage 0 file) one_percent
                  (Z.to_nat file_size) 0 h')
        as (groups & x & t & E & F & Sg & D); [lia | lia | exact H1 | ];
      assert (E' : loop h' = (x, t)) by exact E;
      rewrite E'
  end.
  assert (G : forall T, Host.samples (Loader.lower T) = concat groups ->
                Host.bytes_read (Loader.lower T)
                = map Host.byte_of_samples groups).
  { intros T ST. unfold Host.bytes_read. rewrite ST.
    apply bytes_of_groups; [exact F | ].
    rewrite length_concat_groups by exact F. lia. }
  cbn [Z.to_nat Nat.add] in D.
  destruct D as [(-> & Lg & A) | (-> & k & Hk & Lg & A & B & I)].
  - left. cbv beta iota delta [Loader.printf emit ret]. cbn [fst snd].
    split; [reflexivity | ].
    rewrite G.
    2:{ lower_simpl. rewrite !samples_app, Si, Sg. cbn [Host.samples app].
        apply app_nil_r. }
    apply nth_ext with (d := 0) (d' := 0).
    + rewrite length_map. lia.
    + rewrite length_map. intros j Hj.
      rewrite A by lia. apply nth_store_contents. lia.
  - right. cbv beta iota delta [ret]. cbn [fst snd].
    split; [reflexivity | ].
    rewrite G.
    2:{ lower_simpl. rewrite !samples_app, Si, Sg. cbn [Host.samples app].
        reflexivity. }
    exists k. split; [lia | ].
    split; [rewrite length_map; exact Lg | ].
    split; [ | split].
    + apply nth_ext with (d := 0) (d' := 0).
      * rewrite !length_firstn, length_map. lia.
      * rewrite length_firstn, length_map. intros j Hj.
        rewrite !nth_firstn.
        destruct (Nat.ltb_spec j k) as [Lt | Ge]; [ | lia].
        rewrite A by lia. apply nth_store_contents. lia.
    + rewrite <- (nth_store_contents garbage file k) by lia. exact B.
    + cbn [app]. rewrite ?app_nil_r. right. apply in_or_app. right. exact I.
Qed.

Lemma compare_bios_finds_the_first_difference_witness :
  let run := Loader.compare_bios false false Host.absent Host.timing_out
               Host.no_bytes Host.writable true 100 (repeat 0x5a 100) 1
               Host.blank Host.blank [] in
  let got := Host.bytes_read (Loader.lower (snd run)) in
  let file := Loader.contents 100 (repeat 0x5a 100) in
  fst run = Some (Loader.Returned 0) /\ got = file \/
  fst run = Some (Loader.Returned 1) /\
  exists k, (k < length file)%nat /\ length got = S k /\
    firstn k got = firstn k file /\
    nth k got 0 <> nth k file 0 /\
    In (Loader.Eprintf (Loader.MsgDifferenceAt (Z.of_nat k))) (snd run).
Proof.
  apply (compare_bios_finds_the_first_difference Host.absent Host.timing_out
           Host.no_bytes Host.writable true 100 (repeat 0x5a 100) 1
           Host.blank Host.blank []).
  - split; [reflexivity | ]. split; [unfold Host.BIOS_SIZE; lia | ].
    rewrite repeat_length. vm_compute. lia.
  - lia.
Defined.


(** X13: over the parallel port [compare_bios] never finds a file of fewer
    than 100 bytes identical to the chip.  [one_percent] is 0 for such a
    file: the first round of the loop returns 1 when the chip could not be
    read or its first byte differs, and otherwise evaluates
    [i % one_percent], a division by zero. *)
Theorem compare_bios_small_file :
  forall (safe_mode : bool) (chip sel : Host.trace -> Z)
         (incoming : Host.trace -> option (list Z)) (wr_ok : Host.trace -> bool)
         (file_opens : bool) (file_size : Z) (file_data : list Z)
         (fuel : nat) (garbage garbage_actual : list Z) (h : Loader.trace),
    Loader.readable file_opens file_size file_data ->
    file_size < 100 ->
    let run := Loader.compare_bios safe_mode false chip sel incoming wr_ok
                 file_opens file_size file_data fuel garbage garbage_actual
                 h in
    fst run = Some (Loader.Returned 1) \/ fst run = Some Loader.DividedByZero.
Proof.
  intros safe_mode chip sel incoming wr_ok file_opens file_size file_data
    fuel garbage garbage_actual h R H100 run. subst run.
  pose proof R as (Ho & Hs & Hl). unfold Host.BIOS_SIZE in Hs.
  unfold Loader.compare_bios.
  rewrite run_bind, (load_readable _ _ _ garbage h R).
  cbn [fst snd]. cbv zeta.
  destruct (Z.leb_spec file_size 0) as [C | _]; [lia | ].
  assert (H0 : u32 (Z.quot file_size 100) = 0).
  { rewrite Z.quot_small by lia. reflexivity. }
  rewrite H0.
  destruct (Z.to_nat file_size) as [ | n] eqn:En; [lia | ].
  unfold for_range. cbn [for_step].
  cbv beta iota delta [bind Loader.call Loader.printf Loader.eprintf emit].
  rewrite app_nil_r.
  destruct (Host.init_read_mode safe_mode chip _) as [ri ti].
  destruct (truthy ri).
  { left. reflexivity. }
  cbn [ret].
  destruct (Host.read_byte safe_mode chip 0 _) as [[r b] tr].
  cbn [fst snd].
  destruct (truthy r); [left; reflexivity | ].
  destruct (negb (b =? _)); [left; reflexivity | ].
  cbn [Z.eqb ret]. right. reflexivity.
Qed.

Lemma compare_bios_small_file_witness :
  let run := Loader.compare_bios false false Host.absent Host.timing_out
               Host.no_bytes Host.writable true 3 [1; 2; 3] 1 Host.blank
               Host.blank [] in
  fst run = Some (Loader.Returned 1) \/ fst run = Some Loader.DividedByZero.
Proof.
  apply (compare_bios_small_file false Host.absent Host.timing_out
           Host.no_bytes Host.writable true 3 [1; 2; 3] 1 Host.blank
           Host.blank []).
  - split; [reflexivity | ]. split; [unfold Host.BIOS_SIZE; lia | ].
    vm_compute. lia.
  - lia.
Defined.

(** ** The command line *)

Section Options.

Import Ascii.

Variable strtoul : String.string -> Z * bool.

Lemma usage_exit_run {A : Type} (code : Z) (h : Loader.trace) :
  Loader.usage_exit (A := A) code h = (inr code, [Loader.Printf Loader.MsgUsage]).
Proof. reflexivity. Qed.

Lemma set_operation_run (o : Loader.operation) (file : String.string)
    (cfg : Loader.config) (h : Loader.trace) :
  match fst (Loader.set_operation o file cfg h) with
  | inl cfg' =>
      Loader.op cfg = Loader.OP_UNSET /\
      cfg' = Loader.set_file_path file (Loader.set_op o cfg) /\
      snd (Loader.set_operation o file cfg h) = []
  | inr code => code = Loader.EXIT_FAILURE
  end.
Proof.
  unfold Loader.set_operation.
  destruct (Loader.op cfg) eqn:Eo; cbn [Loader.operation_eqb negb];
    try reflexivity.
  cbv zeta. destruct (256 <=? String.length file)%nat; [reflexivity | ].
  cbn. repeat split.
Qed.

Lemma process_option_run (opt : ascii) (optarg : String.string)
    (cfg : Loader.config) (h : Loader.trace) :
  match fst (Loader.process_option strtoul opt optarg cfg h) with
  | inl cfg' =>
      snd (Loader.process_option strtoul opt optarg cfg h) = [] /\
      Ascii.eqb opt "h" = false /\
      Loader.safe_mode cfg'
      = Loader.safe_mode cfg && negb (Ascii.eqb opt "u") /\
      match Loader.operation_of opt with
      | Loader.OP_UNSET =>
          Loader.op cfg' = Loader.op cfg /\
          Loader.file_path cfg' = Loader.file_path cfg
      | o =>
          Loader.op cfg = Loader.OP_UNSET /\
          Loader.op cfg' = o /\ Loader.file_path cfg' = optarg
      end
  | inr code =>
      code = Loader.EXIT_FAILURE \/
      code = Loader.EXIT_SUCCESS /\ Ascii.eqb opt "h" = true
  end.
Proof.
  unfold Loader.process_option, Loader.operation_of.
  destruct (Ascii.eqb_spec opt "u") as [-> | Nu].
  { cbn. rewrite andb_false_r. repeat split. }
  destruct (Ascii.eqb_spec opt "p") as [-> | Np].
  { destruct (strtoul optarg) as [val at_end].
    destruct (negb at_end || (val =? 0) || (val >? 65535)).
    - cbn. left. reflexivity.
    - cbn. rewrite andb_true_r. repeat split. }
  destruct (Ascii.eqb_spec opt "s") as [-> | Ns].
  { cbn. rewrite andb_true_r. repeat split. }
  destruct (Ascii.eqb_spec opt "r") as [-> | Nr].
  { pose proof (set_operation_run Loader.OP_READ optarg cfg h) as S.
    destruct (fst (Loader.set_operation Loader.OP_READ optarg cfg h));
      [ | left; exact S].
    destruct S as (S1 & -> & S3). cbn. rewrite andb_true_r. repeat split; assumption. }
  destruct (Ascii.eqb_spec opt "w") as [-> | Nw].
  { pose proof (set_operation_run Loader.OP_WRITE optarg cfg h) as S.
    destruct (fst (Loader.set_operation Loader.OP_WRITE optarg cfg h));
      [ | left; exact S].
    destruct S as (S1 & -> & S3). cbn. rewrite andb_true_r. repeat split; assumption. }
  destruct (Ascii.eqb_spec opt "c") as [-> | Nc].
  { pose proof (set_operation_run Loader.OP_COMPARE optarg cfg h) as S.
    destruct (fst (Loader.set_operation Loader.OP_COMPARE optarg cfg h));
      [ | left; exact S].
    destruct S as (S1 & -> & S3). cbn. rewrite andb_true_r. repeat split; assumption. }
  destruct (Ascii.eqb_spec opt "h") as [-> | Nh].
  { cbn. right. split; reflexivity. }
  cbn. left. reflexivity.
Qed.

Lemma process_options_run (opts : list (ascii * String.string)) :
  forall (cfg : Loader.config) (h : Loader.trace),
    match fst (Loader.process_options strtoul opts cfg h) with
    | inl cfg' =>
        snd (Loader.process_options strtoul opts cfg h) = [] /\
        Loader.given "h" opts = false /\
        Loader.safe_mode cfg'
        = Loader.safe_mode cfg && negb (Loader.given "u" opts) /\
        (Loader.operations opts = [] /\
         Loader.op cfg' = Loader.op cfg /\
         Loader.file_path cfg' = Loader.file_path cfg
         \/
         Loader.op cfg = Loader.OP_UNSET /\
         Loader.op cfg' <> Loader.OP_UNSET /\
         Loader.operations opts = [(Loader.op cfg', Loader.file_path cfg')])
    | inr code =>
        code = Loader.EXIT_FAILURE \/
        code = Loader.EXIT_SUCCESS /\ Loader.given "h" opts = true
    end.
Proof.
  induction opts as [ | [opt optarg] opts IH]; intros cfg h.
  - cbn. rewrite andb_true_r. repeat split. left. repeat split.
  - cbn [Loader.process_options]. rewrite run_bind.
    pose proof (process_option_run opt optarg cfg h) as P.
    destruct (fst (Loader.process_option strtoul opt optarg cfg h))
      as [cfg1 | code].
    + destruct P as (T1 & Hh & Su & O). rewrite T1, app_nil_r.
      specialize (IH cfg1 h). cbn [app].
      destruct (fst (Loader.process_options strtoul opts cfg1 h))
        as [cfg2 | code].
      * destruct IH as (T2 & Hh2 & Su2 & O2).
        split; [exact T2 | ].
        split; [cbn [Loader.given existsb fst]; rewrite Hh; exact Hh2 | ].
        split.
        { rewrite Su2, Su. cbn [Loader.given existsb fst].
          rewrite negb_orb, andb_assoc. reflexivity. }
        cbn [Loader.operations].
        destruct (Loader.operation_of opt) eqn:Eo.
        -- destruct O as (O1 & O1').
           destruct O2 as [(A & B & C) | (A & B & C)].
           ++ left. split; [exact A | ]. split; congruence.
           ++ right. split; [congruence | ]. split; assumption.
        -- destruct O as (O1 & O1' & O1'').
           destruct O2 as [(A & B & C) | (A & B & C)]; [ | congruence].
           right. split; [exact O1 | ]. split; [congruence | ].
           rewrite A, B, C, O1', O1''. reflexivity.
        -- destruct O as (O1 & O1' & O1'').
           destruct O2 as [(A & B & C) | (A & B & C)]; [ | congruence].
           right. split; [exact O1 | ]. split; [congruence | ].
           rewrite A, B, C, O1', O1''. reflexivity.
        -- destruct O as (O1 & O1' & O1'').
           destruct O2 as [(A & B & C) | (A & B & C)]; [ | congruence].
           right. split; [exact O1 | ]. split; [congruence | ].
           rewrite A, B, C, O1', O1''. reflexivity.
      * destruct IH as [IH | [IH1 IH2]]; [left; exact IH | ].
        right. split; [exact IH1 | ].
        cbn [Loader.given existsb fst]. rewrite Hh. exact IH2.
    + cbn [ret fst]. destruct P as [P | [P1 P2]]; [left; exact P | ].
      right. split; [exact P1 | ].
      cbn [Loader.given existsb fst]. rewrite P2. reflexivity.
Qed.

Lemma process_option_quiet (opt : ascii) (optarg : String.string)
    (cfg : Loader.config) (h : Loader.trace) :
  Loader.lower (snd (Loader.process_option strtoul opt optarg cfg h)) = [].
Proof.
  unfold Loader.process_option, Loader.set_operation.
  repeat match goal with
         | |- context [if ?c then _ else _] => destruct c
         | |- context [let (_, _) := ?x in _] => destruct x
         end; reflexivity.
Qed.

Lemma process_options_quiet (opts : list (ascii * String.string)) :
  forall (cfg : Loader.config) (h : Loader.trace),
    Loader.lower (snd (Loader.process_options strtoul opts cfg h)) = [].
Proof.
  induction opts as [ | [opt optarg] opts IH]; intros cfg h; [reflexivity | ].
  cbn [Loader.process_options]. rewrite run_bind. cbn [snd].
  rewrite lower_app, process_option_quiet.
  destruct (fst _); [apply IH | reflexivity].
Qed.

Lemma process_config_quiet (opts : list (ascii * String.string))
    (cfg : Loader.config) (h : Loader.trace) :
  Loader.lower (snd (Loader.process_config strtoul opts cfg h)) = [].
Proof.
  unfold Loader.process_config. rewrite run_bind. cbn [snd].
  rewrite lower_app, process_options_quiet.
  destruct (fst _) as [cfg' | code]; [ | reflexivity].
  destruct (Loader.operation_eqb _ _); reflexivity.
Qed.

Lemma process_config_run (opts : list (ascii * String.string))
    (h : Loader.trace) :
  match fst (Loader.process_config strtoul opts Loader.g_cfg h) with
  | inl cfg =>
      Loader.operations opts = [(Loader.op cfg, Loader.file_path cfg)] /\
      Loader.op cfg <> Loader.OP_UNSET /\
      Loader.safe_mode cfg = negb (Loader.given "u" opts) /\
      Loader.given "h" opts = false /\
      snd (Loader.process_config strtoul opts Loader.g_cfg h) = []
  | inr code =>
      code = Loader.EXIT_FAILURE \/
      code = Loader.EXIT_SUCCESS /\ Loader.given "h" opts = true
  end.
Proof.
  unfold Loader.process_config. rewrite run_bind.
  pose proof (process_options_run opts Loader.g_cfg h) as P.
  destruct (fst (Loader.process_options strtoul opts Loader.g_cfg h))
    as [cfg | code].
  - destruct P as (T & Hh & Su & O). rewrite T. cbn [app].
    destruct (Loader.op cfg) eqn:Eo; cbn [Loader.operation_eqb ret fst snd].
    + rewrite usage_exit_run. left. reflexivity.
    + destruct O as [(A & B & C) | (A & B & C)]; [cbn in B; congruence | ].
      repeat split; try assumption; congruence.
    + destruct O as [(A & B & C) | (A & B & C)]; [cbn in B; congruence | ].
      repeat split; try assumption; congruence.
    + destruct O as [(A & B & C) | (A & B & C)]; [cbn in B; congruence | ].
      repeat split; try assumption; congruence.
  - cbn [ret fst]. exact P.
Qed.

End Options.

Section OptionsOfACommandLine.

Import Ascii.

(** X14: [process_config] accepts a command line only when it asks for
    exactly one operation: the configuration it returns holds that
    operation and its file, safe mode is on unless [-u] was given, and
    nothing was printed.  In every other case the program exits, with
    [EXIT_SUCCESS] only when [-h] was given and with [EXIT_FAILURE]
    otherwise. *)
Theorem process_config_wants_one_operation :
  forall (strtoul : String.string -> Z * bool)
         (opts : list (Ascii.ascii * String.string)) (h : Loader.trace),
    let run := Loader.process_config strtoul opts Loader.g_cfg h in
    match fst run with
    | inl cfg =>
        Loader.operations opts = [(Loader.op cfg, Loader.file_path cfg)] /\
        Loader.op cfg <> Loader.OP_UNSET /\
        Loader.safe_mode cfg = negb (Loader.given "u" opts) /\
        Loader.given "h" opts = false /\
        snd run = []
    | inr code =>
        code = Loader.EXIT_FAILURE \/
        code = Loader.EXIT_SUCCESS /\ Loader.given "h" opts = true
    end.
Proof.
  intros strtoul opts h run. subst run.
  exact (process_config_run strtoul opts h).
Qed.

End OptionsOfACommandLine.

(** ** Opening the serial device *)

Section SerialInit.

Variable sel : Host.trace -> Z.
Variable wr_ok : Host.trace -> bool.
Variable open_fd tcgetattr_r cfsetspeed_r tcsetattr_r : Loader.trace -> Z.

Hypothesis writes : forall h, wr_ok h = true.
Hypothesis opened : forall h, open_fd h <> -1.
Hypothesis attributes : forall h, tcgetattr_r h <> -1.
Hypothesis speed : forall h, cfsetspeed_r h <> -1.
Hypothesis configured : forall h, tcsetattr_r h = 0.

Lemma serial_try_init_run (first_run : bool) (h : Loader.trace) :
  let s := sel (Loader.lower h ++ [Host.Tx [0x40]]) in
  let run := Loader.serial_try_init sel wr_ok open_fd tcgetattr_r
               cfsetspeed_r tcsetattr_r first_run h in
  fst (fst run) = (if s =? -1 then 1 else if s =? 0 then 2 else 0) /\
  snd (fst run) <> -1 /\
  Loader.opens (snd run) = 1%nat /\
  Loader.lower (snd run)
  = [Host.Tx [0x40]; Host.Select Host.cfg_timeout s]
    ++ (if s =? -1 then [Host.Eprintf Host.MsgSelectError]
        else if (s =? 0) && negb first_run
             then [Host.Eprintf Host.MsgTimedOut] else []).
Proof.
  intros s run. subst run.
  unfold Loader.serial_try_init, Loader.open, Loader.tcgetattr,
    Loader.cfsetspeed, Loader.tcsetattr, Loader.tcflush, Loader.close.
  cbv beta iota zeta delta [bind Loader.call Loader.eprintf Loader.printf emit].
  destruct (Z.eqb_spec (open_fd h) (-1)) as [C | _]; [apply opened in C; tauto | ].
  destruct (Z.eqb_spec (tcgetattr_r (h ++ [Loader.Open (open_fd h)])) (-1))
    as [C | _]; [apply attributes in C; tauto | ].
  match goal with
  | |- context [cfsetspeed_r ?h' =? -1] =>
      destruct (Z.eqb_spec (cfsetspeed_r h') (-1)) as [C | _];
        [apply speed in C; tauto | ]
  end.
  rewrite configured. cbn [Z.eqb negb].
  rewrite (write_run wr_ok _ _ (writes _)).
  lower_simpl.
  unfold Host.serial_wait_data, Host.select.
  cbv beta iota zeta delta [bind ret Host.eprintf emit].
  rewrite ?app_nil_r. fold s.
  destruct (Z.eqb_spec s (-1)) as [Q1 | Q1].
  { cbn [Z.eqb negb fst snd Z.opp]. split; [reflexivity | ].
    split; [apply opened | ]. split; reflexivity. }
  destruct (Z.eqb_spec s 0) as [Q0 | Q0].
  - destruct first_run; cbn [negb Z.eqb fst snd Z.opp andb].
    + split; [reflexivity | ]. split; [apply opened | ]. split; reflexivity.
    + split; [reflexivity | ]. split; [apply opened | ]. split; reflexivity.
  - cbn [negb Z.eqb fst snd Z.opp andb].
    split; [reflexivity | ]. split; [apply opened | ]. split; reflexivity.
Qed.

End SerialInit.

Lemma opens_app (a b : Loader.trace) : Loader.opens (a ++ b) = (Loader.opens a + Loader.opens b)%nat.
Proof. unfold Loader.opens. rewrite filter_app, length_app. reflexivity. Qed.

(** X15: [serial_init] pings the bridge once, and a second time only when
    the first ping was not answered within the timeout: that first timeout
    prints nothing, the program sleeps one second, opens the device again
    and pings again.  It returns 0 when a ping is answered, 1 when [select]
    fails and 2 when the second ping times out as well, which is then
    reported. *)
Theorem serial_init_retries_once :
  forall (sel : Host.trace -> Z) (wr_ok : Host.trace -> bool)
         (open_fd tcgetattr_r cfsetspeed_r tcsetattr_r : Loader.trace -> Z)
         (h : Loader.trace),
    (forall h', wr_ok h' = true) ->
    (forall h', open_fd h' <> -1) ->
    (forall h', tcgetattr_r h' <> -1) ->
    (forall h', cfsetspeed_r h' <> -1) ->
    (forall h', tcsetattr_r h' = 0) ->
    let s1 := sel (Loader.lower h ++ [Host.Tx [0x40]]) in
    let s2 := sel (Loader.lower h
                   ++ [Host.Tx [0x40]; Host.Select Host.cfg_timeout s1;
                       Host.Usleep 1000000; Host.Tx [0x40]]) in
    let run := Loader.serial_init sel wr_ok open_fd tcgetattr_r cfsetspeed_r
                 tcsetattr_r h in
    if s1 =? 0 then
      Loader.opens (snd run) = 2%nat /\
      fst (fst run) = (if s2 =? -1 then 1 else if s2 =? 0 then 2 else 0) /\
      Loader.lower (snd run)
      = [Host.Tx [0x40]; Host.Select Host.cfg_timeout s1;
         Host.Usleep 1000000;
         Host.Tx [0x40]; Host.Select Host.cfg_timeout s2]
        ++ (if s2 =? -1 then [Host.Eprintf Host.MsgSelectError]
            else if s2 =? 0 then [Host.Eprintf Host.MsgTimedOut] else [])
    else
      Loader.opens (snd run) = 1%nat /\
      fst (fst run) = (if s1 =? -1 then 1 else 0) /\
      Loader.lower (snd run)
      = [Host.Tx [0x40]; Host.Select Host.cfg_timeout s1]
        ++ (if s1 =? -1 then [Host.Eprintf Host.MsgSelectError] else []).
Proof.
  intros sel wr_ok open_fd tcgetattr_r cfsetspeed_r tcsetattr_r h
    Hw Ho Ha Hs Hc s1 s2 run. subst run.
  unfold Loader.serial_init. rewrite run_bind. cbn [Loader.printf emit fst snd].
  rewrite run_bind.
  destruct (serial_try_init_run sel wr_ok open_fd tcgetattr_r cfsetspeed_r
              tcsetattr_r Hw Ho Ha Hs Hc true
              (h ++ [Loader.Printf Loader.MsgInitializing]))
    as (R1 & F1 & O1 & L1).
  rewrite lower_app in R1, L1. cbn [Loader.lower] in R1, L1.
  rewrite app_nil_r in R1, L1. fold s1 in R1, L1.
  cbv zeta.
  destruct (Z.eqb_spec s1 0) as [Q0 | Q0].
  - assert (E1 : (s1 =? -1) = false) by (apply Z.eqb_neq; lia).
    assert (E0 : (s1 =? 0) = true) by (apply Z.eqb_eq; exact Q0).
    rewrite ?E1, ?E0 in R1, L1. rewrite R1.
    cbn [Z.eqb Pos.eqb orb andb negb] in *.
    rewrite run_bind, call_run. cbn [Host.usleep emit fst snd map].
    match goal with
    | |- context [Loader.serial_try_init _ _ _ _ _ _ false ?h'] =>
        destruct (serial_try_init_run sel wr_ok open_fd tcgetattr_r
                    cfsetspeed_r tcsetattr_r Hw Ho Ha Hs Hc false h')
          as (R2 & F2 & O2 & L2);
        assert (S2 : Loader.lower h' ++ [Host.Tx [0x40]]
                     = Loader.lower h
                       ++ [Host.Tx [0x40]; Host.Select Host.cfg_timeout s1;
                           Host.Usleep 1000000; Host.Tx [0x40]])
    end.
    { rewrite !lower_app, L1. cbn [Loader.lower app].
      rewrite <- !app_assoc. reflexivity. }
    rewrite S2 in R2, L2. fold s2 in R2, L2.
    split; [ | split].
    + rewrite !opens_app, O1, O2. reflexivity.
    + exact R2.
    + rewrite !lower_app, L1, L2. cbn [Loader.lower app andb negb].
      rewrite andb_true_r. reflexivity.
  - assert (E0 : (s1 =? 0) = false) by (apply Z.eqb_neq; exact Q0).
    rewrite ?E0 in R1, L1. cbn [andb] in L1. rewrite R1.
    assert (Y : ((if s1 =? -1 then 1 else 0) =? 0)
                || ((if s1 =? -1 then 1 else 0) =? 1) = true)
      by (destruct (s1 =? -1); reflexivity).
    rewrite Y. cbn [ret fst snd app]. rewrite app_nil_r.
    split; [exact O1 | ]. split; [exact R1 | ].
    cbn [Loader.lower]. rewrite L1. reflexivity.
Qed.

Lemma serial_init_retries_once_witness :
  let s1 := Host.timing_out (Loader.lower [] ++ [Host.Tx [0x40]]) in
  let s2 := Host.timing_out
              (Loader.lower []
               ++ [Host.Tx [0x40]; Host.Select Host.cfg_timeout s1;
                   Host.Usleep 1000000; Host.Tx [0x40]]) in
  let run := Loader.serial_init Host.timing_out Host.writable (fun _ => 3)
               (fun _ => 0) (fun _ => 0) (fun _ => 0) [] in
  if s1 =? 0 then
    Loader.opens (snd run) = 2%nat /\
    fst (fst run) = (if s2 =? -1 then 1 else if s2 =? 0 then 2 else 0) /\
    Loader.lower (snd run)
    = [Host.Tx [0x40]; Host.Select Host.cfg_timeout s1;
       Host.Usleep 1000000;
       Host.Tx [0x40]; Host.Select Host.cfg_timeout s2]
      ++ (if s2 =? -1 then [Host.Eprintf Host.MsgSelectError]
          else if s2 =? 0 then [Host.Eprintf Host.MsgTimedOut] else [])
  else
    Loader.opens (snd run) = 1%nat /\
    fst (fst run) = (if s1 =? -1 then 1 else 0) /\
    Loader.lower (snd run)
    = [Host.Tx [0x40]; Host.Select Host.cfg_timeout s1]
      ++ (if s1 =? -1 then [Host.Eprintf Host.MsgSelectError] else []).
Proof.
  apply (serial_init_retries_once Host.timing_out Host.writable (fun _ => 3)
           (fun _ => 0) (fun _ => 0) (fun _ => 0) []).
  - reflexivity.
  - intros h'. lia.
  - intros h'. lia.
  - intros h'. lia.
  - reflexivity.
Defined.

(** ** The start of the program *)

Section NoChip.

Variable chip : Host.trace -> Z.
Hypothesis silent : forall h, Host.err_high (u8 (chip h)) = false.

Lemma outp_unanswered (d : Z) (h : Host.trace) :
  exists t,
    Host.outp true chip d h = (1, t) /\
    Host.pentads t = [Host.pentad_of d].
Proof.
  assert (Hc : forall h', (Z.land (u8 (chip h')) Host.MASK_CHIP_ERR =? 0) = true).
  { intros h'. specialize (silent h'). unfold Host.err_high in silent.
    apply negb_false_iff in silent. exact silent. }
  destruct (outp_run true chip d h) as (b & t & E & Em & _ & _).
  exists t. split.
  - rewrite E. f_equal.
    assert (F : fst (Host.outp true chip d h) = 1).
    { unfold Host.outp, Host.checked. cbv zeta.
      cbv beta iota delta [bind Host._outb emit].
      cbv [Host.safe_mode_check for_range for_step Host.MAX_TRIES bind ret
           Host._inb Host.usleep emit].
      repeat (rewrite !Hc; cbn [andb orb negb app fst snd]).
      reflexivity. }
    rewrite E in F. exact F.
  - rewrite <- emissions_pentads, Em. reflexivity.
Qed.

End NoChip.

Section Quiet.

Variable sel : Host.trace -> Z.
Variable wr_ok : Host.trace -> bool.
Variable open_fd tcgetattr_r cfsetspeed_r tcsetattr_r : Loader.trace -> Z.

Lemma serial_wait_data_run (timeout : option Z) (silent : bool) (h : Host.trace) :
  exists t,
    Host.serial_wait_data sel timeout silent h
    = ((if sel h =? -1 then -1 else if sel h =? 0 then -2 else 0), t) /\
    Host.pentads t = [] /\
    (In (Host.Eprintf Host.MsgTimedOut) t <-> sel h = 0 /\ silent = false).
Proof.
  unfold Host.serial_wait_data, Host.select.
  cbv beta iota zeta delta [bind ret Host.eprintf emit].
  destruct (Z.eqb_spec (sel h) (-1)) as [Q1 | Q1].
  { eexists. split; [reflexivity | ]. split; [reflexivity | ].
    cbn. split; [intros [X | [X | []]]; discriminate | intros [X _]; lia]. }
  destruct (Z.eqb_spec (sel h) 0) as [Q0 | Q0].
  - destruct silent; cbn [negb].
    + eexists. split; [reflexivity | ]. split; [reflexivity | ].
      cbn. split; [intros [X | []]; discriminate | intros [_ X]; discriminate].
    + eexists. split; [reflexivity | ]. split; [reflexivity | ].
      cbn. split; [intros _; split; [exact Q0 | reflexivity] | ].
      intros _. right. left. reflexivity.
  - eexists. split; [reflexivity | ]. split; [reflexivity | ].
    cbn. split; [intros [X | []]; discriminate | intros [X _]; contradiction].
Qed.

Lemma serial_try_init_quiet (first_run : bool) (h : Loader.trace) :
  Host.pentads
    (Loader.lower
       (snd (Loader.serial_try_init sel wr_ok open_fd tcgetattr_r
               cfsetspeed_r tcsetattr_r first_run h))) = [].
Proof.
  unfold Loader.serial_try_init, Loader.open, Loader.tcgetattr,
    Loader.cfsetspeed, Loader.tcsetattr, Loader.tcflush, Loader.close.
  cbv beta iota zeta delta [bind Loader.call Loader.eprintf Loader.printf emit].
  destruct (_ =? -1); [reflexivity | ].
  destruct (_ =? -1); [reflexivity | ].
  destruct (_ =? -1); [reflexivity | ].
  destruct (negb _); [reflexivity | ].
  destruct (Host.write wr_ok _ _) as [w tw] eqn:Ew.
  assert (Pw : Host.pentads tw = []).
  { unfold Host.write in Ew. destruct (wr_ok _); injection Ew as _ <-; reflexivity. }
  match goal with
  | |- context [Host.serial_wait_data sel None first_run ?h'] =>
      destruct (serial_wait_data_run None first_run h') as (t & E & Pt & _);
      rewrite E
  end.
  destruct (negb _); cbn [ret fst snd]; lower_simpl;
    rewrite ?pentads_app, Pw, Pt; reflexivity.
Qed.

Lemma serial_init_quiet (h : Loader.trace) :
  Host.pentads
    (Loader.lower
       (snd (Loader.serial_init sel wr_ok open_fd tcgetattr_r
               cfsetspeed_r tcsetattr_r h))) = [].
Proof.
  unfold Loader.serial_init.
  cbv beta iota zeta delta [bind Loader.call Loader.printf Host.usleep emit].
  pose proof (serial_try_init_quiet true
                (h ++ [Loader.Printf Loader.MsgInitializing])) as Q1.
  destruct (Loader.serial_try_init _ _ _ _ _ _ true _) as [[r fd] t1].
  cbn [fst snd] in *.
  destruct (_ || _).
  { cbn [ret fst snd]. lower_simpl. exact Q1. }
  destruct (r =? 2); [ | cbn [ret fst snd]; lower_simpl; exact Q1].
  match goal with
  | |- context [Loader.serial_try_init _ _ _ _ _ _ false ?h'] =>
      pose proof (serial_try_init_quiet false h') as Q2;
      destruct (Loader.serial_try_init sel wr_ok open_fd tcgetattr_r
                  cfsetspeed_r tcsetattr_r false h') as [[r2 fd2] t2]
  end.
  cbn [fst snd map] in *. lower_simpl.
  rewrite pentads_app. cbn [Host.pentads]. rewrite Q1, Q2. reflexivity.
Qed.

End Quiet.

Section MainWithoutChip.

Import Ascii.

(** X16: with safe mode on and a chip that never raises the acknowledgment
    line, [main] runs no operation, whatever the options and the
    transport: either it ends before it addresses the chip, or it presents
    the reset pentad and the first pentad of the chip initialization, gets
    no answer, reports that no Viper GC was found and returns
    [EXIT_FAILURE].  It ends with [EXIT_SUCCESS] only for [-h]. *)
Theorem main_without_chip :
  forall (chip sel : Host.trace -> Z) (incoming : Host.trace -> option (list Z))
         (wr_ok fopen_ok : Host.trace -> bool)
         (file_opens : bool) (file_size : Z) (file_data : list Z)
         (ioperm_r open_fd tcgetattr_r cfsetspeed_r tcsetattr_r
            : Loader.trace -> Z)
         (strtoul : String.string -> Z * bool)
         (opts : list (ascii * String.string)) (fuel : nat) (c2 : Z)
         (garbage garbage_expect garbage_actual : list Z),
    (forall h, Host.err_high (u8 (chip h)) = false) ->
    Loader.given "u" opts = false ->
    let run := Loader.main chip sel incoming wr_ok fopen_ok file_opens
                 file_size file_data ioperm_r open_fd tcgetattr_r
                 cfsetspeed_r tcsetattr_r strtoul opts fuel c2 garbage
                 garbage_expect garbage_actual [] in
    (fst run = Some (Loader.Returned Loader.EXIT_FAILURE) \/
     fst run = Some (Loader.Returned Loader.EXIT_SUCCESS) /\
     Loader.given "h" opts = true) /\
    (Host.pentads (Loader.lower (snd run)) = [] \/
     Host.pentads (Loader.lower (snd run)) = [0x00; 0x1f] /\
     fst run = Some (Loader.Returned Loader.EXIT_FAILURE) /\
     In (Loader.Eprintf Loader.MsgNotFound) (snd run)).
Proof.
  intros chip sel incoming wr_ok fopen_ok file_opens file_size file_data
    ioperm_r open_fd tcgetattr_r cfsetspeed_r tcsetattr_r strtoul opts fuel
    c2 garbage garbage_expect garbage_actual Hchip Hu run. subst run.
  unfold Loader.main.
  rewrite run_bind.
  pose proof (process_config_run strtoul opts []) as P.
  pose proof (process_config_quiet strtoul opts Loader.g_cfg []) as Q.
  destruct (Loader.process_config strtoul opts Loader.g_cfg [])
    as [[cfg | code] t0]; cbn [fst snd] in P, Q |- *.
  2:{ rewrite app_nil_r, Q. split; [ | left; reflexivity].
      destruct P as [-> | [-> P]]; [left; reflexivity | ].
      right. split; [reflexivity | exact P]. }
  destruct P as (_ & _ & Sm & _ & ->). rewrite Hu in Sm. cbn [negb] in Sm.
  rewrite Sm. cbv zeta. cbn [app].
  set (dev := match Loader.serial_dev cfg with
              | String.EmptyString => false
              | String.String _ _ => true
              end).
  match goal with
  | |- context [bind (if negb dev then ?a else ?b) ?k] =>
      set (transport := if negb dev then a else b); set (rest := k)
  end.
  assert (T : forall h0,
             Host.pentads (Loader.lower (snd (transport h0))) = [] /\
             match fst (transport h0) with
             | inr code => code = Loader.EXIT_FAILURE
             | inl _ => True
             end).
  { intros h0. subst transport.
    destruct (negb dev).
    - unfold Loader.ioperm, Loader.eprintf, emit.
      cbv beta iota delta [bind].
      destruct (truthy _); cbn; split; reflexivity || exact I.
    - cbv beta iota delta [bind].
      pose proof (serial_init_quiet sel wr_ok open_fd tcgetattr_r
                    cfsetspeed_r tcsetattr_r h0) as Qs.
      destruct (Loader.serial_init _ _ _ _ _ _ h0) as [[r fd] ts].
      cbn [fst snd] in *.
      destruct (truthy r); cbn [ret fst snd]; rewrite app_nil_r;
        (split; [exact Qs | ]); [reflexivity | exact I]. }
  rewrite run_bind. destruct (T []) as (PT & YT).
  destruct (transport []) as [[fd | code] ty]; cbn [fst snd] in *.
  2:{ subst code rest. cbn [ret fst snd]. rewrite app_nil_r.
      split; [left; reflexivity | left; exact PT]. }
  subst rest. cbv beta iota.
  rewrite andb_false_r.
  cbv beta iota delta [bind Loader.call].
  cbn [ret app].
  match goal with
  | |- context [Host.outp true chip Host.CMD_RESET ?h'] =>
      destruct (outp_unanswered chip Hchip Host.CMD_RESET h')
        as (tr & Er & Pr); rewrite Er
  end.
  unfold orelse. cbv beta iota delta [bind].
  match goal with
  | |- context [Host.outp true chip (nth 0 Loader.CMD_CHIP_INIT 0) ?h'] =>
      destruct (outp_unanswered chip Hchip (nth 0 Loader.CMD_CHIP_INIT 0) h')
        as (t1 & E1 & P1); rewrite E1
  end.
  cbn [truthy Z.eqb negb ret fst snd Loader.eprintf emit].
  split; [left; reflexivity | ].
  right. split; [ | split; [reflexivity | ]].
  - lower_simpl.
    rewrite !pentads_app, PT, Pr, P1. reflexivity.
  - rewrite ?app_nil_r. apply in_or_app. right.
    apply in_or_app. right. apply in_or_app. right. left. reflexivity.
Qed.

Lemma main_without_chip_witness :
  let opts := [("w"%char, String.String "f" String.EmptyString)] in
  let run := Loader.main Host.absent Host.timing_out Host.no_bytes
               Host.writable Host.creatable false 0 [] (fun _ => 0)
               (fun _ => 3) (fun _ => 0) (fun _ => 0) (fun _ => 0)
               (fun _ => (0x378, true)) opts 1 0 [] [] [] [] in
  (fst run = Some (Loader.Returned Loader.EXIT_FAILURE) \/
   fst run = Some (Loader.Returned Loader.EXIT_SUCCESS) /\
   Loader.given "h" opts = true) /\
  (Host.pentads (Loader.lower (snd run)) = [] \/
   Host.pentads (Loader.lower (snd run)) = [0x00; 0x1f] /\
   fst run = Some (Loader.Returned Loader.EXIT_FAILURE) /\
   In (Loader.Eprintf Loader.MsgNotFound) (snd run)).
Proof.
  apply (main_without_chip Host.absent Host.timing_out Host.no_bytes
           Host.writable Host.creatable false 0 [] (fun _ => 0)
           (fun _ => 3) (fun _ => 0) (fun _ => 0) (fun _ => 0)
           (fun _ => (0x378, true))
           [("w"%char, String.String "f" String.EmptyString)] 1 0 [] [] []).
  - reflexivity.
  - reflexivity.
Defined.

End MainWithoutChip.

(** ** A stream write of any length *)

Lemma refills_count (n : nat) :
  forall i, 0 <= i ->
  Z.of_nat (Firmware.refills n i)
  = (i + Z.of_nat n + 59) / 60 - (i + 59) / 60.
Proof.
  induction n as [ | n IH]; intros i Hi.
  - cbn [Firmware.refills]. rewrite Z.add_0_r. lia.
  - cbn [Firmware.refills]. rewrite Nat2Z.inj_add, IH by lia.
    replace (i + 1 + Z.of_nat n) with (i + Z.of_nat (S n)) by lia.
    destruct (Z.eqb_spec (i mod 60) 0) as [Q | Q];
      change (Z.of_nat 1) with 1; change (Z.of_nat 0) with 0;
      Z.div_mod_to_equations; lia.
Qed.

Lemma refills_chunks (n : Z) :
  0 <= n -> Firmware.refills (Z.to_nat n) 0 = Host.chunks n.
Proof.
  intros Hn. unfold Host.chunks.
  apply Nat2Z.inj. rewrite refills_count by lia.
  rewrite Z2Nat.id by lia.
  rewrite Z2Nat.id by (apply Z.div_pos; lia).
  change ((0 + 59) / 60) with 0. rewrite Z.sub_0_r. reflexivity.
Qed.

Section HostStreamWrite.

Variable data : list Z.
Variable line : list Z.

Hypothesis acks : Forall (fun b => b = 60) line.

Lemma fed_next (h : Host.trace) :
  (Host.received h < length line)%nat ->
  Host.ready line h = 1 /\
  firstn (Z.to_nat 1) (map u8 (Host.fed line h)) = [60].
Proof.
  intros H. unfold Host.ready, Host.fed.
  destruct (skipn (Host.received h) line) as [ | b rest] eqn:E.
  - apply (f_equal (@length Z)) in E. rewrite length_skipn in E.
    cbn in E. lia.
  - split; [reflexivity | ].
    assert (B : b = 60).
    { assert (I : In b line).
      { rewrite <- (firstn_skipn (Host.received h) line), E.
        apply in_or_app. right. left. reflexivity. }
      rewrite Forall_forall in acks. apply acks, I. }
    subst b. reflexivity.
Qed.

Variable data_sz : Z.
Hypothesis size : 0 <= data_sz < 4294967296 - 60.
Hypothesis data_length : length data = Z.to_nat data_sz.

#[local] Abbreviation write_round :=
  (fun (i ack : Z) =>
     let left := u32 (data_sz - i) in
     let write_sz := if left <? 60 then left else 60 in
     w <- Host.write Host.writable
            (firstn (Z.to_nat write_sz) (skipn (Z.to_nat i) data)) ;;
     if w <=? 0 then Host.eprintf Host.MsgWriteFailure ;; ret (inr 1)
     else
       (if left <? 60
        then Host.write Host.writable
               (firstn (Z.to_nat (60 - left)) (repeat 0 59)) ;;
             ret tt
        else ret tt) ;;
       w <- Host.serial_wait_data (Host.ready line) (Some 5) false ;;
       if truthy w then ret (inr 1)
       else
         x <- Host.read (Host.arriving (Host.fed line)) 1 ;;
         let r := fst x in
         let ack := nth 0 (snd x) ack in
         if negb (r =? 1) || negb (ack =? 60)
         then Host.eprintf (Host.MsgReadFailure r ack) ;; ret (inr 1)
         else Host.printf (Host.MsgWritten (i + write_sz) data_sz) ;;
              ret (inl ack)).

Lemma write_round_run (i ack : Z) (h : Host.trace) :
  0 <= i < data_sz ->
  (Host.received h < length line)%nat ->
  exists t,
    write_round i ack h = (inl 60, t) /\
    Host.wire t = firstn 60 (skipn (Z.to_nat i) data ++ repeat 0 59) /\
    Host.received t = 1%nat.
Proof.
  intros Hi Hr.
  assert (U : u32 (data_sz - i) = data_sz - i) by (apply Z.mod_small; lia).
  cbv beta zeta. rewrite U.
  assert (Ls : length (skipn (Z.to_nat i) data) = Z.to_nat (data_sz - i)).
  { rewrite length_skipn, data_length. lia. }
  cbv beta iota delta [bind].
  unfold Host.write, Host.writable.
  destruct (Z.ltb_spec (data_sz - i) 60) as [Lt | Ge].
  - rewrite firstn_all2 by lia. rewrite Ls.
    destruct (Z.leb_spec (Z.of_nat (Z.to_nat (data_sz - i))) 0) as [C | _];
      [lia | ].
    cbn [ret app].
    match goal with
    | |- context [Host.serial_wait_data (Host.ready line) (Some 5) false ?h'] =>
        assert (R : (Host.received h' < length line)%nat)
          by (rewrite !received_app; cbn [Host.received]; lia);
        destruct (fed_next h' R) as [Rd Fd];
        assert (Ew : Host.serial_wait_data (Host.ready line) (Some 5) false h'
                     = (0, [Host.Select 5 1]))
          by (unfold Host.serial_wait_data, Host.select;
              cbv beta iota zeta delta [bind ret]; rewrite Rd; reflexivity);
        rewrite Ew
    end.
    cbn [truthy Z.eqb negb].
    unfold Host.read, Host.arriving.
    match goal with
    | |- context [Host.fed line ?h'] =>
        assert (R2 : (Host.received h' < length line)%nat)
          by (rewrite !received_app; cbn [Host.received]; lia);
        destruct (fed_next h' R2) as [_ Fd2]; rewrite Fd2
    end.
    cbn [length Z.of_nat Pos.of_succ_nat Z.eqb Pos.eqb negb orb nth fst snd].
    cbv beta iota delta [Host.printf emit ret].
    eexists. split; [reflexivity | ].
    split; [ | reflexivity].
    cbn [Host.wire app]. rewrite !app_nil_r.
    rewrite firstn_app, Ls.
    rewrite (firstn_all2 (n := 60) (skipn (Z.to_nat i) data)) by lia.
    f_equal. f_equal. lia.
  - destruct (Z.leb_spec (Z.of_nat (length (firstn (Z.to_nat 60)
                                              (skipn (Z.to_nat i) data)))) 0)
      as [C | _].
    { rewrite length_firstn, Ls in C. lia. }
    cbn [ret app].
    match goal with
    | |- context [Host.serial_wait_data (Host.ready line) (Some 5) false ?h'] =>
        assert (R : (Host.received h' < length line)%nat)
          by (rewrite !received_app; cbn [Host.received]; lia);
        destruct (fed_next h' R) as [Rd Fd];
        assert (Ew : Host.serial_wait_data (Host.ready line) (Some 5) false h'
                     = (0, [Host.Select 5 1]))
          by (unfold Host.serial_wait_data, Host.select;
              cbv beta iota zeta delta [bind ret]; rewrite Rd; reflexivity);
        rewrite Ew
    end.
    cbn [truthy Z.eqb negb].
    unfold Host.read, Host.arriving.
    match goal with
    | |- context [Host.fed line ?h'] =>
        assert (R2 : (Host.received h' < length line)%nat)
          by (rewrite !received_app; cbn [Host.received]; lia);
        destruct (fed_next h' R2) as [_ Fd2]; rewrite Fd2
    end.
    cbn [length Z.of_nat Pos.of_succ_nat Z.eqb Pos.eqb negb orb nth fst snd].
    cbv beta iota delta [Host.printf emit ret].
    eexists. split; [reflexivity | ].
    split; [ | reflexivity].
    cbn [Host.wire app]. rewrite !app_nil_r.
    rewrite firstn_app, Ls.
    replace (60 - Z.to_nat (data_sz - i))%nat with O by lia.
    cbn [firstn]. rewrite app_nil_r. reflexivity.
Qed.

Lemma write_rounds_run (m : nat) :
  forall (i ack : Z) (h : Host.trace),
    0 <= i ->
    m = Z.to_nat ((data_sz - i + 59) / 60) ->
    (Host.received h + m <= length line)%nat ->
    exists ack' t,
      for_step m i 60 ack write_round h = (inl ack', t) /\
      Host.wire t
      = firstn (60 * m) (skipn (Z.to_nat i) data ++ repeat 0 59) /\
      Host.received t = m.
Proof.
  induction m as [ | m IH]; intros i ack h Hi Hm Hr.
  - exists ack, []. repeat split.
  - assert (Hlt : i < data_sz).
    { destruct (Z.ltb_spec i data_sz) as [Lt | Ge]; [exact Lt | ].
      assert ((data_sz - i + 59) / 60 <= 0)
        by (Z.div_mod_to_equations; lia).
      lia. }
    rewrite for_step_S.
    destruct (write_round_run i ack h) as (t1 & E1 & W1 & R1); [lia | lia | ].
    rewrite E1. cbv beta iota delta [fst snd].
    assert (U : u32 (i + 60) = i + 60) by (apply Z.mod_small; lia).
    rewrite U.
    destruct (IH (i + 60) 60 (h ++ t1)) as (ack' & t & E & W & R).
    + lia.
    + assert (Q : (data_sz - (i + 60) + 59) / 60 = (data_sz - i + 59) / 60 - 1)
        by (Z.div_mod_to_equations; lia).
      rewrite Q. lia.
    + rewrite received_app, R1. lia.
    + match goal with
      | |- context [for_step m (i + 60) 60 60 ?body (h ++ t1)] =>
          assert (E' : for_step m (i + 60) 60 60 body (h ++ t1)
                       = (inl ack', t)) by exact E;
          rewrite E'
      end.
      exists ack'. eexists.
      split; [reflexivity | ].
      split; [ | rewrite received_app, R1, R; reflexivity].
      rewrite wire_app, W1, W.
      replace (60 * S m)%nat with (60 + 60 * m)%nat by lia.
      set (L := skipn (Z.to_nat i) data).
      assert (Ls : length L = Z.to_nat (data_sz - i)).
      { subst L. rewrite length_skipn, data_length. lia. }
      rewrite <- (firstn_skipn 60 (firstn (60 + 60 * m) (L ++ repeat 0 59))).
      rewrite firstn_firstn, Nat.min_l by lia.
      f_equal.
      rewrite skipn_firstn_comm.
      replace (60 + 60 * m - 60)%nat with (60 * m)%nat by lia.
      destruct m as [ | m']; [reflexivity | ].
      assert (60 < data_sz - i).
      { assert (1 <= (data_sz - (i + 60) + 59) / 60).
        { assert (Q : (data_sz - (i + 60) + 59) / 60
                      = (data_sz - i + 59) / 60 - 1)
            by (Z.div_mod_to_equations; lia).
          lia. }
        Z.div_mod_to_equations. lia. }
      f_equal. rewrite skipn_app.
      replace (60 - length L)%nat with O by lia.
      rewrite skipn_O. symmetry. f_equal. subst L. rewrite skipn_skipn.
      f_equal. lia.
Qed.

End HostStreamWrite.

Lemma chunks_bounds (n : Z) :
  0 <= n ->
  (Z.to_nat n <= 60 * Host.chunks n <= Z.to_nat n + 59)%nat.
Proof.
  intros Hn. unfold Host.chunks.
  assert (0 <= (n + 59) / 60) by (apply Z.div_pos; lia).
  assert (n <= 60 * ((n + 59) / 60) <= n + 59)
    by (Z.div_mod_to_equations; lia).
  lia.
Qed.

Lemma firstn_zeros (k m : nat) :
  (k <= m)%nat -> firstn k (repeat 0 m) = repeat 0 k.
Proof.
  revert m. induction k as [ | k IH]; intros m H; [reflexivity | ].
  destruct m as [ | m]; [lia | ].
  cbn [repeat firstn]. rewrite IH by lia. reflexivity.
Qed.

Lemma padded (data : list Z) (c : nat) :
  (length data <= 60 * c <= length data + 59)%nat ->
  firstn (60 * c) (data ++ repeat 0 59)
  = data ++ repeat 0 (60 * c - length data).
Proof.
  intros H. rewrite firstn_app, firstn_all2 by lia. f_equal.
  apply firstn_zeros. lia.
Qed.

(** X17: a stream write of any length up to the size of the chip, end to
    end.  The host sends the frame, the data, and zeros that fill the last
    chunk up to 60 bytes, so that the payload is a multiple of 60 bytes
    long; it waits for one acknowledgment per chunk and returns 0 when each
    is the byte 60.  Given those bytes and a chip that acknowledges every
    pentad, the sketch answers 60 once per chunk, takes every byte the host
    sent and inserts no wait. *)
Theorem stream_write_of_any_length :
  forall (n : Z) (data : list Z) (PORTD0 : Z)
         (pin_sel : Firmware.trace -> bool) (garbage : list Z),
    0 <= n <= 0x20000 ->
    length data = Z.to_nat n ->
    let c := Host.chunks n in
    let line := repeat 60 c in
    let host := Host.serial_write_byte_stream (Host.ready line)
                  (Host.arriving (Host.fed line)) Host.writable data n [] in
    let bytes := Host.wire (snd host) in
    let firmware := Firmware.command PORTD0 Firmware.acking pin_sel
                      (Firmware.fed (tl bytes)) garbage (hd 0 bytes) [] in
    fst host = 0 /\
    bytes = [u8 (Z.lor 0xc0 (Z.shiftr n 16));
             Z.land (Z.shiftr n 8) 0xff; Z.land n 0xff]
            ++ data ++ repeat 0 (60 * c - Z.to_nat n) /\
    Host.received (snd host) = c /\
    Firmware.sent (snd firmware) = line /\
    Firmware.consumed (snd firmware) = length (tl bytes) /\
    Firmware.delays (snd firmware) = [].
Proof.
  intros n data PORTD0 pin_sel garbage Hn Ld c line host bytes firmware.
  assert (Hacks : Forall (fun b => b = 60) line).
  { subst line. apply Forall_forall. intros b Hb.
    apply repeat_spec in Hb. exact Hb. }
  pose proof (chunks_bounds n (proj1 Hn)) as Cb. fold c in Cb.
  assert (Hhost : fst host = 0 /\
                  bytes = [u8 (Z.lor 0xc0 (Z.shiftr n 16));
                           Z.land (Z.shiftr n 8) 0xff; Z.land n 0xff]
                          ++ data ++ repeat 0 (60 * c - Z.to_nat n) /\
                  Host.received (snd host) = c).
  { subst bytes host. unfold Host.serial_write_byte_stream. cbv zeta.
    rewrite run_bind, (write_run Host.writable _ [] eq_refl).
    cbv beta iota delta [fst snd].
    change (Z.of_nat (length [u8 (Z.lor 192 (Z.shiftr n 16));
                              Z.land (Z.shiftr n 8) 255; Z.land n 255]) <=? 0)
      with false. cbv iota.
    rewrite run_bind.
    destruct (write_rounds_run data line Hacks n) with (m := c) (i := 0)
      (ack := 0x69)
      (h := [] ++ [Host.Tx [u8 (Z.lor 192 (Z.shiftr n 16));
                            Z.land (Z.shiftr n 8) 255; Z.land n 255]])
      as (ack' & t & E & W & R).
    - unfold Host.BIOS_SIZE in *. lia.
    - exact Ld.
    - lia.
    - subst c. unfold Host.chunks. rewrite Z.sub_0_r. reflexivity.
    - subst line. rewrite repeat_length. cbn. lia.
    - match goal with
      | |- context [for_step ?m 0 60 105 ?body ?h] =>
          assert (E' : for_step m 0 60 105 body h = (inl ack', t)) by exact E;
          rewrite E'
      end.
      cbv beta iota delta [fst snd Host.printf emit ret].
      split; [reflexivity | ].
      split.
      + rewrite !wire_app, W. cbn [Host.wire app Z.to_nat skipn].
        rewrite app_nil_r, padded by lia. rewrite Ld. reflexivity.
      + rewrite !received_app, R. cbn. lia. }
  destruct Hhost as (H1 & H2 & H3).
  split; [exact H1 | ]. split; [exact H2 | ]. split; [exact H3 | ].
  subst firmware. rewrite H2. cbn [app hd tl].
  destruct (read_size_decodes 0xc0 n (or_intror eq_refl) Hn) as [T D].
  cbv zeta in T, D.
  unfold Firmware.command. cbv zeta. rewrite T.
  change (192 =? 0) with false. change (192 =? 64) with false.
  change (192 =? 128) with false. change (192 =? 192) with true. cbv iota.
  unfold Firmware.write_byte_stream.
  rewrite !run_bind.
  set (rest := Z.land (Z.shiftr n 8) 255 :: Z.land n 255
               :: data ++ repeat 0 (60 * c - Z.to_nat n)).
  assert (Es : Firmware.read_size (Firmware.fed rest) (u8 (Z.lor 192 (Z.shiftr n 16))) []
               = (n, [Firmware.SerialRead [Z.land (Z.shiftr n 8) 255;
                                           Z.land n 255]])).
  { apply D. subst rest. cbn [Firmware.fed Firmware.consumed skipn map firstn].
    rewrite !u8_land, <- !Z.land_assoc. reflexivity. }
  rewrite Es. cbn [fst snd app].
  rewrite ?run_bind.
  match goal with
  | |- context [for_range (Z.to_nat n) 0 garbage ?body ?h] =>
      destruct (stream_rounds PORTD0 rest (Z.to_nat n) 0 garbage h)
        as (buf' & t & E & S & C & Dl)
  end.
  { lia. }
  { lia. }
  { rewrite refills_chunks by lia. fold c. subst rest.
    cbn [Firmware.consumed length]. rewrite length_app, repeat_length. lia. }
  rewrite refills_chunks in S, C by lia. fold c in S, C.
  rewrite E. cbn [fst snd ret app truthy Z.eqb negb].
  match goal with
  | |- context [Firmware.outp PORTD0 Firmware.acking ?d ?h] =>
      destruct (fw_outp_acking_bus PORTD0 d h) as (tr & Er & Br); rewrite Er
  end.
  destruct (bus_only_quiet_serial tr Br) as (Sr & Cr & Dr).
  cbn [fst snd].
  rewrite ?app_nil_r.
  repeat (rewrite ?consumed_app, ?sent_app, ?delays_app;
          cbn [Firmware.consumed Firmware.sent Firmware.delays length]).
  rewrite S, C, Dl, Sr, Cr, Dr, ?app_nil_r.
  split; [reflexivity | ]. split; [ | reflexivity].
  subst rest. cbn [length]. rewrite length_app, repeat_length. lia.
Qed.

Lemma stream_write_of_any_length_witness :
  let c := Host.chunks 61 in
  let line := repeat 60 c in
  let host := Host.serial_write_byte_stream (Host.ready line)
                (Host.arriving (Host.fed line)) Host.writable
                (repeat 0x5a 61) 61 [] in
  let bytes := Host.wire (snd host) in
  let firmware := Firmware.command 0x1 Firmware.acking Firmware.absent
                    (Firmware.fed (tl bytes)) [] (hd 0 bytes) [] in
  fst host = 0 /\
  bytes = [u8 (Z.lor 0xc0 (Z.shiftr 61 16));
           Z.land (Z.shiftr 61 8) 0xff; Z.land 61 0xff]
          ++ repeat 0x5a 61 ++ repeat 0 (60 * c - Z.to_nat 61) /\
  Host.received (snd host) = c /\
  Firmware.sent (snd firmware) = line /\
  Firmware.consumed (snd firmware) = length (tl bytes) /\
  Firmware.delays (snd firmware) = [].
Proof.
  apply (stream_write_of_any_length 61 (repeat 0x5a 61) 0x1 Firmware.absent
           []).
  - lia.
  - vm_compute. reflexivity.
Defined.

(** ** A stream write cut short *)

Lemma short_refill (PORTD0 : Z) (rest : list Z) (i : Z) (buf : list Z)
    (h : Firmware.trace) (short : nat) :
  i mod 60 = 0 ->
  (short < 60)%nat ->
  (Firmware.consumed h + short = length rest)%nat ->
  exists bs,
    Firmware.write_byte_stream_body PORTD0 Firmware.acking (Firmware.fed rest)
      i buf h
    = (inr 1, [Firmware.SerialRead bs; Firmware.SerialWrite (Z.of_nat short)])
    /\ length bs = short.
Proof.
  intros M Hs Hc. unfold Firmware.write_byte_stream_body.
  rewrite M. change (0 =? 0) with true. cbv iota.
  unfold Firmware.Serial_readBytes.
  cbv beta iota zeta delta [bind Firmware.Serial_write emit].
  set (bs := firstn (Z.to_nat 60) (map u8 (Firmware.fed rest h))).
  assert (Lb : length bs = short).
  { subst bs. rewrite length_firstn, length_map. unfold Firmware.fed.
    rewrite length_skipn. change (Z.to_nat 60) with 60%nat. lia. }
  rewrite Lb.
  assert (Us : u8 (Z.of_nat short) = Z.of_nat short)
    by (apply Z.mod_small; lia).
  rewrite !Us.
  destruct (Z.ltb_spec (Z.of_nat short) 60) as [_ | Ge]; [ | lia].
  cbn [ret app]. exists bs. split; [reflexivity | exact Lb].
Qed.

(** X18: when fewer than 60 bytes arrive for a chunk, the sketch gives the
    stream up: after the chunks that came whole, each acknowledged with 60,
    it answers with the number of bytes it got, having taken every byte
    that arrived, and [loop] then waits ten seconds, for the host to time
    out. *)
Theorem short_chunk_stops_the_stream :
  forall (PORTD0 : Z) (pin_sel : Firmware.trace -> bool)
         (garbage payload : list Z) (total : Z) (whole short : nat),
    0 <= total <= 0x20000 ->
    length payload = (60 * whole + short)%nat ->
    (short < 60)%nat ->
    60 * Z.of_nat whole < total ->
    let rest := [Z.land (Z.shiftr total 8) 0xff; Z.land total 0xff]
                ++ payload in
    let run := Firmware.command PORTD0 Firmware.acking pin_sel
                 (Firmware.fed rest) garbage
                 (u8 (Z.lor 0xc0 (Z.shiftr total 16))) [] in
    Firmware.sent (snd run) = repeat 60 whole ++ [Z.of_nat short] /\
    Firmware.consumed (snd run) = length rest /\
    Firmware.delays (snd run) = [10000].
Proof.
  intros PORTD0 pin_sel garbage payload total whole short Ht Lp Hs Hw rest run.
  subst run.
  destruct (read_size_decodes 0xc0 total (or_intror eq_refl) Ht) as [T D].
  cbv zeta in T, D.
  unfold Firmware.command. cbv zeta. rewrite T.
  change (192 =? 0) with false. change (192 =? 64) with false.
  change (192 =? 128) with false. change (192 =? 192) with true. cbv iota.
  unfold Firmware.write_byte_stream.
  rewrite !run_bind.
  assert (Es : Firmware.read_size (Firmware.fed rest)
                 (u8 (Z.lor 192 (Z.shiftr total 16))) []
               = (total, [Firmware.SerialRead [Z.land (Z.shiftr total 8) 255;
                                               Z.land total 255]])).
  { apply D. subst rest. cbn [Firmware.fed Firmware.consumed skipn map firstn app].
    rewrite !u8_land, <- !Z.land_assoc. reflexivity. }
  rewrite Es. cbn [fst snd app].
  rewrite ?run_bind.
  set (h1 := [Firmware.SerialRead [Z.land (Z.shiftr total 8) 255;
                                   Z.land total 255]]).
  assert (Rf : Firmware.refills (60 * whole) 0 = whole).
  { apply Nat2Z.inj. rewrite refills_count by lia.
    change ((0 + 59) / 60) with 0.
    replace (0 + Z.of_nat (60 * whole) + 59) with (59 + Z.of_nat whole * 60) by lia.
    rewrite Z.div_add by lia. change (59 / 60) with 0. lia. }
  destruct (stream_rounds PORTD0 rest (60 * whole) 0 garbage h1)
    as (buf' & t & E & St & C & Dl).
  { lia. }
  { unfold Host.BIOS_SIZE in *. lia. }
  { rewrite Rf. subst rest h1. cbn [Firmware.consumed length app]. lia. }
  rewrite Rf in St, C.
  destruct (short_refill PORTD0 rest (Z.of_nat (60 * whole)) buf' (h1 ++ t) short)
    as (bs & Eb & Lb).
  { replace (Z.of_nat (60 * whole)) with (Z.of_nat whole * 60) by lia.
    apply Z.mod_mul. lia. }
  { exact Hs. }
  { rewrite consumed_app, C. subst rest h1.
    cbn [Firmware.consumed length app]. lia. }
  assert (Eloop : for_range (Z.to_nat total) 0 garbage
                    (Firmware.write_byte_stream_body PORTD0 Firmware.acking
                       (Firmware.fed rest)) h1
                  = (inr 1, t ++ [Firmware.SerialRead bs;
                                  Firmware.SerialWrite (Z.of_nat short)])).
  { replace (Z.to_nat total)
      with ((60 * whole) + S (Z.to_nat total - 60 * whole - 1))%nat by lia.
    rewrite for_range_split by lia.
    rewrite E. cbv beta iota delta [fst snd].
    unfold for_range. rewrite for_step_S, Z.add_0_l, Eb. reflexivity. }
  rewrite Eloop.
  cbn [ret fst snd truthy Z.eqb negb app Firmware.delay emit].
  match goal with
  | |- context [Firmware.outp PORTD0 Firmware.acking ?d ?h] =>
      destruct (fw_outp_acking_bus PORTD0 d h) as (tr & Er & Br); rewrite Er
  end.
  destruct (bus_only_quiet_serial tr Br) as (Sr & Cr & Dr).
  cbn [fst snd].
  rewrite ?app_nil_r.
  repeat (rewrite ?consumed_app, ?sent_app, ?delays_app;
          cbn [Firmware.consumed Firmware.sent Firmware.delays length app]).
  rewrite St, C, Dl, Sr, Cr, Dr, ?Lb, ?app_nil_r.
  split; [reflexivity | ]. split; [ | reflexivity].
  subst rest. cbn [length app]. lia.
Qed.

Lemma short_chunk_stops_the_stream_witness :
  let rest := [Z.land (Z.shiftr 100 8) 0xff; Z.land 100 0xff]
              ++ (repeat 0x5a 60 ++ [1; 2; 3]) in
  let run := Firmware.command 0x1 Firmware.acking Firmware.absent
               (Firmware.fed rest) []
               (u8 (Z.lor 0xc0 (Z.shiftr 100 16))) [] in
  Firmware.sent (snd run) = repeat 60 1 ++ [Z.of_nat 3] /\
  Firmware.consumed (snd run) = length rest /\
  Firmware.delays (snd run) = [10000].
Proof.
  apply (short_chunk_stops_the_stream 0x1 Firmware.absent []
           (repeat 0x5a 60 ++ [1; 2; 3]) 100 1 3).
  - lia.
  - vm_compute. reflexivity.
  - lia.
  - lia.
Defined.

(** ** Reading over the parallel port *)

Lemma skipn_cons_nth (l : list Z) :
  forall k : nat, (k < length l)%nat -> skipn k l = nth k l 0 :: skipn (S k) l.
Proof.
  induction l as [ | x l IH]; intros k H; [cbn in H; lia | ].
  destruct k as [ | k]; [reflexivity | ].
  cbn [skipn nth]. apply IH. cbn in H. lia.
Qed.

Lemma store_same (buf : list Z) (i : Z) :
  (Z.to_nat i < length buf)%nat ->
  store buf i [nth (Z.to_nat i) buf 0] = buf.
Proof.
  intros H. unfold store. cbn [length app].
  rewrite Nat.add_1_r, <- skipn_cons_nth by exact H.
  apply firstn_skipn.
Qed.

Section ReadLoop.

Variable safe_mode : bool.
Variable chip : Host.trace -> Z.

(** A [read_byte] that fails leaves [*out] alone. *)
Lemma read_byte_failed (out : Z) (h : Host.trace) :
  truthy (fst (fst (Host.read_byte safe_mode chip out h))) = true ->
  snd (fst (Host.read_byte safe_mode chip out h)) = out.
Proof.
  unfold Host.read_byte. rewrite run_bind. cbn [fst snd].
  destruct (truthy (fst (Host.outp safe_mode chip Host.CMD_READ h))).
  { rewrite run_bind. cbn [ret fst snd]. reflexivity. }
  rewrite run_bind. cbn [fst snd].
  destruct (fst (for_range 8 0 0 _ _)) as [data | r]; cbn [ret fst snd].
  - intros C. discriminate C.
  - reflexivity.
Qed.

#[local] Abbreviation read_round :=
  (fun (i : Z) (bios_buffer : list Z) =>
     x <- Host.read_byte safe_mode chip (nth (Z.to_nat i) bios_buffer 0) ;;
     let bios_buffer := store bios_buffer i [snd x] in
     if truthy (fst x)
     then Host.eprintf (Host.MsgReadAt i) ;; ret (inr bios_buffer)
     else
       (if i mod (Host.BIOS_SIZE / 100) =? 0
        then Host.printf (Host.MsgPercent (i / (Host.BIOS_SIZE / 100)))
        else ret tt) ;;
       ret (inl bios_buffer)).

(** The loop of [read_bios]: the bytes [vals] it read before it ended or
    gave up are in the buffer, from the index [i] on, and the rest of the
    buffer is as it was. *)
Lemma read_rounds_content (n : nat) :
  forall (i : Z) (buf : list Z) (h : Host.trace),
    0 <= i -> i + Z.of_nat n < 4294967296 ->
    (Z.to_nat i + n <= length buf)%nat ->
    exists (vals : list Z) (t e : Host.trace),
      (length vals <= n)%nat /\
      match fst (for_range n i buf read_round h) with
      | inl b => b
      | inr b => b
      end
      = firstn (Z.to_nat i) buf ++ vals
        ++ skipn (Z.to_nat i + length vals) buf /\
      snd (for_range n i buf read_round h) = t ++ e /\
      Host.reads safe_mode chip h (skipn (Z.to_nat i) buf) vals t /\
      ((length vals < n)%nat ->
       In (Host.Eprintf (Host.MsgReadAt (i + Z.of_nat (length vals)))) e).
Proof.
  unfold for_range.
  induction n as [ | n IH]; intros i buf h Hi Hn Hl.
  { exists [], [], []. cbn [for_step ret fst snd length app].
    rewrite Nat.add_0_r, firstn_skipn.
    split; [lia | ]. split; [reflexivity | ]. split; [reflexivity | ].
    split; [constructor | lia]. }
  rewrite for_step_S.
  cbv beta zeta. rewrite run_bind. cbn [fst snd].
  pose proof (read_byte_failed (nth (Z.to_nat i) buf 0) h) as Hf.
  destruct (Host.read_byte safe_mode chip (nth (Z.to_nat i) buf 0) h)
    as [[r v] tx] eqn:Ex.
  cbn [fst snd] in Hf |- *.
  destruct (truthy r) eqn:Tr.
  - rewrite run_bind. cbn [Host.eprintf emit ret fst snd].
    rewrite (Hf eq_refl), store_same by lia.
    exists [], [], (tx ++ [Host.Eprintf (Host.MsgReadAt i)] ++ []).
    cbn [length app]. rewrite Nat.add_0_r, firstn_skipn, Z.add_0_r.
    split; [lia | ]. split; [reflexivity | ]. split; [reflexivity | ].
    split; [constructor | ].
    intros _. apply in_or_app. right. left. reflexivity.
  - assert (R0 : r = 0).
    { unfold truthy in Tr. apply negb_false_iff, Z.eqb_eq in Tr. exact Tr. }
    subst r.
    rewrite run_bind. cbn [ret fst snd].
    assert (U : u32 (i + 1) = i + 1) by (apply Z.mod_small; lia).
    rewrite U.
    set (p := snd ((if i mod (Host.BIOS_SIZE / 100) =? 0
                    then Host.printf
                           (Host.MsgPercent (i / (Host.BIOS_SIZE / 100)))
                    else ret tt) (h ++ tx))).
    assert (Ls : length (store buf i [v]) = length buf)
      by (apply store_length; cbn [length]; lia).
    match goal with
    | |- context [for_step n (i + 1) 1 ?b ?body ?h'] =>
        destruct (IH (i + 1) b h') as (vals & t & e & Lv & B & T & Rd & F);
          [lia | lia | rewrite Ls; lia | ];
        assert (Eh : h' = h ++ tx ++ p ++ [])
          by (rewrite <- ?app_assoc; reflexivity)
    end.
    try rewrite Eh in Rd.
    assert (B1 : firstn (Z.to_nat (i + 1)) (store buf i [v])
                 = firstn (Z.to_nat i) buf ++ [v]).
    { replace (Z.to_nat (i + 1)) with (Z.to_nat i + length [v])%nat
        by (cbn [length]; lia).
      apply store_firstn. lia. }
    assert (B2 : forall m, skipn (Z.to_nat (i + 1) + m) (store buf i [v])
                           = skipn (Z.to_nat i + S m) buf).
    { intros m.
      replace (Z.to_nat (i + 1) + m)%nat
        with (m + (Z.to_nat i + length [v]))%nat by (cbn [length]; lia).
      rewrite <- skipn_skipn, store_skipn by lia.
      rewrite skipn_skipn. f_equal. cbn [length]. lia. }
    assert (B3 : skipn (Z.to_nat (i + 1)) (store buf i [v])
                 = skipn (S (Z.to_nat i)) buf).
    { rewrite <- (Nat.add_0_r (Z.to_nat (i + 1))), B2. f_equal. lia. }
    rewrite B1, B2 in B. rewrite B3 in Rd.
    exists (v :: vals), (tx ++ (p ++ []) ++ t), e.
    split; [cbn [length]; lia | ].
    split.
    { rewrite B. rewrite <- !app_assoc. cbn [app length].
      rewrite Nat.add_succ_r. reflexivity. }
    split.
    { rewrite T. rewrite <- !app_assoc. reflexivity. }
    split.
    { rewrite (skipn_cons_nth buf (Z.to_nat i)) by lia.
      apply Host.reads_next; [exact Ex | exact Rd]. }
    intros L. cbn [length] in L |- *.
    replace (i + Z.of_nat (S (length vals)))
      with (i + 1 + Z.of_nat (length vals)) by lia.
    apply F. lia.
Qed.

End ReadLoop.

(** X19: over the parallel port, once the chip took the read-initialization
    sequence and the output file can be created, [read_bios] returns 0
    whether or not every byte was read.  The file it writes has the size of
    the chip: it starts with the bytes that the calls of [read_byte]
    stored, one after the other, before the first call that failed, and
    goes on with what the buffer held before, which nothing has
    initialized; the address reported is the number of bytes that were
    read. *)
Theorem read_bios_returns_0_whatever_was_read :
  forall (safe_mode : bool) (chip sel : Host.trace -> Z)
         (incoming : Host.trace -> option (list Z))
         (wr_ok fopen_ok : Host.trace -> bool)
         (fuel : nat) (garbage : list Z) (h : Host.trace),
    length garbage = Z.to_nat Host.BIOS_SIZE ->
    (forall h', fopen_ok h' = true) ->
    fst (Host.init_read_mode safe_mode chip
           (h ++ [Host.Printf Host.MsgReadingTo])) = 0 ->
    let run := Host.read_bios safe_mode chip false sel incoming wr_ok
                 fopen_ok fuel garbage h in
    fst run = Some 0 /\
    exists (vals : list Z) (before loop after : Host.trace),
      (length vals <= Z.to_nat Host.BIOS_SIZE)%nat /\
      snd run = before ++ loop ++ after /\
      Host.reads safe_mode chip (h ++ before) garbage vals loop /\
      last (snd run) (Host.Printf Host.MsgReadingTo)
      = Host.Fwrite (vals ++ skipn (length vals) garbage) /\
      length (vals ++ skipn (length vals) garbage)
      = Z.to_nat Host.BIOS_SIZE /\
      ((length vals < Z.to_nat Host.BIOS_SIZE)%nat ->
       In (Host.Eprintf (Host.MsgReadAt (Z.of_nat (length vals)))) after).
Proof.
  intros safe_mode chip sel incoming wr_ok fopen_ok fuel garbage h Lg Hf Hi run.
  subst run. unfold Host.read_bios.
  cbv beta iota zeta delta [bind Host.printf emit ret andb for_range
                             Host.fwrite_all Host.fopen].
  destruct (Host.init_read_mode safe_mode chip _) as [r ti].
  cbn [fst] in Hi. subst r. cbn [truthy Z.eqb negb].
  assert (Hb : Z.of_nat (Z.to_nat Host.BIOS_SIZE) < 4294967296)
    by (rewrite Z2Nat.id; unfold Host.BIOS_SIZE; lia).
  revert Lg Hb. generalize (Z.to_nat Host.BIOS_SIZE). intros size Lg Hb.
  pose proof (read_rounds_content safe_mode chip size 0 garbage) as Lx.
  cbv beta iota zeta delta [bind Host.printf emit ret andb for_range] in Lx.
  match goal with
  | |- context [for_step size 0 1 garbage ?body ?h'] =>
      destruct (Lx h' ltac:(lia) ltac:(lia) ltac:(lia))
        as (vals & t & e & Lv & B & T & Rd & F);
      destruct (for_step size 0 1 garbage body h') as [x tl]
  end.
  cbn [fst snd] in B, T. cbn [Z.to_nat firstn app Nat.add] in B, Rd.
  destruct (Host.outp safe_mode chip Host.CMD_RESET _) as [rr tr].
  rewrite Hf. cbn [negb].
  split; [reflexivity | ].
  assert (Lw : length (vals ++ skipn (length vals) garbage) = size)
    by (rewrite length_app, length_skipn; lia).
  exists vals,
    ([Host.Printf Host.MsgReadingTo] ++ ti ++ [Host.Printf Host.MsgReading]),
    t,
    (e ++ tr ++ [Host.Printf Host.MsgReadComplete] ++ [Host.Fopen true]
       ++ [Host.Fwrite (vals ++ skipn (length vals) garbage)]).
  split; [exact Lv | ]. split; [ | split; [ | split; [ | split]]].
  - cbn [snd]. rewrite T, B, ?app_nil_r.
    rewrite (firstn_all2 (n := size)) by (rewrite Lw; apply Nat.le_refl).
    rewrite <- !app_assoc. reflexivity.
  - rewrite ?app_nil_r in Rd. rewrite <- ?app_assoc in Rd.
    rewrite <- ?app_assoc. exact Rd.
  - cbn [snd]. rewrite B, ?app_nil_r.
    rewrite (firstn_all2 (n := size)) by (rewrite Lw; apply Nat.le_refl).
    repeat rewrite app_assoc. apply last_last.
  - exact Lw.
  - intros L. apply in_or_app. left. apply F. exact L.
Qed.

Lemma read_bios_returns_0_whatever_was_read_witness :
  let run := Host.read_bios false Host.absent false Host.timing_out
               Host.no_bytes Host.writable Host.creatable 0
               Host.blank [] in
  fst run = Some 0 /\
  exists (vals : list Z) (before loop after : Host.trace),
    (length vals <= Z.to_nat Host.BIOS_SIZE)%nat /\
    snd run = before ++ loop ++ after /\
    Host.reads false Host.absent ([] ++ before) Host.blank vals loop /\
    last (snd run) (Host.Printf Host.MsgReadingTo)
    = Host.Fwrite (vals ++ skipn (length vals) Host.blank) /\
    length (vals ++ skipn (length vals) Host.blank)
    = Z.to_nat Host.BIOS_SIZE /\
    ((length vals < Z.to_nat Host.BIOS_SIZE)%nat ->
     In (Host.Eprintf (Host.MsgReadAt (Z.of_nat (length vals)))) after).
Proof.
  apply (read_bios_returns_0_whatever_was_read false Host.absent
           Host.timing_out Host.no_bytes Host.writable
           Host.creatable 0 Host.blank []).
  - apply repeat_length.
  - reflexivity.
  - vm_compute. reflexivity.
Defined.

(** ** Comparing over the serial bridge *)

Lemma first_difference_spec (expect actual : list Z) (n : Z) :
  n < 18446744073709551616 ->
  forall (rounds : nat) (i : Z),
    0 <= i <= n -> (Z.to_nat n - Z.to_nat i <= rounds)%nat ->
    let k := Loader.first_difference rounds i expect actual n in
    i <= k <= n /\
    (forall j, i <= j < k ->
       nth (Z.to_nat j) expect 0 = nth (Z.to_nat j) actual 0) /\
    (k < n -> nth (Z.to_nat k) expect 0 <> nth (Z.to_nat k) actual 0).
Proof.
  intros Hn. induction rounds as [ | rounds IH]; intros i Hi Hr k; subst k.
  - cbn [Loader.first_difference]. split; [lia | ]. split; [ | lia].
    intros j Hj. lia.
  - cbn [Loader.first_difference].
    destruct (Z.eqb_spec (nth (Z.to_nat i) expect 0) (nth (Z.to_nat i) actual 0))
      as [Q | Q]; cbn [andb].
    + destruct (Z.ltb_spec i n) as [L | L].
      * assert (S1 : Loader.size_t (i + 1) = i + 1)
          by (apply Z.mod_small; lia).
        rewrite S1.
        destruct (IH (i + 1)) as (A & B & C); [lia | lia | ].
        split; [lia | ]. split; [ | exact C].
        intros j Hj. destruct (Z.eq_dec j i) as [-> | N]; [exact Q | ].
        apply B. lia.
      * split; [lia | ]. split; [ | lia]. intros j Hj. lia.
    + split; [lia | ]. split; [ | intros _; exact Q]. intros j Hj. lia.
Qed.

Lemma firstn_nth_eq (a b : list Z) :
  forall n : nat,
    (n <= length a)%nat -> (n <= length b)%nat ->
    (forall j, (j < n)%nat -> nth j a 0 = nth j b 0) ->
    firstn n a = firstn n b.
Proof.
  revert b. induction a as [ | x a IH]; intros b n La Lb H.
  - cbn in La. assert (n = O) by lia. subst n. reflexivity.
  - destruct n as [ | n]; [reflexivity | ].
    destruct b as [ | y b]; [cbn in Lb; lia | ].
    cbn [firstn]. f_equal.
    + exact (H O ltac:(lia)).
    + apply IH; [cbn in La; lia | cbn in Lb; lia | ].
      intros j Hj. exact (H (S j) ltac:(lia)).
Qed.

Lemma nth_firstn_lt (a : list Z) (n j : nat) :
  (j < n)%nat -> nth j (firstn n a) 0 = nth j a 0.
Proof.
  revert n j. induction a as [ | x a IH]; intros n j H.
  - rewrite firstn_nil. reflexivity.
  - destruct n as [ | n]; [lia | ]. destruct j as [ | j]; [reflexivity | ].
    cbn [firstn nth]. apply IH. lia.
Qed.

Lemma stream_read_length (sel : Host.trace -> Z)
    (incoming : Host.trace -> option (list Z)) (wr_ok : Host.trace -> bool)
    (fuel : nat) (buf buf' : list Z) (max r : Z) (h : Host.trace) :
  0 <= max < 4294967296 ->
  (Z.to_nat max <= length buf)%nat ->
  fst (Host.serial_read_byte_stream sel incoming wr_ok fuel buf max h)
  = Some (r, buf') ->
  length buf' = length buf.
Proof.
  intros Hm Hl H.
  unfold Host.serial_read_byte_stream in H. cbv zeta in H.
  cbv beta delta [bind] in H.
  destruct (Host.write wr_ok _ h) as [w tw].
  destruct (w <=? 0).
  { cbv beta iota delta [Host.eprintf emit ret] in H.
    injection H as _ <-. reflexivity. }
  match type of H with
  | context [Host.read_stream_loop sel incoming fuel 0 max buf ?h'] =>
      destruct (Host.read_stream_loop sel incoming fuel 0 max buf h')
        as [x tl] eqn:El
  end.
  cbn [fst snd] in H. subst x.
  apply (f_equal fst) in El. cbn [fst] in El.
  apply read_stream_loop_length in El; [exact El | lia | lia | lia].
Qed.

(** X20: over the serial bridge, once the chip took the read-initialization
    sequence, [compare_bios] asks for as many bytes as the file has and
    returns what that stream and the comparison give: 1 when the stream
    failed; 0 when the bytes stored are the bytes of the file; and
    otherwise 1, after it named the address of the first byte that
    differs.  It never finds a difference and returns 0. *)
Theorem compare_bios_over_serial :
  forall (safe_mode : bool) (chip sel : Host.trace -> Z)
         (incoming : Host.trace -> option (list Z)) (wr_ok : Host.trace -> bool)
         (file_opens : bool) (file_size : Z) (file_data : list Z)
         (fuel : nat) (garbage garbage_actual : list Z) (h : Loader.trace),
    Loader.readable file_opens file_size file_data ->
    (Z.to_nat file_size <= length garbage_actual)%nat ->
    fst (Host.init_read_mode safe_mode chip (Loader.lower h)) = 0 ->
    let h1 := Loader.lower h
              ++ snd (Host.init_read_mode safe_mode chip (Loader.lower h)) in
    let stream := Host.serial_read_byte_stream sel incoming wr_ok fuel
                    garbage_actual file_size h1 in
    let run := Loader.compare_bios safe_mode true chip sel incoming wr_ok
                 file_opens file_size file_data fuel garbage garbage_actual
                 h in
    let file := Loader.contents file_size file_data in
    match fst stream with
    | None => fst run = None
    | Some (failed, actual) =>
        let got := firstn (Z.to_nat file_size) actual in
        if truthy failed then fst run = Some (Loader.Returned 1)
        else
          fst run = Some (Loader.Returned 0) /\ got = file \/
          fst run = Some (Loader.Returned 1) /\
          exists k, (k < length file)%nat /\
            firstn k got = firstn k file /\
            nth k got 0 <> nth k file 0 /\
            In (Loader.Eprintf (Loader.MsgFirstDifference (Z.of_nat k)))
               (snd run)
    end.
Proof.
  intros safe_mode chip sel incoming wr_ok file_opens file_size file_data
    fuel garbage garbage_actual h R La Hi h1 stream run file.
  pose proof R as (Ho & Hs & Hl). unfold Host.BIOS_SIZE in Hs.
  assert (Lf : length file = Z.to_nat file_size).
  { subst file. unfold Loader.contents.
    rewrite length_firstn, length_map. lia. }
  subst run. unfold Loader.compare_bios.
  rewrite run_bind, (load_readable _ _ _ garbage h R).
  cbn [fst snd]. cbv zeta. fold file.
  destruct (Z.leb_spec file_size 0) as [C | _]; [lia | ].
  rewrite run_bind. cbn [Loader.printf emit fst snd].
  rewrite run_bind, call_run. lower_simpl. rewrite ?app_nil_r.
  rewrite Hi. cbn [truthy Z.eqb negb fst snd].
  rewrite run_bind, run_bind, call_run. lower_simpl. rewrite ?app_nil_r.
  fold h1. fold stream.
  destruct (fst stream) as [[failed actual] | ] eqn:Es;
    [ | cbn [ret fst snd]; reflexivity].
  cbv zeta. cbn [fst].
  destruct (truthy failed) eqn:Tf; [cbn [ret fst snd]; reflexivity | ].
  assert (F0 : failed = 0).
  { unfold truthy in Tf. apply negb_false_iff, Z.eqb_eq in Tf. exact Tf. }
  subst failed.
  assert (Lact : length actual = length garbage_actual).
  { apply (stream_read_length sel incoming wr_ok fuel garbage_actual actual
             file_size 0 h1); [lia | exact La | exact Es]. }
  set (expect := store garbage 0 file).
  assert (Ne : forall j, (j < Z.to_nat file_size)%nat ->
                nth j expect 0 = nth j file 0).
  { intros j Hj. apply nth_store_contents. lia. }
  unfold Loader.memcmp.
  destruct (list_eq_dec Z.eq_dec (firstn (Z.to_nat file_size) expect)
              (firstn (Z.to_nat file_size) actual)) as [Q | Q].
  - cbn [ret fst snd]. left. split; [reflexivity | ].
    rewrite <- Q. subst expect. unfold store.
    cbn [Z.to_nat firstn app Nat.add].
    rewrite firstn_app, firstn_all2 by lia.
    replace (Z.to_nat file_size - length file)%nat with O by lia.
    cbn [firstn]. apply app_nil_r.
  - set (i := Loader.first_difference (Z.to_nat file_size) 0 expect actual
                file_size).
    destruct (first_difference_spec expect actual file_size ltac:(lia)
                (Z.to_nat file_size) 0 ltac:(lia) ltac:(lia))
      as (B1 & B2 & B3).
    fold i in B1, B2, B3.
    assert (Li : i < file_size).
    { destruct (Z.ltb_spec i file_size) as [L | L]; [exact L | ].
      exfalso. apply Q. apply firstn_nth_eq.
      - subst expect. unfold store. rewrite !length_app. lia.
      - lia.
      - intros j Hj.
        rewrite <- (Nat2Z.id j). apply B2. lia. }
    destruct (Z.ltb_spec i file_size) as [_ | G]; [ | lia].
    rewrite run_bind. cbn [Loader.eprintf emit ret fst snd].
    right. split; [reflexivity | ].
    exists (Z.to_nat i). rewrite Z2Nat.id by lia.
    split; [lia | ]. split; [ | split].
    + apply firstn_nth_eq.
      * rewrite length_firstn. lia.
      * lia.
      * intros j Hj. rewrite nth_firstn_lt by lia.
        rewrite <- (Ne j) by lia.
        rewrite <- (Nat2Z.id j). symmetry. apply B2. lia.
    + rewrite nth_firstn_lt by lia. rewrite <- (Ne (Z.to_nat i)) by lia.
      intros X. apply B3; [exact Li | ]. symmetry. exact X.
    + rewrite ?app_nil_r. right. apply in_or_app. right.
      apply in_or_app. right. left. reflexivity.
Qed.

Lemma compare_bios_over_serial_witness :
  let h1 := Loader.lower []
            ++ snd (Host.init_read_mode false Host.absent (Loader.lower [])) in
  let stream := Host.serial_read_byte_stream (Host.ready [1; 2; 9])
                  (Host.arriving (Host.fed [1; 2; 9])) Host.writable 3
                  [0; 0; 0] 3 h1 in
  let run := Loader.compare_bios false true Host.absent
               (Host.ready [1; 2; 9]) (Host.arriving (Host.fed [1; 2; 9]))
               Host.writable true 3 [1; 2; 3] 3 [0; 0; 0] [0; 0; 0] [] in
  let file := Loader.contents 3 [1; 2; 3] in
  match fst stream with
  | None => fst run = None
  | Some (failed, actual) =>
      let got := firstn (Z.to_nat 3) actual in
      if truthy failed then fst run = Some (Loader.Returned 1)
      else
        fst run = Some (Loader.Returned 0) /\ got = file \/
        fst run = Some (Loader.Returned 1) /\
        exists k, (k < length file)%nat /\
          firstn k got = firstn k file /\
          nth k got 0 <> nth k file 0 /\
          In (Loader.Eprintf (Loader.MsgFirstDifference (Z.of_nat k)))
             (snd run)
  end.
Proof.
  apply (compare_bios_over_serial false Host.absent (Host.ready [1; 2; 9])
           (Host.arriving (Host.fed [1; 2; 9])) Host.writable true 3
           [1; 2; 3] 3 [0; 0; 0] [0; 0; 0] []).
  - split; [reflexivity | ]. split; [unfold Host.BIOS_SIZE; lia | ].
    vm_compute. lia.
  - vm_compute. lia.
  - vm_compute. reflexivity.
Defined.
